(** * Static performance-analysis toolkit: a shallow embedding

    The development follows three source files of the repository:
    - [performance-analyzer.js]      (class [PerformanceAnalyzer]),
    - [bundle-analyzer.js]           (class [BundleAnalyzer]),
    - [run-performance-analysis.js]  (class [PerformanceAnalysisRunner] and
      its command-line entry).

    JavaScript values are represented as follows.
    - Strings are [string]; the [String.prototype] methods the code uses
      ([includes], [startsWith], [endsWith], [split], [toLowerCase]) are
      written out in module [JS].
    - Numbers are [Z]: every number the code computes with is an integer
      (byte sizes, counters, the score) far below 2^53, where double
      arithmetic is exact.
    - A thrown exception is the [Throw] case of [result]; [try]/[catch] is
      [try_catch].
    - The file system is a tree ([Fs.node]); a path is the list of its
      segments below the project root ([process.cwd()]), so that
      [path.join dir name] appends a segment and
      [path.relative projectRoot p] is [p] itself.
    - [JSON.parse] belongs to the runtime: it is a component of the
      environment of a run ([World]), and the statements hold for every
      such function.
    - The [async] methods await one another in sequence; a rejected
      promise is a thrown exception.
    - The two recursive directory walks carry a bound on their depth; the
      height of the tree is always enough ([getAllFiles_spec],
      [findFiles_spec]).
    - [console.log] output is not part of the model. *)

From Stdlib Require Import ZArith List String Ascii Bool Arith Lia Permutation Sorted.
Import ListNotations.

#[local] Set Warnings "-register-all".

Set Implicit Arguments.

(** ** Exceptions and the error monad *)

Inductive exn : Type :=
| ENOENT      (* no such file or directory *)
| EACCES      (* permission denied *)
| ENOTDIR     (* readdir on something that is not a directory *)
| EISDIR      (* readFile on a directory *)
| SyntaxError (* JSON.parse on text that is not JSON *)
| TypeError   (* property read on null *)
| RangeError  (* String.prototype.repeat with a negative count; call stack exhausted *).

Inductive result (A : Type) : Type :=
| Ret (a : A)
| Throw (e : exn).

Arguments Ret {A} a.
Arguments Throw {A} e.

Definition bind {A B : Type} (m : result A) (k : A -> result B) : result B :=
  match m with
  | Ret a => k a
  | Throw e => Throw e
  end.

Declare Scope js_scope.
Delimit Scope js_scope with js.
Notation "x <- m ;; k" := (bind m (fun x => k))
  (at level 100, m at next level, right associativity) : js_scope.
Notation "m ;;; k" := (bind m (fun _ => k))
  (at level 100, right associativity) : js_scope.
Open Scope js_scope.

(** [try { body } catch (error) { handler }] *)
Definition try_catch {A : Type} (body : result A) (handler : exn -> result A) : result A :=
  match body with
  | Ret a => Ret a
  | Throw e => handler e
  end.

(** [for (const x of l) { s = body s x }]: the loop stops at the first
    exception, which leaves the loop. *)
Fixpoint for_of {A S : Type} (l : list A) (body : S -> A -> result S) (s : S) : result S :=
  match l with
  | [] => Ret s
  | x :: l' =>
      match body s x with
      | Ret s' => for_of l' body s'
      | Throw e => Throw e
      end
  end.

Definition returns {A : Type} (m : result A) : bool :=
  match m with Ret _ => true | Throw _ => false end.

(** ** JavaScript string and array primitives *)

Module JS.

Open Scope string_scope.

(** [s.startsWith(p)] *)
Definition startsWith (s p : string) : bool := String.prefix p s.

(** [s.endsWith(suf)] *)
Fixpoint endsWith (s suf : string) : bool :=
  String.eqb s suf ||
  match s with
  | EmptyString => false
  | String _ t => endsWith t suf
  end.

(** [s.includes(needle)] *)
Fixpoint includes (s needle : string) : bool :=
  String.prefix needle s ||
  match s with
  | EmptyString => false
  | String _ t => includes t needle
  end.

Definition newline : ascii := "010"%char.

(** [s.split('\n')]: always at least one piece. *)
Fixpoint split_lines (s : string) : list string :=
  match s with
  | EmptyString => [EmptyString]
  | String c t =>
      if Ascii.eqb c newline then EmptyString :: split_lines t
      else match split_lines t with
           | l :: ls => String c l :: ls
           | [] => [String c EmptyString]
           end
  end.

Definition lower_char (c : ascii) : ascii :=
  let n := nat_of_ascii c in
  if ((65 <=? n)%nat && (n <=? 90)%nat)%bool then ascii_of_nat (n + 32) else c.

(** [s.toLowerCase()] on ASCII text *)
Fixpoint toLowerCase (s : string) : string :=
  match s with
  | EmptyString => EmptyString
  | String c t => String (lower_char c) (toLowerCase t)
  end.

(** [arr.includes(x)] for an array of strings *)
Definition arr_includes (arr : list string) (x : string) : bool :=
  existsb (String.eqb x) arr.

(** [s.repeat(n)]: a negative count throws a RangeError. *)
Definition repeat (s : string) (n : Z) : result string :=
  if (n <? 0)%Z then Throw RangeError
  else Ret (String.concat EmptyString (List.repeat s (Z.to_nat n))).

(** [Math.round (a / b)] for integers [a] and [b > 0]: nearest integer,
    halves rounded up. *)
Definition round_div (a b : Z) : Z := ((2 * a + b) / (2 * b))%Z.

(** The stable sort of [Array.prototype.sort] with the comparator
    [(a, b) => key b - key a]: descending by [key], equal keys in their
    original order. *)
Section Sort.
Variable A : Type.
Variable key : A -> Z.

Fixpoint insert_desc (x : A) (l : list A) : list A :=
  match l with
  | [] => [x]
  | y :: l' => if (key x <? key y)%Z then y :: insert_desc x l' else x :: l
  end.

Fixpoint sort_desc (l : list A) : list A :=
  match l with
  | [] => []
  | x :: l' => insert_desc x (sort_desc l')
  end.
End Sort.

End JS.

(** ** The file system *)

Definition path := list string.

Module Path.

(** [path.join(dir, name)] *)
Definition join (dir : path) (name : string) : path := dir ++ [name].

(** [path.basename(p)] *)
Definition basename (p : path) : string := last p EmptyString.

(** The suffix of [s] that starts at its last dot. *)
Fixpoint last_dot_suffix (s : string) : option string :=
  match s with
  | EmptyString => None
  | String c t =>
      match last_dot_suffix t with
      | Some e => Some e
      | None => if Ascii.eqb c "."%char then Some s else None
      end
  end.

(** [path.extname] of a file name: from the last dot to the end; empty
    when there is no dot, when the only dot is the first character, and
    for [".."]. *)
Definition extname_of_name (name : string) : string :=
  if String.eqb name ".."%string then EmptyString
  else match name with
       | EmptyString => EmptyString
       | String _ t =>
           match last_dot_suffix t with
           | Some e => e
           | None => EmptyString
           end
       end.

(** [path.extname(p)] *)
Definition extname (p : path) : string := extname_of_name (basename p).

End Path.

Module Fs.

(** A node of the tree under the project root.  [Other] stands for what
    a [Dirent] reports as neither a file nor a directory (symbolic link,
    socket, device). *)
Inductive node : Type :=
| File (size : Z) (content : string)
| Dir (readable : bool) (entries : list (string * node))
| Other.

Record Dirent : Type := mkDirent {
  name : string;
  isDirectory : bool;
  isFile : bool
}.

Record Stats : Type := mkStats { size : Z }.

Definition dirent_of (e : string * node) : Dirent :=
  match snd e with
  | File _ _ => mkDirent (fst e) false true
  | Dir _ _ => mkDirent (fst e) true false
  | Other => mkDirent (fst e) false false
  end.

Fixpoint assoc (k : string) (es : list (string * node)) : option node :=
  match es with
  | [] => None
  | (k', n) :: es' => if String.eqb k k' then Some n else assoc k es'
  end.

(** Path resolution from a node. *)
Fixpoint lookup (n : node) (p : path) : option node :=
  match p with
  | [] => Some n
  | c :: p' =>
      match n with
      | Dir _ es =>
          match assoc c es with
          | Some n' => lookup n' p'
          | None => None
          end
      | _ => None
      end
  end.

(** Height of the tree: a bound on the depth of any recursive walk. *)
Fixpoint depth (n : node) : nat :=
  match n with
  | Dir _ es => S (fold_right (fun e d => Nat.max (depth (snd e)) d) 0 es)
  | _ => 0
  end.

(** No name occurs twice in the list. *)
Fixpoint nodup_names (l : list string) : bool :=
  match l with
  | [] => true
  | x :: l' => negb (existsb (String.eqb x) l') && nodup_names l'
  end.

(** Names are unique within every directory of the tree. *)
Fixpoint names_unique (n : node) : bool :=
  match n with
  | Dir _ es =>
      nodup_names (map fst es) && forallb (fun e => names_unique (snd e)) es
  | _ => true
  end.

Section Primitives.

(** The project root directory. *)
Variable root : node.

(** [fs.existsSync(p)] *)
Definition existsSync (p : path) : bool :=
  match lookup root p with Some _ => true | None => false end.

(** [fs.readdirSync(p, { withFileTypes: true })] *)
Definition readdirSync (p : path) : result (list Dirent) :=
  match lookup root p with
  | Some (Dir true es) => Ret (map dirent_of es)
  | Some (Dir false _) => Throw EACCES
  | Some _ => Throw ENOTDIR
  | None => Throw ENOENT
  end.

(** [fs.statSync(p)].  Only the sizes of regular files matter. *)
Definition statSync (p : path) : result Stats :=
  match lookup root p with
  | Some (File sz _) => Ret (mkStats sz)
  | Some _ => Ret (mkStats 0)
  | None => Throw ENOENT
  end.

(** [fs.readFileSync(p, 'utf8')].  What is neither a file nor a
    directory cannot be read. *)
Definition readFileSync (p : path) : result string :=
  match lookup root p with
  | Some (File _ c) => Ret c
  | Some (Dir _ _) => Throw EISDIR
  | Some Other => Throw EACCES
  | None => Throw ENOENT
  end.

End Primitives.

End Fs.

(** ** The package manifest and the environment of a run *)

(** An object whose keys are strings, in [Object.keys] order. *)
Definition dict (A : Type) := list (string * A).

Definition keys {A : Type} (d : dict A) : list string := map fst d.

Fixpoint get {A : Type} (d : dict A) (k : string) : option A :=
  match d with
  | [] => None
  | (k', v) :: d' => if String.eqb k k' then Some v else get d' k
  end.

(** [d[k] = v]: an existing key keeps its place, a new key goes last. *)
Fixpoint set {A : Type} (d : dict A) (k : string) (v : A) : dict A :=
  match d with
  | [] => [(k, v)]
  | (k', v') :: d' =>
      if String.eqb k k' then (k, v) :: d' else (k', v') :: set d' k v
  end.

(** [package.json] as the code reads it: the three maps it looks at, each
    possibly missing, and whether a [sideEffects] key is present. *)
Record PackageJson : Type := mkPackageJson {
  dependencies : option (dict string);
  devDependencies : option (dict string);
  scripts : option (dict string);
  sideEffects : bool
}.

(** What [JSON.parse] returns: [null], an object, or a value without
    properties of its own interest (number, string, boolean, array). *)
Inductive json : Type :=
| JNull
| JObject (pj : PackageJson)
| JPrimitive.

(** [packageJson.field]: reading a property of [null] throws, of a
    primitive gives [undefined]. *)
Definition prop {A : Type} (field : PackageJson -> option A) (j : json) : result (option A) :=
  match j with
  | JNull => Throw TypeError
  | JObject pj => Ret (field pj)
  | JPrimitive => Ret None
  end.

(** [x || {}] *)
Definition or_empty {A : Type} (x : option (dict A)) : dict A :=
  match x with Some d => d | None => [] end.

(** A string in a condition: the empty string is falsy, as is [undefined]. *)
Definition truthy (x : option string) : bool :=
  match x with
  | Some s => negb (String.eqb s EmptyString)
  | None => false
  end.

(** [{ ...a, ...b }[k]]: the value from [b] wins. *)
Definition spread_get (a b : option (dict string)) (k : string) : option string :=
  match get (or_empty b) k with
  | Some v => Some v
  | None => get (or_empty a) k
  end.

(** The environment of a run: the tree under [process.cwd()], the
    runtime's [JSON.parse], and whether files can be written into the
    project root. *)
Record World : Type := mkWorld {
  root : Fs.node;
  JSON_parse : string -> result json;
  writable : bool
}.

(** [fs.writeFileSync(p, data)].  No file the tools write is read back
    within the same run, so the tree is left as it is. *)
Definition writeFileSync (w : World) (p : path) : result unit :=
  if writable w then Ret tt else Throw EACCES.

(** State and exceptions together: a method that updates [this.results]
    and may throw.  The state reached at the throw is kept. *)
Definition M (S A : Type) : Type := S -> result A * S.

(** A method that computes the next [this.results] and assigns it as its
    last action: when it throws, the state is untouched. *)
Definition step {S : Type} (f : S -> result S) : M S unit :=
  fun s => match f s with
           | Ret s' => (Ret tt, s')
           | Throw e => (Throw e, s)
           end.

(** [await a; await b] *)
Definition and_then {S : Type} (a b : M S unit) : M S unit :=
  fun s => match a s with
           | (Ret _, s') => b s'
           | (Throw e, s') => (Throw e, s')
           end.

(** [try { body } catch (error) { console.error(...) }] *)
Definition try_log {S : Type} (body : M S unit) : M S unit :=
  fun s => match body s with
           | (Ret _, s') => (Ret tt, s')
           | (Throw _, s') => (Ret tt, s')
           end.

Notation "a >> b" := (and_then a b) (at level 61, left associativity) : js_scope.

(** [const x = new C(); await x.method(); ... x.results]: the method run
    on a fresh object; its exception, if any, reaches the caller. *)
Definition run_on {S : Type} (m : M S unit) (s : S) : result S :=
  match m s with
  | (Ret _, s') => Ret s'
  | (Throw e, _) => Throw e
  end.

(** A recommendation, as both analyzers build them.  The one field a
    recommendation may carry beyond the four common ones is kept in
    [detail]: [dependencies], [files], [count], or [size], a number with
    two decimals followed by ["MB"] or ["KB"], kept in hundredths with its
    unit. *)
Inductive RecDetail : Type :=
| NoDetail
| DepList (deps : list string)
| FileList (files : list (path * Z))
| Count (n : Z)
| SizeHundredths (n : Z) (unit_ : string).

Record Recommendation : Type := mkRec {
  category : string;
  priority : string;
  issue : string;
  solution : string;
  detail : RecDetail
}.

(** ** [performance-analyzer.js] *)

Module PerformanceAnalyzer.

Import JS Fs.
Open Scope string_scope.
Open Scope Z_scope.

Record DependencyAnalysis : Type := mkDependencyAnalysis {
  totalDependencies : Z;
  totalDevDependencies : Z;
  heavyDependencies : list string;
  duplicateDependencies : list (list string)
}.

(** An entry of [patterns.inefficientPatterns]. *)
Record CodeIssue : Type := mkCodeIssue {
  file : path;
  line : Z;
  what : string
}.

(** An entry of [patterns.largeFiles]: the file and its size, a rounded
    number of KB (the code appends ['KB'] to it). *)
Record LargeFile : Type := mkLargeFile {
  large_file : path;
  large_sizeKB : Z
}.

Record Patterns : Type := mkPatterns {
  largeFiles : list LargeFile;
  inefficientPatterns : list CodeIssue;
  unusedImports : list string;
  inlineStyles : Z;
  consoleStatements : Z
}.

Record BundleConfig : Type := mkBundleConfig {
  hasWebpack : bool;
  hasVite : bool;
  hasRollup : bool;
  hasParcel : bool;
  buildScripts : dict string
}.

(** [this.results].  An analysis that is still the empty object [{}] of
    the constructor is [None]; [projectType] is [None] until assigned. *)
Record Results : Type := mkResults {
  bundleAnalysis : option BundleConfig;
  dependencyAnalysis : option DependencyAnalysis;
  codeAnalysis : option Patterns;
  recommendations : list Recommendation;
  projectType : option string
}.

(** The constructor's [this.results]. *)
Definition initial : Results := mkResults None None None [] None.

Definition set_projectType (r : Results) (t : string) : Results :=
  mkResults (bundleAnalysis r) (dependencyAnalysis r) (codeAnalysis r)
            (recommendations r) (Some t).

Definition set_dependencyAnalysis (r : Results) (d : DependencyAnalysis) : Results :=
  mkResults (bundleAnalysis r) (Some d) (codeAnalysis r)
            (recommendations r) (projectType r).

Definition set_codeAnalysis (r : Results) (p : Patterns) : Results :=
  mkResults (bundleAnalysis r) (dependencyAnalysis r) (Some p)
            (recommendations r) (projectType r).

Definition set_bundleAnalysis (r : Results) (b : BundleConfig) : Results :=
  mkResults (Some b) (dependencyAnalysis r) (codeAnalysis r)
            (recommendations r) (projectType r).

Definition set_recommendations (r : Results) (l : list Recommendation) : Results :=
  mkResults (bundleAnalysis r) (dependencyAnalysis r) (codeAnalysis r)
            l (projectType r).

Definition heavyDependencies_list : list string :=
  ["lodash"; "moment"; "jquery"; "bootstrap"; "antd";
   "material-ui"; "@material-ui/core"; "rxjs"].

Definition duplicateGroups : list (list string) :=
  [ ["moment"; "dayjs"; "date-fns"];
    ["lodash"; "underscore"; "ramda"];
    ["axios"; "fetch"; "superagent"];
    ["uuid"; "shortid"; "nanoid"] ].

(** [findDuplicateDependencies(dependencies)] *)
Definition findDuplicateDependencies (dependencies : dict string) : list (list string) :=
  let depNames := keys dependencies in
  fold_left
    (fun duplicates group =>
       let found := filter (fun dep => arr_includes group dep) depNames in
       if (Z.of_nat (List.length found) >? 1) then (duplicates ++ [found])%list else duplicates)
    duplicateGroups [].

(** The two inline-style markers; the second is [style=] followed by a
    double quote and an opening brace. *)
Definition inline_style_jsx : string := "style={{".
Definition inline_style_attr : string := "style=" ++ String "034"%char "{".

(** The body of [lines.forEach((line, index) => ...)]. *)
Definition scan_line (f : path) (patterns : Patterns) (ln : string) (index : Z) : Patterns :=
  let inlineStyles' :=
    if includes ln inline_style_jsx || includes ln inline_style_attr
    then inlineStyles patterns + 1 else inlineStyles patterns in
  let consoleStatements' :=
    if includes ln "console."
    then consoleStatements patterns + 1 else consoleStatements patterns in
  let inefficientPatterns' :=
    if includes ln "document.querySelector" || includes ln "getElementById"
    then (inefficientPatterns patterns ++
          [mkCodeIssue f (index + 1) "DOM manipulation in component"])%list
    else inefficientPatterns patterns in
  mkPatterns (largeFiles patterns) inefficientPatterns' (unusedImports patterns)
             inlineStyles' consoleStatements'.

(** [arr.forEach((x, index) => ...)] on a state [s], from index [i]. *)
Fixpoint forEach_index {A S : Type} (l : list A) (f : S -> A -> Z -> S) (i : Z) (s : S) : S :=
  match l with
  | [] => s
  | x :: l' => forEach_index l' f (i + 1) (f s x i)
  end.

Definition code_extensions : list string :=
  [".js"; ".jsx"; ".ts"; ".tsx"; ".vue"; ".svelte"].

Definition framework_recommendation (t : option string) : list Recommendation :=
  match t with
  | Some t =>
      if String.eqb t "React" then
        [mkRec "React Optimization" "Medium" "General React optimizations"
               "Implement React.memo, useMemo, useCallback for expensive operations" NoDetail]
      else if String.eqb t "Vue" then
        [mkRec "Vue Optimization" "Medium" "General Vue optimizations"
               "Use v-memo, computed properties, and async components" NoDetail]
      else if String.eqb t "Angular" then
        [mkRec "Angular Optimization" "Medium" "General Angular optimizations"
               "Implement OnPush change detection, lazy loading modules" NoDetail]
      else []
  | None => []
  end.

Section Run.

Variable w : World.

Definition packageJsonPath : path := Path.join [] "package.json".

(** [detectProjectType()] *)
Definition detectProjectType (r : Results) : result Results :=
  if negb (existsSync (root w) packageJsonPath) then
    Ret (set_projectType r "unknown")
  else
    text <- readFileSync (root w) packageJsonPath ;;
    packageJson <- JSON_parse w text ;;
    deps <- prop dependencies packageJson ;;
    devDeps <- prop devDependencies packageJson ;;
    let dependencies := spread_get deps devDeps in
    if truthy (dependencies "react") then
      Ret (set_projectType r "React")
    else if truthy (dependencies "vue") || truthy (dependencies "@vue/cli-service") then
      Ret (set_projectType r "Vue")
    else if truthy (dependencies "@angular/core") then
      Ret (set_projectType r "Angular")
    else if truthy (dependencies "next") then
      Ret (set_projectType r "Next.js")
    else if truthy (dependencies "svelte") then
      Ret (set_projectType r "Svelte")
    else
      Ret (set_projectType r "JavaScript").

(** [analyzeDependencies()] *)
Definition analyzeDependencies (r : Results) : result Results :=
  if negb (existsSync (root w) packageJsonPath) then
    Ret r
  else
    text <- readFileSync (root w) packageJsonPath ;;
    packageJson <- JSON_parse w text ;;
    deps <- prop dependencies packageJson ;;
    devDeps <- prop devDependencies packageJson ;;
    let dependencies := or_empty deps in
    let devDependencies := or_empty devDeps in
    let foundHeavy :=
      filter (fun dep => existsb (fun heavy => includes dep heavy) heavyDependencies_list)
             (keys dependencies) in
    Ret (set_dependencyAnalysis r
           (mkDependencyAnalysis
              (Z.of_nat (List.length (keys dependencies)))
              (Z.of_nat (List.length (keys devDependencies)))
              foundHeavy
              (findDuplicateDependencies dependencies))).

(** [findFiles(extensions, dir)].  [fuel] bounds the depth of the
    recursion. *)
Fixpoint findFiles_rec (fuel : nat) (extensions : list string) (dir : path)
  : result (list path) :=
  match fuel with
  | O => Throw RangeError
  | S fuel' =>
      entries <- readdirSync (root w) dir ;;
      for_of entries
        (fun files entry =>
           let fullPath := Path.join dir (name entry) in
           if isDirectory entry && negb (startsWith (name entry) ".")
              && negb (String.eqb (name entry) "node_modules") then
             sub <- findFiles_rec fuel' extensions fullPath ;;
             Ret (files ++ sub)%list
           else if isFile entry then
             let ext := Path.extname_of_name (name entry) in
             if arr_includes extensions ext then Ret (files ++ [fullPath])%list
             else Ret files
           else Ret files)
        []
  end.

(** No directory lies deeper than the height of the tree. *)
Definition findFiles (extensions : list string) (dir : path) : result (list path) :=
  findFiles_rec (S (depth (root w))) extensions dir.

(** The body of the [try] block of [analyzeCodePatterns], for one file. *)
Definition scan_file (patterns : Patterns) (f : path) : result Patterns :=
  content <- readFileSync (root w) f ;;
  stats <- statSync (root w) f ;;
  let patterns :=
    if size stats >? 100000 then
      mkPatterns (largeFiles patterns ++ [mkLargeFile f (round_div (size stats) 1024)])%list
                 (inefficientPatterns patterns) (unusedImports patterns)
                 (inlineStyles patterns) (consoleStatements patterns)
    else patterns in
  let lines := split_lines content in
  Ret (forEach_index lines (scan_line f) 0 patterns).

(** [analyzeCodePatterns()] *)
Definition analyzeCodePatterns (r : Results) : result Results :=
  let patterns := mkPatterns [] [] [] 0 0 in
  codeFiles <- findFiles code_extensions [] ;;
  patterns <- for_of codeFiles
                (fun patterns f =>
                   try_catch (scan_file patterns f) (fun error => Ret patterns))
                patterns ;;
  Ret (set_codeAnalysis r patterns).

(** [getBuildScripts()] *)
Definition getBuildScripts : result (dict string) :=
  if negb (existsSync (root w) packageJsonPath) then Ret []
  else
    text <- readFileSync (root w) packageJsonPath ;;
    packageJson <- JSON_parse w text ;;
    s <- prop scripts packageJson ;;
    Ret (or_empty s).

(** [analyzeBundleSize()] *)
Definition analyzeBundleSize (r : Results) : result Results :=
  let hasWebpack := existsSync (root w) (Path.join [] "webpack.config.js") in
  let hasVite := existsSync (root w) (Path.join [] "vite.config.js") in
  let hasRollup := existsSync (root w) (Path.join [] "rollup.config.js") in
  let hasParcel := existsSync (root w) (Path.join [] ".parcelrc") in
  buildScripts <- getBuildScripts ;;
  Ret (set_bundleAnalysis r
         (mkBundleConfig hasWebpack hasVite hasRollup hasParcel buildScripts)).

(** [generateRecommendations()] with
    [addFrameworkSpecificRecommendations] *)
Definition generateRecommendations (r : Results) : result Results :=
  let heavy := match dependencyAnalysis r with
               | Some d => heavyDependencies d
               | None => []
               end in
  let large := match codeAnalysis r with
               | Some p => largeFiles p
               | None => []
               end in
  let styles := match codeAnalysis r with
                | Some p => inlineStyles p
                | None => 0
                end in
  let consoles := match codeAnalysis r with
                  | Some p => consoleStatements p
                  | None => 0
                  end in
  let r1 := if Z.of_nat (List.length heavy) >? 0 then
              [mkRec "Dependencies" "High" "Heavy dependencies detected"
                     "Consider lighter alternatives or tree-shaking" (DepList heavy)]
            else [] in
  let r2 := if Z.of_nat (List.length large) >? 0 then
              [mkRec "Code Splitting" "High" "Large files detected"
                     "Implement code splitting and lazy loading"
                     (FileList (map (fun l => (large_file l, large_sizeKB l)) large))]
            else [] in
  let r3 := if styles >? 10 then
              [mkRec "Styling" "Medium" "Excessive inline styles"
                     "Extract styles to CSS modules or styled components" (Count styles)]
            else [] in
  let r4 := if consoles >? 0 then
              [mkRec "Production" "Medium" "Console statements in code"
                     "Remove console statements in production builds" (Count consoles)]
            else [] in
  Ret (set_recommendations r
         (r1 ++ r2 ++ r3 ++ r4 ++ framework_recommendation (projectType r))%list).

(** [printReport()]: console output, then [saveReport()] writes
    [performance-report.json]. *)
Definition printReport (r : Results) : result Results :=
  writeFileSync w (Path.join [] "performance-report.json") ;;;
  Ret r.

(** [analyze()] *)
Definition analyze : M Results unit :=
  try_log (step detectProjectType >>
           step analyzeDependencies >>
           step analyzeCodePatterns >>
           step analyzeBundleSize >>
           step generateRecommendations >>
           step printReport).

End Run.

End PerformanceAnalyzer.

(** ** [bundle-analyzer.js] *)

Module BundleAnalyzer.

Import JS Fs.
Open Scope string_scope.
Open Scope Z_scope.

(** An entry of [jsFiles], [cssFiles], [assetFiles], [largestFiles].
    [sizeKB] is kept in hundredths of a KB: the code rounds
    [size / 1024] to two decimals. *)
Record FileInfo : Type := mkFileInfo {
  path_ : path;
  size : Z;
  sizeKB : Z
}.

Record BuildAnalysis : Type := mkBuildAnalysis {
  totalSize : Z;
  fileCount : Z;
  jsFiles : list FileInfo;
  cssFiles : list FileInfo;
  assetFiles : list FileInfo;
  largestFiles : list FileInfo
}.

Record Bundler : Type := mkBundler {
  bundler_name : string;
  configFile : option string;
  hasConfig : bool
}.

(** An entry of [chunkAnalysis.recommendations]; its [type] is always
    ['code-splitting']. *)
Record ChunkRecommendation : Type := mkChunkRecommendation {
  rec_file : path;
  rec_size : Z;
  message : string
}.

Record ChunkAnalysis : Type := mkChunkAnalysis {
  hasCodeSplitting : bool;
  chunkFiles : list FileInfo;
  vendorChunks : list FileInfo;
  entryChunks : list FileInfo;
  recommendations : list ChunkRecommendation
}.

Record Compression : Type := mkCompression {
  gzip : bool;
  brotli : bool;
  minification : bool
}.

(** [this.results].  [treeshaking], [chunkAnalysis] and [compression]
    are [None] while they are the empty object of the constructor.  Of
    the tree-shaking analysis the flag [enabled] is kept; its two lists
    and the [recommendations] list of the compression analysis are never
    filled. *)
Record Results : Type := mkResults {
  bundler : option Bundler;
  buildSize : dict BuildAnalysis;
  chunkAnalysis : option ChunkAnalysis;
  optimizations : list Recommendation;
  treeshaking : option bool;
  compression : option Compression
}.

Definition initial : Results := mkResults None [] None [] None None.

Definition set_bundler (r : Results) (b : Bundler) : Results :=
  mkResults (Some b) (buildSize r) (chunkAnalysis r) (optimizations r)
            (treeshaking r) (compression r).

Definition set_buildSize (r : Results) (b : dict BuildAnalysis) : Results :=
  mkResults (bundler r) b (chunkAnalysis r) (optimizations r)
            (treeshaking r) (compression r).

Definition set_chunkAnalysis (r : Results) (c : ChunkAnalysis) : Results :=
  mkResults (bundler r) (buildSize r) (Some c) (optimizations r)
            (treeshaking r) (compression r).

Definition set_optimizations (r : Results) (o : list Recommendation) : Results :=
  mkResults (bundler r) (buildSize r) (chunkAnalysis r) o
            (treeshaking r) (compression r).

Definition set_treeshaking (r : Results) (t : bool) : Results :=
  mkResults (bundler r) (buildSize r) (chunkAnalysis r) (optimizations r)
            (Some t) (compression r).

Definition set_compression (r : Results) (c : Compression) : Results :=
  mkResults (bundler r) (buildSize r) (chunkAnalysis r) (optimizations r)
            (treeshaking r) (Some c).

(** The candidates of [detectBundler]: name, config file, alternative. *)
Definition bundlers : list (string * (string * string)) :=
  [ ("webpack", ("webpack.config.js", "webpack.config.ts"));
    ("vite", ("vite.config.js", "vite.config.ts"));
    ("rollup", ("rollup.config.js", "rollup.config.ts"));
    ("parcel", (".parcelrc", "parcel.config.js"));
    ("esbuild", ("esbuild.config.js", "build.js"));
    ("snowpack", ("snowpack.config.js", "snowpack.config.mjs")) ].

Definition buildDirs : list string := ["dist"; "build"; "public"; "out"; ".next"].

Definition js_extensions : list string := [".js"; ".mjs"; ".jsx"; ".ts"; ".tsx"].
Definition css_extensions : list string := [".css"; ".scss"; ".sass"; ".less"].

(** A character of the class [[a-f0-9]]. *)
Definition is_hex (c : ascii) : bool :=
  let n := nat_of_ascii c in
  ((97 <=? n)%nat && (n <=? 102)%nat) || ((48 <=? n)%nat && (n <=? 57)%nat).

(** The longest prefix of [s] made of [[a-f0-9]], and what follows it. *)
Fixpoint span_hex (s : string) : string * string :=
  match s with
  | EmptyString => (EmptyString, EmptyString)
  | String c t =>
      if is_hex c then let (h, r) := span_hex t in (String c h, r)
      else (EmptyString, s)
  end.

(** [[a-f0-9]{8,}\.js$] matched at the start of [s]. *)
Definition hex8_js (s : string) : bool :=
  let (h, r) := span_hex s in
  (8 <=? String.length h)%nat && String.eqb r ".js".

(** [/\.[a-f0-9]{8,}\.js$/.test(filename)]: a match may start at any
    position. *)
Fixpoint hash_js_test (filename : string) : bool :=
  match filename with
  | EmptyString => false
  | String c t => (Ascii.eqb c "."%char && hex8_js t) || hash_js_test t
  end.

(** The condition of [analyzeChunking] on a file name. *)
Definition is_chunk_name (filename : string) : bool :=
  includes filename "chunk" || includes filename "vendor" ||
  includes filename "common" || hash_js_test filename.

(** [path.relative(projectRoot, p)] rendered as text. *)
Definition path_text (p : path) : string := String.concat "/" p.

(** [list.slice(0, n)] *)
Definition slice0 {A : Type} (n : nat) (l : list A) : list A := firstn n l.

(** First pass of [analyzeChunking], for one file. *)
Definition chunk_pass (a : ChunkAnalysis) (f : FileInfo) : ChunkAnalysis :=
  let filename := Path.basename (path_ f) in
  if is_chunk_name filename then
    mkChunkAnalysis true
      (chunkFiles a ++ [f])%list
      (if includes filename "vendor" || includes filename "node_modules"
       then (vendorChunks a ++ [f])%list else vendorChunks a)
      (entryChunks a) (recommendations a)
  else a.

Definition path_eqb (p q : path) : bool :=
  if list_eq_dec string_dec p q then true else false.

(** Second pass of [analyzeChunking], for one file. *)
Definition entry_pass (a : ChunkAnalysis) (f : FileInfo) : ChunkAnalysis :=
  if (size f >? 500000) &&
     negb (existsb (fun c => path_eqb (path_ c) (path_ f)) (chunkFiles a)) then
    mkChunkAnalysis (hasCodeSplitting a) (chunkFiles a) (vendorChunks a) (entryChunks a)
      (recommendations a ++
       [mkChunkRecommendation (path_ f) (sizeKB f)
          "Large entry file detected - consider code splitting"])%list
  else a.

(** [analyzeChunking()] *)
Definition analyzeChunking (r : Results) : result Results :=
  let analysis := mkChunkAnalysis false [] [] [] [] in
  let analysis :=
    fold_left (fun a buildAnalysis => fold_left chunk_pass (jsFiles buildAnalysis) a)
              (map snd (buildSize r)) analysis in
  let analysis :=
    fold_left (fun a buildAnalysis => fold_left entry_pass (jsFiles buildAnalysis) a)
              (map snd (buildSize r)) analysis in
  Ret (set_chunkAnalysis r analysis).

(** The text [mode: "production"], double quotes included. *)
Definition mode_production : string :=
  "mode: " ++ String "034"%char ("production" ++ String "034"%char "").

(** [addBundlerSpecificOptimizations] *)
Definition bundler_optimization (b : option Bundler) : list Recommendation :=
  match b with
  | Some b =>
      if String.eqb (bundler_name b) "webpack" then
        [mkRec "Webpack" "Medium" "Webpack optimizations"
               "Use SplitChunksPlugin, optimize chunks, enable production mode" NoDetail]
      else if String.eqb (bundler_name b) "vite" then
        [mkRec "Vite" "Low" "Vite optimizations"
               "Configure build.rollupOptions for better chunking" NoDetail]
      else if String.eqb (bundler_name b) "rollup" then
        [mkRec "Rollup" "Medium" "Rollup optimizations"
               "Use rollup-plugin-terser for minification, configure external dependencies"
               NoDetail]
      else []
  | None => []
  end.

(** The recommendations of [generateOptimizations] for one entry of
    [buildSize]. *)
Definition build_optimizations (entry : string * BuildAnalysis) : list Recommendation :=
  let (buildDir, analysis) := entry in
  ((if totalSize analysis >? 5000000 then
      [mkRec "Bundle Size" "High" ("Large bundle size in " ++ buildDir)
             "Implement code splitting and lazy loading"
             (SizeHundredths (round_div (totalSize analysis * 100) (1024 * 1024)) "MB")]
    else []) ++
   flat_map (fun f =>
               if size f >? 1000000 then
                 [mkRec "Code Splitting" "High"
                        ("Large JavaScript file: " ++ path_text (path_ f))
                        "Split this file into smaller chunks"
                        (SizeHundredths (sizeKB f) "KB")]
               else [])
            (slice0 3 (jsFiles analysis)))%list.

(** [generateOptimizations()] *)
Definition generateOptimizations (r : Results) : result Results :=
  let sizes := flat_map build_optimizations (buildSize r) in
  let tree := match treeshaking r with
              | Some true => []
              | _ => [mkRec "Tree Shaking" "Medium" "Tree-shaking not detected"
                            "Enable tree-shaking to remove unused code" NoDetail]
              end in
  let gz := match compression r with
            | Some c => gzip c
            | None => false
            end in
  let br := match compression r with
            | Some c => brotli c
            | None => false
            end in
  let gzip_rec := if gz then []
                  else [mkRec "Compression" "Medium" "Gzip compression not enabled"
                              "Enable gzip compression on your server" NoDetail] in
  let brotli_rec := if br then []
                    else [mkRec "Compression" "Low" "Brotli compression not enabled"
                                "Enable Brotli compression for better compression ratios"
                                NoDetail] in
  Ret (set_optimizations r
         (sizes ++ tree ++ gzip_rec ++ brotli_rec ++ bundler_optimization (bundler r))%list).

Section Run.

Variable w : World.

Definition packageJsonPath : path := Path.join [] "package.json".

(** The loop of [detectBundler] over the candidates: the first one
    with a config file present. *)
Fixpoint first_bundler (l : list (string * (string * string))) : option Bundler :=
  match l with
  | [] => None
  | (n, (config, alt)) :: l' =>
      if existsSync (root w) (Path.join [] config) || existsSync (root w) (Path.join [] alt)
      then Some (mkBundler n
                   (Some (if existsSync (root w) (Path.join [] config) then config else alt))
                   true)
      else first_bundler l'
  end.

(** [detectBundler()] *)
Definition detectBundler (r : Results) : result Results :=
  match first_bundler bundlers with
  | Some b => Ret (set_bundler r b)
  | None =>
      if existsSync (root w) packageJsonPath then
        text <- readFileSync (root w) packageJsonPath ;;
        packageJson <- JSON_parse w text ;;
        s <- prop scripts packageJson ;;
        let scripts := or_empty s in
        d <- prop dependencies packageJson ;;
        dd <- prop devDependencies packageJson ;;
        let deps := spread_get d dd in
        let build := get scripts "build" in
        let build_includes x :=
          match build with Some b => truthy build && includes b x | None => false end in
        if build_includes "vite" then
          Ret (set_bundler r (mkBundler "vite" None false))
        else if build_includes "webpack" then
          Ret (set_bundler r (mkBundler "webpack" None false))
        else if truthy (deps "@parcel/core") || truthy (deps "parcel") then
          Ret (set_bundler r (mkBundler "parcel" None false))
        else if truthy (deps "rollup") then
          Ret (set_bundler r (mkBundler "rollup" None false))
        else
          Ret (set_bundler r (mkBundler "unknown" None false))
      else Ret r
  end.

(** [getAllFiles(dirPath)].  [fuel] bounds the depth of the recursion. *)
Fixpoint getAllFiles_rec (fuel : nat) (dirPath : path) : result (list path) :=
  match fuel with
  | O => Throw RangeError
  | S fuel' =>
      entries <- readdirSync (root w) dirPath ;;
      for_of entries
        (fun files entry =>
           let fullPath := Path.join dirPath (name entry) in
           if isDirectory entry then
             sub <- getAllFiles_rec fuel' fullPath ;;
             Ret (files ++ sub)%list
           else if isFile entry then Ret (files ++ [fullPath])%list
           else Ret files)
        []
  end.

(** No directory lies deeper than the height of the tree. *)
Definition getAllFiles (dirPath : path) : result (list path) :=
  getAllFiles_rec (S (depth (root w))) dirPath.

(** The body of the loop of [analyzeBuildDirectory]. *)
Definition add_file (analysis : BuildAnalysis) (f : path) : result BuildAnalysis :=
  stats <- statSync (root w) f ;;
  let relativePath := f in
  let ext := toLowerCase (Path.extname f) in
  let fileInfo :=
    mkFileInfo relativePath (Fs.size stats) (round_div (Fs.size stats * 100) 1024) in
  let isJs := arr_includes js_extensions ext in
  let isCss := arr_includes css_extensions ext in
  Ret (mkBuildAnalysis
         (totalSize analysis + Fs.size stats)
         (fileCount analysis + 1)
         (if isJs then (jsFiles analysis ++ [fileInfo])%list else jsFiles analysis)
         (if isJs then cssFiles analysis
          else if isCss then (cssFiles analysis ++ [fileInfo])%list
               else cssFiles analysis)
         (if isJs then assetFiles analysis
          else if isCss then assetFiles analysis
               else (assetFiles analysis ++ [fileInfo])%list)
         (if Fs.size stats >? 100000 then (largestFiles analysis ++ [fileInfo])%list
          else largestFiles analysis)).

(** [analyzeBuildDirectory(dirPath)] *)
Definition analyzeBuildDirectory (dirPath : path) : result BuildAnalysis :=
  let analysis := mkBuildAnalysis 0 0 [] [] [] [] in
  files <- getAllFiles dirPath ;;
  analysis <- for_of files add_file analysis ;;
  Ret (mkBuildAnalysis
         (totalSize analysis) (fileCount analysis)
         (sort_desc size (jsFiles analysis))
         (sort_desc size (cssFiles analysis))
         (assetFiles analysis)
         (sort_desc size (largestFiles analysis))).

(** The loop of [analyzeBuildOutput]: each directory's analysis is
    stored as soon as it is computed. *)
Fixpoint analyze_builds (foundBuilds : list string) : M Results unit :=
  fun r =>
    match foundBuilds with
    | [] => (Ret tt, r)
    | buildDir :: rest =>
        match analyzeBuildDirectory (Path.join [] buildDir) with
        | Ret analysis =>
            analyze_builds rest (set_buildSize r (set (buildSize r) buildDir analysis))
        | Throw e => (Throw e, r)
        end
    end.

(** [analyzeBuildOutput()] *)
Definition analyzeBuildOutput : M Results unit :=
  let foundBuilds :=
    filter (fun dir => existsSync (root w) (Path.join [] dir)) buildDirs in
  analyze_builds foundBuilds.

(** [checkTreeShaking()] *)
Definition checkTreeShaking (r : Results) : result Results :=
  let configFile := match bundler r with
                    | Some b => configFile b
                    | None => None
                    end in
  let enabled :=
    if truthy configFile then
      match configFile with
      | Some cf =>
          match readFileSync (root w) (Path.join [] cf) with
          | Ret configContent =>
              includes configContent "sideEffects" ||
              includes configContent "usedExports" ||
              includes configContent mode_production
          | Throw _ => false
          end
      | None => false
      end
    else false in
  if existsSync (root w) packageJsonPath then
    text <- readFileSync (root w) packageJsonPath ;;
    packageJson <- JSON_parse w text ;;
    match packageJson with
    | JNull => Throw TypeError
    | JObject pj => Ret (set_treeshaking r (enabled || sideEffects pj))
    | JPrimitive => Ret (set_treeshaking r enabled)
    end
  else Ret (set_treeshaking r enabled).

(** The minification heuristic on one file: average line length above
    500. *)
Definition looks_minified (f : FileInfo) : bool :=
  match readFileSync (root w) (path_ f) with
  | Ret content =>
      Z.of_nat (String.length content)
        >? 500 * Z.of_nat (List.length (split_lines content))
  | Throw _ => false
  end.

(** [checkCompression()] *)
Definition checkCompression (r : Results) : result Results :=
  let allFiles :=
    flat_map (fun b => (jsFiles b ++ cssFiles b ++ assetFiles b)%list)
             (map snd (buildSize r)) in
  let gzip := existsb (fun f => endsWith (path_text (path_ f)) ".gz") allFiles in
  let brotli := existsb (fun f => endsWith (path_text (path_ f)) ".br") allFiles in
  let minification :=
    existsb (fun b => existsb looks_minified (slice0 3 (jsFiles b)))
            (map snd (buildSize r)) in
  Ret (set_compression r (mkCompression gzip brotli minification)).

(** [printReport()]: console output, which reads the lengths of the
    chunk lists, then [saveReport()] writes
    [bundle-analysis-report.json]. *)
Definition printReport (r : Results) : result Results :=
  match chunkAnalysis r with
  | None => Throw TypeError
  | Some _ =>
      writeFileSync w (Path.join [] "bundle-analysis-report.json") ;;;
      Ret r
  end.

(** [generateConfigs()]: an optimized config file is written for
    webpack, vite and rollup. *)
Definition generateConfigs (r : Results) : result Results :=
  match bundler r with
  | Some b =>
      if String.eqb (bundler_name b) "webpack" then
        writeFileSync w (Path.join [] "webpack.config.optimized.js") ;;; Ret r
      else if String.eqb (bundler_name b) "vite" then
        writeFileSync w (Path.join [] "vite.config.optimized.js") ;;; Ret r
      else if String.eqb (bundler_name b) "rollup" then
        writeFileSync w (Path.join [] "rollup.config.optimized.js") ;;; Ret r
      else Ret r
  | None => Ret r
  end.

(** [analyze()] *)
Definition analyze : M Results unit :=
  try_log (step detectBundler >>
           analyzeBuildOutput >>
           step analyzeChunking >>
           step checkTreeShaking >>
           step checkCompression >>
           step generateOptimizations >>
           step printReport >>
           step generateConfigs).

End Run.

End BundleAnalyzer.

(** ** [run-performance-analysis.js] *)

Module PerformanceAnalysisRunner.

Import JS.
Open Scope string_scope.
Open Scope Z_scope.

(** The [options] object the command line builds: a key is present only
    when its flag was given. *)
Record RawOptions : Type := mkRawOptions {
  raw_outputFormat : option string;
  raw_runBundleAnalysis : option bool;
  raw_runPerformanceAnalysis : option bool;
  raw_generateReport : option bool
}.

Record Options : Type := mkOptions {
  runPerformanceAnalysis : bool;
  runBundleAnalysis : bool;
  generateReport : bool;
  outputFormat : string
}.

(** The body of [args.forEach(arg => ...)]. *)
Definition parse_arg (o : RawOptions) (arg : string) : RawOptions :=
  let o := if String.eqb arg "--json"
           then mkRawOptions (Some "json") (raw_runBundleAnalysis o)
                  (raw_runPerformanceAnalysis o) (raw_generateReport o)
           else o in
  let o := if String.eqb arg "--html"
           then mkRawOptions (Some "html") (raw_runBundleAnalysis o)
                  (raw_runPerformanceAnalysis o) (raw_generateReport o)
           else o in
  let o := if String.eqb arg "--performance-only"
           then mkRawOptions (raw_outputFormat o) (Some false)
                  (raw_runPerformanceAnalysis o) (raw_generateReport o)
           else o in
  let o := if String.eqb arg "--bundle-only"
           then mkRawOptions (raw_outputFormat o) (raw_runBundleAnalysis o)
                  (Some false) (raw_generateReport o)
           else o in
  let o := if String.eqb arg "--no-report"
           then mkRawOptions (raw_outputFormat o) (raw_runBundleAnalysis o)
                  (raw_runPerformanceAnalysis o) (Some false)
           else o in
  o.

Definition parse_args (args : list string) : RawOptions :=
  fold_left parse_arg args (mkRawOptions None None None None).

(** [x !== false] for a key that may be absent. *)
Definition not_false (x : option bool) : bool :=
  match x with Some b => b | None => true end.

(** The constructor: defaults, then the given keys spread over them. *)
Definition constructor (options : RawOptions) : Options :=
  mkOptions
    (not_false (raw_runPerformanceAnalysis options))
    (not_false (raw_runBundleAnalysis options))
    (not_false (raw_generateReport options))
    (match raw_outputFormat options with
     | Some f => f
     | None => "console"
     end).

Record Summary : Type := mkSummary {
  totalIssues : Z;
  criticalIssues : Z;
  recommendations : list (string * Recommendation);
  score : Z
}.

(** The [results] object of [runComplete], without its [timestamp]. *)
Record RunResults : Type := mkRunResults {
  performance : option PerformanceAnalyzer.Results;
  bundle : option BundleAnalyzer.Results;
  summary : Summary
}.

(** The body shared by the two [forEach] loops of [generateSummary];
    [source] is ['Performance'] or ['Bundle']. *)
Definition tally (source : string) (summary : Summary) (rec : Recommendation) : Summary :=
  let totalIssues := totalIssues summary + 1 in
  if String.eqb (priority rec) "High" then
    mkSummary totalIssues (criticalIssues summary + 1)
              (recommendations summary ++ [(source, rec)])%list
              (score summary - 15)
  else if String.eqb (priority rec) "Medium" then
    mkSummary totalIssues (criticalIssues summary)
              (recommendations summary ++ [(source, rec)])%list
              (score summary - 10)
  else
    mkSummary totalIssues (criticalIssues summary)
              (recommendations summary ++ [(source, rec)])%list
              (score summary - 5).

(** [generateSummary(results)] *)
Definition generateSummary (performance : option PerformanceAnalyzer.Results)
                           (bundle : option BundleAnalyzer.Results) : Summary :=
  let summary := mkSummary 0 0 [] 100 in
  let summary :=
    match performance with
    | Some p => fold_left (tally "Performance") (PerformanceAnalyzer.recommendations p) summary
    | None => summary
    end in
  let summary :=
    match bundle with
    | Some b => fold_left (tally "Bundle") (BundleAnalyzer.optimizations b) summary
    | None => summary
    end in
  mkSummary (totalIssues summary) (criticalIssues summary) (recommendations summary)
            (Z.max 0 (score summary)).

(** [printScoreBar(score)]: the two [repeat] calls decide whether it
    throws. *)
Definition printScoreBar (score : Z) : result unit :=
  let barLength := 40 in
  let filledLength := round_div (score * barLength) 100 in
  let emptyLength := barLength - filledLength in
  filled <- repeat "#" filledLength ;;
  empty <- repeat "-" emptyLength ;;
  Ret tt.

(** [priorityOrder[rec.priority]] *)
Definition priorityOrder (rec : string * Recommendation) : Z :=
  if String.eqb (priority (snd rec)) "High" then 3
  else if String.eqb (priority (snd rec)) "Medium" then 2
  else if String.eqb (priority (snd rec)) "Low" then 1
  else 0.

(** [outputConsole(results)]: prints, and sorts
    [summary.recommendations] in place. *)
Definition outputConsole (results : RunResults) : result RunResults :=
  let summary := summary results in
  printScoreBar (score summary) ;;;
  Ret (mkRunResults (performance results) (bundle results)
         (mkSummary (totalIssues summary) (criticalIssues summary)
                    (sort_desc priorityOrder (recommendations summary))
                    (score summary))).

Section Run.

Variable w : World.

(** [outputJSON(results)] *)
Definition outputJSON (results : RunResults) : result RunResults :=
  writeFileSync w (Path.join [] "performance-analysis-complete.json") ;;;
  Ret results.

(** [outputHTML(results)]: the report text of [generateHTMLReport] is
    built from the summary without failing, then written. *)
Definition outputHTML (results : RunResults) : result RunResults :=
  writeFileSync w (Path.join [] "performance-analysis-report.html") ;;;
  Ret results.

(** [outputResults(results)] *)
Definition outputResults (options : Options) (results : RunResults) : result RunResults :=
  if String.eqb (outputFormat options) "json" then outputJSON results
  else if String.eqb (outputFormat options) "html" then outputHTML results
  else outputConsole results.

(** [runComplete()]: [Ret] is a resolved promise, [Throw] a rejected
    one.  The [catch] block logs and rethrows. *)
Definition runComplete (options : Options) : result RunResults :=
  try_catch
    (performance <-
       (if runPerformanceAnalysis options
        then r <- run_on (PerformanceAnalyzer.analyze w) PerformanceAnalyzer.initial ;;
             Ret (Some r)
        else Ret None) ;;
     bundle <-
       (if runBundleAnalysis options
        then r <- run_on (BundleAnalyzer.analyze w) BundleAnalyzer.initial ;;
             Ret (Some r)
        else Ret None) ;;
     let results :=
       mkRunResults performance bundle (generateSummary performance bundle) in
     if generateReport options then outputResults options results
     else Ret results)
    (fun error => Throw error).

(** The command-line entry: the status passed to [process.exit]. *)
Definition main (args : list string) : Z :=
  let options := parse_args args in
  match runComplete (constructor options) with
  | Ret _ => 0
  | Throw _ => 1
  end.

End Run.

End PerformanceAnalysisRunner.

Unset Implicit Arguments.

(** ** Reference definitions used in the statements *)

(** The recommendations [generateSummary] aggregates: those of the
    performance analysis, then the optimizations of the bundle analysis. *)
Definition aggregated (performance : option PerformanceAnalyzer.Results)
                      (bundle : option BundleAnalyzer.Results) : list Recommendation :=
  (match performance with
   | Some p => PerformanceAnalyzer.recommendations p
   | None => []
   end) ++
  (match bundle with
   | Some b => BundleAnalyzer.optimizations b
   | None => []
   end).

(** How many recommendations of a list carry the priority [p]. *)
Definition with_priority (p : string) (l : list Recommendation) : Z :=
  Z.of_nat (List.length (filter (fun r => String.eqb (priority r) p) l)).

(** How many carry neither ['High'] nor ['Medium']. *)
Definition other_priority (l : list Recommendation) : Z :=
  Z.of_nat (List.length (filter (fun r => negb (String.eqb (priority r) "High") &&
                                     negb (String.eqb (priority r) "Medium")) l)).

(** The walk that [findFiles] and [getAllFiles] share: [enter] decides
    which directories are descended into, [keep] which files are
    collected. *)
Section Walk.

Variable root : Fs.node.
Variables enter keep : string -> bool.

Fixpoint walk_rec (fuel : nat) (dir : path) : result (list path) :=
  match fuel with
  | O => Throw RangeError
  | S fuel' =>
      entries <- Fs.readdirSync root dir ;;
      for_of entries
        (fun files entry =>
           let fullPath := Path.join dir (Fs.name entry) in
           if Fs.isDirectory entry && enter (Fs.name entry) then
             sub <- walk_rec fuel' fullPath ;;
             Ret (files ++ sub)
           else if Fs.isFile entry then
             if keep (Fs.name entry) then Ret (files ++ [fullPath]) else Ret files
           else Ret files)
        []
  end.

(** The direct recursive listing of a subtree [n] that sits at [dir]:
    every regular file the walk is meant to collect, with its size. *)
Fixpoint walk_listing (dir : path) (n : Fs.node) : list (path * Z) :=
  match n with
  | Fs.Dir _ es =>
      flat_map
        (fun e =>
           match snd e with
           | Fs.File sz _ => if keep (fst e) then [(dir ++ [fst e], sz)] else []
           | Fs.Dir _ _ =>
               if enter (fst e) then walk_listing (dir ++ [fst e]) (snd e) else []
           | Fs.Other => []
           end)
        es
  | _ => []
  end.

(** Every directory the walk reads is readable. *)
Fixpoint walk_readable (n : Fs.node) : bool :=
  match n with
  | Fs.Dir r es =>
      r && forallb
             (fun e =>
                match snd e with
                | Fs.Dir _ _ => if enter (fst e) then walk_readable (snd e) else true
                | _ => true
                end)
             es
  | _ => true
  end.

Definition entry_listing (dir : path) (e : string * Fs.node) : list (path * Z) :=
  match snd e with
  | Fs.File sz _ => if keep (fst e) then [(dir ++ [fst e], sz)] else []
  | Fs.Dir _ _ => if enter (fst e) then walk_listing (dir ++ [fst e]) (snd e) else []
  | Fs.Other => []
  end.

Definition entry_readable (e : string * Fs.node) : bool :=
  match snd e with
  | Fs.Dir _ _ => if enter (fst e) then walk_readable (snd e) else true
  | _ => true
  end.

End Walk.

Definition everything : string -> bool := fun _ => true.

(** [findFiles] does not descend into hidden directories and
    [node_modules]. *)
Definition source_dir (name : string) : bool :=
  negb (JS.startsWith name ".") && negb (String.eqb name "node_modules").

(** [findFiles] keeps the files whose extension is listed. *)
Definition has_extension (extensions : list string) (name : string) : bool :=
  JS.arr_includes extensions (Path.extname_of_name name).

Definition sum_sizes (l : list (path * Z)) : Z :=
  fold_right (fun e acc => (snd e + acc)%Z) 0%Z l.

Definition is_directory (n : Fs.node) : bool :=
  match n with Fs.Dir _ _ => true | _ => false end.

(** ** What the loop of [analyzeBuildDirectory] computes *)

(** The entry built for a file of size [sz]. *)
Definition file_info (p : path) (sz : Z) : BundleAnalyzer.FileInfo :=
  BundleAnalyzer.mkFileInfo p sz (JS.round_div (sz * 100) 1024).

Definition info (e : path * Z) : BundleAnalyzer.FileInfo := file_info (fst e) (snd e).

Definition lower_ext (fi : BundleAnalyzer.FileInfo) : string :=
  JS.toLowerCase (Path.extname (BundleAnalyzer.path_ fi)).

Definition is_js (fi : BundleAnalyzer.FileInfo) : bool :=
  JS.arr_includes BundleAnalyzer.js_extensions (lower_ext fi).

Definition is_css (fi : BundleAnalyzer.FileInfo) : bool :=
  negb (is_js fi) && JS.arr_includes BundleAnalyzer.css_extensions (lower_ext fi).

Definition is_asset (fi : BundleAnalyzer.FileInfo) : bool :=
  negb (is_js fi) && negb (JS.arr_includes BundleAnalyzer.css_extensions (lower_ext fi)).

Definition is_large (fi : BundleAnalyzer.FileInfo) : bool :=
  (BundleAnalyzer.size fi >? 100000)%Z.

Definition sum (l : list Z) : Z := fold_right Z.add 0%Z l.

(** The analysis [a] after the files [infos] have been added to it. *)
Definition extend (a : BundleAnalyzer.BuildAnalysis) (infos : list BundleAnalyzer.FileInfo)
  : BundleAnalyzer.BuildAnalysis :=
  BundleAnalyzer.mkBuildAnalysis
    (BundleAnalyzer.totalSize a + sum (map BundleAnalyzer.size infos))
    (BundleAnalyzer.fileCount a + Z.of_nat (List.length infos))
    (BundleAnalyzer.jsFiles a ++ filter is_js infos)
    (BundleAnalyzer.cssFiles a ++ filter is_css infos)
    (BundleAnalyzer.assetFiles a ++ filter is_asset infos)
    (BundleAnalyzer.largestFiles a ++ filter is_large infos).

(** The three sorts that end [analyzeBuildDirectory]. *)
Definition sorted (a : BundleAnalyzer.BuildAnalysis) : BundleAnalyzer.BuildAnalysis :=
  BundleAnalyzer.mkBuildAnalysis
    (BundleAnalyzer.totalSize a) (BundleAnalyzer.fileCount a)
    (JS.sort_desc BundleAnalyzer.size (BundleAnalyzer.jsFiles a))
    (JS.sort_desc BundleAnalyzer.size (BundleAnalyzer.cssFiles a))
    (BundleAnalyzer.assetFiles a)
    (JS.sort_desc BundleAnalyzer.size (BundleAnalyzer.largestFiles a)).

Definition empty_analysis : BundleAnalyzer.BuildAnalysis :=
  BundleAnalyzer.mkBuildAnalysis 0 0 [] [] [] [].

(** [statSync] reports the size listed for the file. *)
Definition stat_is (w : World) (e : path * Z) : Prop :=
  Fs.statSync (root w) (fst e) = Ret (Fs.mkStats (snd e)).

(** The three lists of an analysis account for [fileCount] files. *)
Definition lists_add_up (a : BundleAnalyzer.BuildAnalysis) : Prop :=
  (Z.of_nat (List.length (BundleAnalyzer.jsFiles a))
   + Z.of_nat (List.length (BundleAnalyzer.cssFiles a))
   + Z.of_nat (List.length (BundleAnalyzer.assetFiles a))
   = BundleAnalyzer.fileCount a)%Z.

(** ** File names *)

(** [sub] occurs somewhere in [s]. *)
Definition contains (s sub : string) : Prop :=
  exists a b : string, s = (a ++ sub ++ b)%string.

(** Every character of [h] is one of [[a-f0-9]]. *)
Fixpoint all_hex (h : string) : bool :=
  match h with
  | EmptyString => true
  | String c t => BundleAnalyzer.is_hex c && all_hex t
  end.

(** The file name ends with a dot, at least eight characters of
    [[a-f0-9]], and the extension [.js]. *)
Definition hash_before_js (filename : string) : Prop :=
  exists pre h : string,
    filename = (pre ++ "." ++ h ++ ".js")%string /\
    (8 <= String.length h)%nat /\ all_hex h = true.

(** A hexadecimal digit, in either case. *)
Definition is_hex_digit (c : ascii) : bool :=
  BundleAnalyzer.is_hex (JS.lower_char c).

Fixpoint all_hex_digits (h : string) : bool :=
  match h with
  | EmptyString => true
  | String c t => is_hex_digit c && all_hex_digits t
  end.

(** The naming pattern in the words of the specification: a dot-separated
    hexadecimal segment of at least eight characters immediately before
    the extension, whatever the extension is. *)
Definition hash_before_extension (filename : string) : Prop :=
  exists pre h : string,
    filename = (pre ++ "." ++ h ++ Path.extname_of_name filename)%string /\
    (8 <= String.length h)%nat /\ all_hex_digits h = true.

(** A chunk in the words of the specification. *)
Definition chunk_by_specification (filename : string) : Prop :=
  contains filename "chunk" \/ contains filename "vendor" \/
  contains filename "common" \/ hash_before_extension filename.

(** All script files of all analysed build directories, in the order of
    the two loops of [analyzeChunking]. *)
Definition all_js (r : BundleAnalyzer.Results) : list BundleAnalyzer.FileInfo :=
  flat_map BundleAnalyzer.jsFiles (map snd (BundleAnalyzer.buildSize r)).

Definition chunk_file (f : BundleAnalyzer.FileInfo) : bool :=
  BundleAnalyzer.is_chunk_name (Path.basename (BundleAnalyzer.path_ f)).

(** A script file above 500000 bytes that is not a chunk. *)
Definition large_entry (f : BundleAnalyzer.FileInfo) : bool :=
  (BundleAnalyzer.size f >? 500000)%Z && negb (chunk_file f).

Definition entry_recommendation (f : BundleAnalyzer.FileInfo)
  : BundleAnalyzer.ChunkRecommendation :=
  BundleAnalyzer.mkChunkRecommendation
    (BundleAnalyzer.path_ f) (BundleAnalyzer.sizeKB f)
    "Large entry file detected - consider code splitting".

(** ** Dependencies *)

(** The declared names that belong to [group], in manifest order. *)
Definition declared_of (group : list string) (dependencies : dict string) : list string :=
  filter (fun dep => JS.arr_includes group dep) (keys dependencies).

(** The finding of one group: its declared members when they are two or
    more. *)
Definition group_finding (dependencies : dict string) (group : list string)
  : list (list string) :=
  if (Z.of_nat (List.length (declared_of group dependencies)) >? 1)%Z
  then [declared_of group dependencies] else [].

Definition date_group : list string := ["moment"; "dayjs"; "date-fns"]%string.

Definition other_groups : list (list string) :=
  [ ["lodash"; "underscore"; "ramda"];
    ["axios"; "fetch"; "superagent"];
    ["uuid"; "shortid"; "nanoid"] ]%string.

(** The name is matched by one of the heavy names. *)
Definition is_heavy (dep : string) : bool :=
  existsb (fun heavy => JS.includes dep heavy) PerformanceAnalyzer.heavyDependencies_list.

(** ** Lines of source text *)

Definition has_console (ln : string) : bool := JS.includes ln "console.".

Definition has_inline_style (ln : string) : bool :=
  JS.includes ln PerformanceAnalyzer.inline_style_jsx ||
  JS.includes ln PerformanceAnalyzer.inline_style_attr.

Definition has_dom_query (ln : string) : bool :=
  JS.includes ln "document.querySelector" || JS.includes ln "getElementById".

(** The 1-based numbers of the lines that satisfy [p], when the first
    line of [lines] has the 0-based index [index]. *)
Fixpoint matching_lines (p : string -> bool) (lines : list string) (index : Z) : list Z :=
  match lines with
  | [] => []
  | ln :: rest =>
      (if p ln then [(index + 1)%Z] else []) ++ matching_lines p rest (index + 1)
  end.

Definition dom_issue (f : path) (n : Z) : PerformanceAnalyzer.CodeIssue :=
  PerformanceAnalyzer.mkCodeIssue f n "DOM manipulation in component".

Definition count_lines (p : string -> bool) (lines : list string) : Z :=
  Z.of_nat (List.length (filter p lines)).

(** ** The exit status *)

(** The report is written to a file, and files cannot be written. *)
Definition report_fails (w : World) (options : PerformanceAnalysisRunner.Options) : bool :=
  PerformanceAnalysisRunner.generateReport options &&
  (String.eqb (PerformanceAnalysisRunner.outputFormat options) "json" ||
   String.eqb (PerformanceAnalysisRunner.outputFormat options) "html") &&
  negb (writable w).

(** ** Orders and counts used in the further statements *)

(** [l] is in descending order of [key]. *)
Definition descending {A : Type} (key : A -> Z) (l : list A) : Prop :=
  StronglySorted (fun a b => (key b <= key a)%Z) l.

(** The elements of [l] whose key is [k], in their order in [l]. *)
Definition with_key {A : Type} (key : A -> Z) (k : Z) (l : list A) : list A :=
  filter (fun a => (key a =? k)%Z) l.

(** The argument is one of the two report-format flags. *)
Definition is_format_flag (arg : string) : bool :=
  String.eqb arg "--json" || String.eqb arg "--html".

(** The flag occurs among the arguments. *)
Definition has_flag (flag : string) (args : list string) : bool :=
  existsb (String.eqb flag) args.

(** The report format a flag selects. *)
Definition format_of_flag (flag : string) : option string :=
  if String.eqb flag "--json" then Some "json"%string
  else if String.eqb flag "--html" then Some "html"%string
  else None.

(** One of the three priorities the analyzers assign. *)
Definition known_priority (r : Recommendation) : Prop :=
  priority r = "High"%string \/ priority r = "Medium"%string \/ priority r = "Low"%string.

(** The file name marks a vendor chunk. *)
Definition vendor_named (f : BundleAnalyzer.FileInfo) : bool :=
  JS.includes (Path.basename (BundleAnalyzer.path_ f)) "vendor" ||
  JS.includes (Path.basename (BundleAnalyzer.path_ f)) "node_modules".

(** The names [detectBundler] can report from a config file. *)
Definition bundler_names : list string :=
  ["webpack"; "vite"; "rollup"; "parcel"; "esbuild"; "snowpack"]%string.

(** The results of the two analyses as [runComplete] collects them. *)
Definition analysed_performance (w : World) (options : PerformanceAnalysisRunner.Options)
  : option PerformanceAnalyzer.Results :=
  if PerformanceAnalysisRunner.runPerformanceAnalysis options
  then Some (snd (PerformanceAnalyzer.analyze w PerformanceAnalyzer.initial))
  else None.

Definition analysed_bundle (w : World) (options : PerformanceAnalysisRunner.Options)
  : option BundleAnalyzer.Results :=
  if PerformanceAnalysisRunner.runBundleAnalysis options
  then Some (snd (BundleAnalyzer.analyze w BundleAnalyzer.initial))
  else None.

(** At most two recommendations of high and three of medium priority,
    and none of another priority. *)
Definition few_recommendations (l : list Recommendation) : Prop :=
  (with_priority "High" l <= 2)%Z /\ (with_priority "Medium" l <= 3)%Z /\
  other_priority l = 0%Z.

(** ** Example environments *)

(** [s] between double quotes. *)
Definition quoted (s : string) : string :=
  String "034"%char (s ++ String "034"%char EmptyString).

(** A manifest with one production dependency; three packages of the
    heavy list and of the date group are development dependencies only. *)
Definition dev_only_text : string :=
  ("{" ++ quoted "dependencies" ++ ":{" ++ quoted "react" ++ ":" ++ quoted "^18.2.0" ++ "},"
       ++ quoted "devDependencies" ++ ":{"
       ++ quoted "lodash" ++ ":" ++ quoted "^4.17.21" ++ ","
       ++ quoted "moment" ++ ":" ++ quoted "^2.29.4" ++ ","
       ++ quoted "dayjs" ++ ":" ++ quoted "^1.11.10" ++ "}}")%string.

Definition dev_only_manifest : PackageJson :=
  mkPackageJson
    (Some [ ("react", "^18.2.0") ]%string)
    (Some [ ("lodash", "^4.17.21"); ("moment", "^2.29.4"); ("dayjs", "^1.11.10") ]%string)
    None false.

(** What [JSON.parse] returns on the texts of the examples. *)
Definition parsed_texts : list (string * json) :=
  [ ("{}"%string, JObject (mkPackageJson None None None false));
    ("null"%string, JNull);
    (dev_only_text, JObject dev_only_manifest) ].

(** [JSON.parse] on the texts of the examples; the only other text the
    examples hold is a lone opening brace, which is not JSON. *)
Definition example_parse (text : string) : result json :=
  match get parsed_texts text with
  | Some j => Ret j
  | None => Throw SyntaxError
  end.

(** A project with one source file next to a directory that cannot be
    read. *)
Definition unreadable_subdir_world : World :=
  mkWorld
    (Fs.Dir true
       [ ("app.js"%string, Fs.File 10 "let x = 1;");
         ("secret"%string, Fs.Dir false []) ])
    example_parse true.

(** A build directory [dist] that holds one script file of 2 MB and
    nothing else. *)
Definition two_megabyte_world : World :=
  mkWorld
    (Fs.Dir true
       [ ("dist"%string,
          Fs.Dir true [ ("main.js"%string, Fs.File (2 * 1024 * 1024) "bundle") ]) ])
    example_parse true.

(** Results of a build analysis with two large script files in [dist]:
    an entry file and a vendor chunk. *)
Definition two_scripts_results : BundleAnalyzer.Results :=
  BundleAnalyzer.set_buildSize BundleAnalyzer.initial
    [ ("dist"%string,
       BundleAnalyzer.mkBuildAnalysis 1300000 2
         [ file_info ["dist"%string; "vendor.js"%string] 700000;
           file_info ["dist"%string; "main.js"%string] 600000 ]
         [] []
         [ file_info ["dist"%string; "vendor.js"%string] 700000;
           file_info ["dist"%string; "main.js"%string] 600000 ]) ].

(** Dependencies with two duplicated groups: date libraries and utility
    libraries. *)
Definition two_groups_dependencies : dict string :=
  [ ("moment", "^2.29.4"); ("date-fns", "^2.30.0");
    ("lodash", "^4.17.21"); ("underscore", "^1.13.6") ]%string.

(** A project whose manifest is [dev_only_text]. *)
Definition dev_only_world : World :=
  mkWorld
    (Fs.Dir true [ ("package.json"%string, Fs.File 114 dev_only_text) ])
    example_parse true.

(** A project whose manifest is a lone opening brace. *)
Definition malformed_manifest_world : World :=
  mkWorld
    (Fs.Dir true
       [ ("package.json"%string, Fs.File 1 "{");
         ("index.js"%string, Fs.File 14 "let answer = 42;") ])
    example_parse true.

(** A project without a manifest. *)
Definition no_manifest_world : World :=
  mkWorld
    (Fs.Dir true [ ("index.js"%string, Fs.File 14 "let answer = 42;") ])
    example_parse true.

(** The line [console.log("x")]. *)
Definition log_line : string := ("console.log(" ++ quoted "x" ++ ")")%string.

(** A source text with that line twice. *)
Definition two_logs : string :=
  (log_line ++ String JS.newline log_line)%string.

(** A project whose only source file is [two_logs]. *)
Definition two_logs_world : World :=
  mkWorld
    (Fs.Dir true [ ("app.js"%string, Fs.File 33 two_logs) ])
    example_parse true.

(** The project of [malformed_manifest_world] on a read-only disk. *)
Definition read_only_world : World :=
  mkWorld (root malformed_manifest_world) example_parse false.

(** Results of a performance analysis with one recommendation, of high
    priority. *)
Definition one_high_results : PerformanceAnalyzer.Results :=
  PerformanceAnalyzer.set_recommendations PerformanceAnalyzer.initial
    [ mkRec "Dependencies" "High" "Heavy dependencies detected"
            "Consider lighter alternatives or tree-shaking" (DepList ["lodash"%string]) ].

(** A build directory with three scripts and one style sheet. *)
Definition four_files_world : World :=
  mkWorld
    (Fs.Dir true
       [ ("dist"%string,
          Fs.Dir true
            [ ("a.js"%string, Fs.File 300000 "a");
              ("b.js"%string, Fs.File 900000 "b");
              ("style.css"%string, Fs.File 5 "body{}");
              ("c.js"%string, Fs.File 300000 "c") ]) ])
    example_parse true.


(** ** The score of [generateSummary] *)

Section Score.

Import PerformanceAnalysisRunner.
Open Scope Z_scope.

Lemma tally_score (source : string) (s : Summary) (r : Recommendation) :
  score (tally source s r) =
  score s - 15 * with_priority "High" [r] - 10 * with_priority "Medium" [r]
          - 5 * other_priority [r].
Proof.
  unfold tally, with_priority, other_priority. cbn [filter].
  destruct (String.eqb (priority r) "High") eqn:H;
    destruct (String.eqb (priority r) "Medium") eqn:Hm; cbn; try lia.
  apply String.eqb_eq in H, Hm. congruence.
Qed.

Lemma with_priority_cons (p : string) (r : Recommendation) (l : list Recommendation) :
  with_priority p (r :: l) = with_priority p [r] + with_priority p l.
Proof.
  unfold with_priority. cbn [filter].
  destruct (String.eqb (priority r) p); cbn [List.length]; lia.
Qed.

Lemma other_priority_cons (r : Recommendation) (l : list Recommendation) :
  other_priority (r :: l) = other_priority [r] + other_priority l.
Proof.
  unfold other_priority. cbn [filter].
  destruct (negb _ && negb _)%bool; cbn [List.length]; lia.
Qed.

Lemma with_priority_app (p : string) (l1 l2 : list Recommendation) :
  with_priority p (l1 ++ l2) = with_priority p l1 + with_priority p l2.
Proof.
  unfold with_priority. rewrite filter_app, length_app. lia.
Qed.

Lemma other_priority_app (l1 l2 : list Recommendation) :
  other_priority (l1 ++ l2) = other_priority l1 + other_priority l2.
Proof.
  unfold other_priority. rewrite filter_app, length_app. lia.
Qed.

(** The loop subtracts the penalties of the whole list. *)
Lemma fold_tally_score (source : string) (l : list Recommendation) :
  forall s : Summary,
    score (fold_left (tally source) l s) =
    score s - 15 * with_priority "High" l - 10 * with_priority "Medium" l
            - 5 * other_priority l.
Proof.
  induction l as [|r l IH]; intros s.
  - cbn. lia.
  - cbn [fold_left]. rewrite IH, tally_score.
    rewrite (with_priority_cons "High" r l), (with_priority_cons "Medium" r l),
            (other_priority_cons r l).
    lia.
Qed.

Lemma score_formula (performance : option PerformanceAnalyzer.Results)
                    (bundle : option BundleAnalyzer.Results) :
  score (generateSummary performance bundle) =
  Z.max 0 (100 - 15 * with_priority "High" (aggregated performance bundle)
               - 10 * with_priority "Medium" (aggregated performance bundle)
               - 5 * other_priority (aggregated performance bundle)).
Proof.
  unfold generateSummary, aggregated. cbn [score].
  rewrite !with_priority_app, other_priority_app.
  destruct performance as [p|], bundle as [b|];
    rewrite ?fold_tally_score; cbn [score];
    change (with_priority "High" []) with 0;
    change (with_priority "Medium" []) with 0;
    change (other_priority []) with 0; f_equal; lia.
Qed.

Lemma with_priority_nonneg (p : string) (l : list Recommendation) :
  0 <= with_priority p l.
Proof. unfold with_priority. lia. Qed.

Lemma other_priority_nonneg (l : list Recommendation) : 0 <= other_priority l.
Proof. unfold other_priority. lia. Qed.

Lemma score_range (performance : option PerformanceAnalyzer.Results)
                  (bundle : option BundleAnalyzer.Results) :
  0 <= score (generateSummary performance bundle) <= 100.
Proof.
  rewrite score_formula.
  pose proof (with_priority_nonneg "High" (aggregated performance bundle)).
  pose proof (with_priority_nonneg "Medium" (aggregated performance bundle)).
  pose proof (other_priority_nonneg (aggregated performance bundle)).
  lia.
Qed.

(** C1.  For every collection of recommendations aggregated by
    [generateSummary], the reported score is 100 minus 15 per High, 10
    per Medium and 5 per any other recommendation, floored at 0.  It is
    100 for no recommendation, 85 for exactly one High, 75 for one High
    and one Medium (in either order), and never below 0. *)
Theorem C1_score_penalties :
  forall (performance : option PerformanceAnalyzer.Results)
         (bundle : option BundleAnalyzer.Results),
    let recs := aggregated performance bundle in
    let s := score (generateSummary performance bundle) in
    s = Z.max 0 (100 - 15 * with_priority "High" recs
                     - 10 * with_priority "Medium" recs
                     - 5 * other_priority recs)
    /\ 0 <= s
    /\ (recs = [] -> s = 100)
    /\ (forall h, recs = [h] -> priority h = "High"%string -> s = 85)
    /\ (forall h m, recs = [h; m] \/ recs = [m; h] ->
                    priority h = "High"%string -> priority m = "Medium"%string ->
                    s = 75).
Proof.
  intros performance bundle recs s.
  assert (Hs : s = Z.max 0 (100 - 15 * with_priority "High" recs
                                - 10 * with_priority "Medium" recs
                                - 5 * other_priority recs))
    by apply score_formula.
  split; [exact Hs|].
  split; [apply score_range|].
  split; [|split].
  - intros E. rewrite Hs, E. reflexivity.
  - intros h E Hh. rewrite Hs, E.
    unfold with_priority, other_priority. cbn [filter]. rewrite Hh. reflexivity.
  - intros h m E Hh Hm. rewrite Hs.
    destruct E as [E|E]; rewrite E;
      unfold with_priority, other_priority; cbn [filter]; rewrite Hh, Hm; reflexivity.
Qed.

(** One recommendation of high priority: the score is 85. *)
Lemma C1_witness :
  score (generateSummary (Some one_high_results) None) = 85.
Proof.
  apply (proj1 (proj2 (proj2 (proj2 (C1_score_penalties (Some one_high_results) None))))
           (mkRec "Dependencies" "High" "Heavy dependencies detected"
                  "Consider lighter alternatives or tree-shaking"
                  (DepList ["lodash"%string])));
    reflexivity.
Defined.

End Score.

(** ** Facts about the error monad *)

Lemma for_of_ext {A S : Type} (f g : S -> A -> result S) (l : list A) :
  (forall s x, f s x = g s x) ->
  forall s, for_of l f s = for_of l g s.
Proof.
  intros E. induction l as [|x l IH]; intros s; cbn.
  - reflexivity.
  - rewrite E. destruct (g s x); auto.
Qed.

Lemma for_of_app {A S : Type} (f : S -> A -> result S) (l1 l2 : list A) :
  forall s, for_of (l1 ++ l2) f s = bind (for_of l1 f s) (for_of l2 f).
Proof.
  induction l1 as [|x l1 IH]; intros s; cbn.
  - reflexivity.
  - destruct (f s x); cbn; auto.
Qed.

Lemma and_then_ret {S : Type} (a b : M S unit) (s s' : S) (u : unit) :
  a s = (Ret u, s') -> (a >> b) s = b s'.
Proof.
  intros H. unfold and_then. rewrite H. reflexivity.
Qed.

Lemma and_then_head {S : Type} (a a' b : M S unit) (s s' : S) :
  a s = a' s' -> (a >> b) s = (a' >> b) s'.
Proof.
  intros H. unfold and_then. rewrite H. reflexivity.
Qed.

(** What a step, a sequence and a guarded sequence leave unchanged. *)
Lemma step_keeps {S A : Type} (g : S -> A) (f : S -> result S) :
  (forall s s', f s = Ret s' -> g s' = g s) ->
  forall s, g (snd (step f s)) = g s.
Proof.
  intros H s. unfold step. destruct (f s) eqn:E; cbn [snd]; [|reflexivity].
  apply (H s). exact E.
Qed.

Lemma and_then_keeps {S A : Type} (g : S -> A) (a b : M S unit) :
  (forall s, g (snd (a s)) = g s) ->
  (forall s, g (snd (b s)) = g s) ->
  forall s, g (snd ((a >> b) s)) = g s.
Proof.
  intros Ha Hb s. unfold and_then. specialize (Ha s).
  destruct (a s) as [[u|e] s']; cbn [snd] in *.
  - rewrite Hb. exact Ha.
  - exact Ha.
Qed.

Lemma try_log_keeps {S A : Type} (g : S -> A) (a : M S unit) :
  (forall s, g (snd (a s)) = g s) ->
  forall s, g (snd (try_log a s)) = g s.
Proof.
  intros Ha s. unfold try_log. specialize (Ha s).
  destruct (a s) as [[u|e] s']; exact Ha.
Qed.

Lemma try_log_returns {S : Type} (a : M S unit) (s : S) : fst (try_log a s) = Ret tt.
Proof.
  unfold try_log. destruct (a s) as [[u|e] s']; reflexivity.
Qed.

(** What a step, a sequence and a guarded sequence preserve. *)
Lemma step_inv {S : Type} (P : S -> Prop) (f : S -> result S) :
  (forall s s', f s = Ret s' -> P s -> P s') ->
  forall s, P s -> P (snd (step f s)).
Proof.
  intros H s Ps. unfold step. destruct (f s) eqn:E; cbn [snd]; [|exact Ps].
  apply (H s); assumption.
Qed.

Lemma and_then_inv {S : Type} (P : S -> Prop) (a b : M S unit) :
  (forall s, P s -> P (snd (a s))) ->
  (forall s, P s -> P (snd (b s))) ->
  forall s, P s -> P (snd ((a >> b) s)).
Proof.
  intros Ha Hb s Ps. unfold and_then. specialize (Ha s Ps).
  destruct (a s) as [[u|e] s']; cbn [snd] in *.
  - apply Hb. exact Ha.
  - exact Ha.
Qed.

Lemma try_log_inv {S : Type} (P : S -> Prop) (a : M S unit) :
  (forall s, P s -> P (snd (a s))) ->
  forall s, P s -> P (snd (try_log a s)).
Proof.
  intros Ha s Ps. unfold try_log. specialize (Ha s Ps).
  destruct (a s) as [[u|e] s']; exact Ha.
Qed.

(** ** Facts about the file system *)

Section FsFacts.

Import Fs.

Lemma lookup_app (n : node) (p q : path) :
  lookup n (p ++ q) =
  match lookup n p with
  | Some m => lookup m q
  | None => None
  end.
Proof.
  revert n. induction p as [|c p IH]; intros n; cbn.
  - reflexivity.
  - destruct n as [sz ct|r es|]; try reflexivity.
    destruct (assoc c es); auto.
Qed.

Lemma assoc_in (es : list (string * node)) (nm : string) (child : node) :
  nodup_names (map fst es) = true ->
  In (nm, child) es ->
  assoc nm es = Some child.
Proof.
  induction es as [|[k n] es IH]; cbn; intros U H.
  - contradiction.
  - apply andb_true_iff in U. destruct U as [U1 U2].
    destruct H as [H|H].
    + inversion H; subst. rewrite String.eqb_refl. reflexivity.
    + destruct (String.eqb nm k) eqn:E.
      * apply String.eqb_eq in E. subst k.
        apply negb_true_iff in U1.
        assert (X : existsb (String.eqb nm) (map fst es) = true).
        { apply existsb_exists. exists nm. split.
          - change nm with (fst (nm, child)). apply in_map. exact H.
          - apply String.eqb_refl. }
        congruence.
      * auto.
Qed.

Lemma assoc_some_in (es : list (string * node)) (nm : string) (child : node) :
  assoc nm es = Some child -> In (nm, child) es.
Proof.
  induction es as [|[k n] es IH]; cbn; intros H.
  - discriminate.
  - destruct (String.eqb nm k) eqn:E.
    + apply String.eqb_eq in E. inversion H; subst. auto.
    + auto.
Qed.

Lemma depth_child (r : bool) (es : list (string * node)) (nm : string) (child : node) :
  In (nm, child) es -> (depth child < depth (Dir r es))%nat.
Proof.
  cbn [depth]. induction es as [|e es IH]; cbn [In fold_right]; intros H.
  - contradiction.
  - destruct H as [H|H].
    + subst e. cbn [snd]. lia.
    + specialize (IH H). lia.
Qed.

Lemma names_unique_child (r : bool) (es : list (string * node)) (nm : string) (child : node) :
  names_unique (Dir r es) = true ->
  In (nm, child) es ->
  names_unique child = true.
Proof.
  cbn [names_unique]. intros U H.
  apply andb_true_iff in U. destruct U as [_ U].
  rewrite forallb_forall in U. apply (U (nm, child) H).
Qed.

(** A child of a directory is found under its name. *)
Lemma lookup_child (root : node) (dir : path) (r : bool) (es : list (string * node))
      (nm : string) (child : node) :
  lookup root dir = Some (Dir r es) ->
  names_unique (Dir r es) = true ->
  In (nm, child) es ->
  lookup root (dir ++ [nm]) = Some child.
Proof.
  intros L U H. rewrite lookup_app, L. cbn [lookup].
  cbn [names_unique] in U. apply andb_true_iff in U. destruct U as [U _].
  rewrite (assoc_in es nm child U H). reflexivity.
Qed.

Lemma lookup_depth (p : path) :
  forall (root n : node), lookup root p = Some n -> (depth n <= depth root)%nat.
Proof.
  induction p as [|c p IH]; intros root n; cbn [lookup].
  - intros H. inversion H. lia.
  - destruct root as [sz ct|r es|]; try discriminate.
    destruct (assoc c es) as [n'|] eqn:A; try discriminate.
    intros H. apply IH in H.
    pose proof (depth_child r es c n' (assoc_some_in es c n' A)). lia.
Qed.

Lemma lookup_names_unique (p : path) :
  forall (root n : node),
    names_unique root = true -> lookup root p = Some n -> names_unique n = true.
Proof.
  induction p as [|c p IH]; intros root n U; cbn [lookup].
  - intros H. inversion H. subst. exact U.
  - destruct root as [sz ct|r es|]; try discriminate.
    destruct (assoc c es) as [n'|] eqn:A; try discriminate.
    apply IH. apply (names_unique_child r es c n' U (assoc_some_in es c n' A)).
Qed.

End FsFacts.

(** ** The shared walk *)

Section WalkFacts.

Import Fs.

Variable root : node.
Variables enter keep : string -> bool.

Lemma walk_listing_dir (dir : path) (r : bool) (es : list (string * node)) :
  walk_listing enter keep dir (Dir r es) = flat_map (entry_listing enter keep dir) es.
Proof. reflexivity. Qed.

Lemma walk_readable_dir (r : bool) (es : list (string * node)) :
  walk_readable enter (Dir r es) = r && forallb (entry_readable enter) es.
Proof. reflexivity. Qed.

(** The loop over the entries of one directory, given what the
    recursive calls return. *)
Lemma walk_loop (fuel : nat) (dir : path) :
  (forall nm r es,
      lookup root (dir ++ [nm]) = Some (Dir r es) ->
      names_unique (Dir r es) = true ->
      (depth (Dir r es) <= fuel)%nat ->
      walk_rec root enter keep fuel (dir ++ [nm]) =
      if walk_readable enter (Dir r es)
      then Ret (map fst (walk_listing enter keep (dir ++ [nm]) (Dir r es)))
      else Throw EACCES) ->
  forall (l : list (string * node)) (acc : list path),
    (forall nm child, In (nm, child) l ->
                      lookup root (dir ++ [nm]) = Some child /\
                      names_unique child = true /\
                      (depth child <= fuel)%nat) ->
    for_of (map dirent_of l)
      (fun files entry =>
         let fullPath := Path.join dir (name entry) in
         if isDirectory entry && enter (name entry) then
           sub <- walk_rec root enter keep fuel fullPath ;;
           Ret (files ++ sub)
         else if isFile entry then
           if keep (name entry) then Ret (files ++ [fullPath]) else Ret files
         else Ret files)
      acc =
    if forallb (entry_readable enter) l
    then Ret (acc ++ map fst (flat_map (entry_listing enter keep dir) l))
    else Throw EACCES.
Proof.
  intros Hrec l.
  match goal with |- forall acc, _ -> for_of _ ?b _ = _ => set (body := b) end.
  induction l as [|[nm child] l IH]; intros acc Hl.
  - cbn. rewrite app_nil_r. reflexivity.
  - assert (Hl' : forall nm' child', In (nm', child') l ->
                    lookup root (dir ++ [nm']) = Some child' /\
                    names_unique child' = true /\ (depth child' <= fuel)%nat)
      by (intros; apply Hl; right; assumption).
    destruct (Hl nm child (or_introl eq_refl)) as (L & U & D).
    cbn [map for_of flat_map forallb].
    unfold entry_listing at 1, entry_readable at 1.
    destruct child as [sz ct|r es|]; unfold body at 1;
      cbn [dirent_of fst snd name isDirectory isFile andb].
    + destruct (keep nm); rewrite (IH _ Hl'); cbn [app map];
        destruct (forallb (entry_readable enter) l); try reflexivity.
      unfold Path.join. rewrite <- app_assoc. reflexivity.
    + destruct (enter nm).
      * unfold Path.join. rewrite (Hrec nm r es L U D).
        destruct (walk_readable enter (Dir r es)); cbn [bind andb]; [|reflexivity].
        rewrite (IH _ Hl').
        destruct (forallb (entry_readable enter) l); [|reflexivity].
        rewrite map_app, app_assoc. reflexivity.
      * rewrite (IH _ Hl'). reflexivity.
    + rewrite (IH _ Hl'). reflexivity.
Qed.

(** With fuel for the height of the subtree, the walk of a directory
    returns its listing when every directory it reads is readable, and
    throws the permission error otherwise. *)
Lemma walk_rec_spec :
  forall (fuel : nat) (dir : path) (r : bool) (es : list (string * node)),
    lookup root dir = Some (Dir r es) ->
    names_unique (Dir r es) = true ->
    (depth (Dir r es) <= fuel)%nat ->
    walk_rec root enter keep fuel dir =
    if walk_readable enter (Dir r es)
    then Ret (map fst (walk_listing enter keep dir (Dir r es)))
    else Throw EACCES.
Proof.
  induction fuel as [|fuel IH]; intros dir r es L U D.
  - cbn [depth] in D. lia.
  - cbn [walk_rec]. unfold readdirSync. rewrite L.
    rewrite walk_readable_dir, walk_listing_dir.
    destruct r; cbn [bind andb]; [|reflexivity].
    rewrite (walk_loop fuel dir (fun nm r' es' => IH (dir ++ [nm]) r' es')).
    + reflexivity.
    + intros nm child H. split; [|split].
      * apply (lookup_child root dir true es nm child L U H).
      * apply (names_unique_child true es nm child U H).
      * pose proof (depth_child true es nm child H). lia.
Qed.

(** Every file of the listing is a regular file of the tree, of the
    listed size. *)
Lemma walk_listing_stat :
  forall (d : nat) (dir : path) (n : node),
    (depth n <= d)%nat ->
    lookup root dir = Some n ->
    names_unique n = true ->
    Forall (fun e => statSync root (fst e) = Ret (mkStats (snd e)))
           (walk_listing enter keep dir n).
Proof.
  induction d as [|d IH]; intros dir n D L U.
  - destruct n; cbn [depth] in D; try lia; constructor.
  - destruct n as [sz ct|r es|]; try constructor.
    rewrite walk_listing_dir. apply Forall_flat_map. apply Forall_forall.
    intros [nm child] H. unfold entry_listing. cbn [fst snd].
    pose proof (lookup_child root dir r es nm child L U H) as Lc.
    destruct child as [sz ct|r' es'|]; try constructor.
    + destruct (keep nm); constructor; [|constructor].
      cbn [fst snd]. unfold statSync. rewrite Lc. reflexivity.
    + destruct (enter nm); [|constructor].
      apply IH.
      * pose proof (depth_child r es nm (Dir r' es') H). lia.
      * exact Lc.
      * apply (names_unique_child r es nm (Dir r' es') U H).
Qed.

End WalkFacts.

(** ** The two walkers *)

Section Walkers.

Import Fs.

Variable w : World.

Lemma getAllFiles_rec_walk (fuel : nat) :
  forall dir : path,
    BundleAnalyzer.getAllFiles_rec w fuel dir =
    walk_rec (root w) everything everything fuel dir.
Proof.
  induction fuel as [|fuel IH]; intros dir; cbn [BundleAnalyzer.getAllFiles_rec walk_rec].
  - reflexivity.
  - destruct (readdirSync (root w) dir) as [entries|e]; cbn [bind]; [|reflexivity].
    apply for_of_ext. intros files entry. unfold everything.
    rewrite andb_true_r, IH. reflexivity.
Qed.

Lemma findFiles_rec_walk (extensions : list string) (fuel : nat) :
  forall dir : path,
    PerformanceAnalyzer.findFiles_rec w fuel extensions dir =
    walk_rec (root w) source_dir (has_extension extensions) fuel dir.
Proof.
  induction fuel as [|fuel IH]; intros dir;
    cbn [PerformanceAnalyzer.findFiles_rec walk_rec].
  - reflexivity.
  - destruct (readdirSync (root w) dir) as [entries|e]; cbn [bind]; [|reflexivity].
    apply for_of_ext. intros files entry. unfold source_dir, has_extension.
    rewrite <- andb_assoc, IH. reflexivity.
Qed.

(** [getAllFiles] on a directory of the tree: the listing of everything
    below it, or the permission error of a directory it cannot read.
    The bound on the recursion is never reached. *)
Lemma getAllFiles_spec (dir : path) (r : bool) (es : list (string * node)) :
  lookup (root w) dir = Some (Dir r es) ->
  names_unique (Dir r es) = true ->
  BundleAnalyzer.getAllFiles w dir =
  if walk_readable everything (Dir r es)
  then Ret (map fst (walk_listing everything everything dir (Dir r es)))
  else Throw EACCES.
Proof.
  intros L U. unfold BundleAnalyzer.getAllFiles. rewrite getAllFiles_rec_walk.
  apply walk_rec_spec; auto.
  pose proof (lookup_depth dir (root w) (Dir r es) L). lia.
Qed.

Lemma findFiles_spec (extensions : list string) (dir : path) (r : bool)
      (es : list (string * node)) :
  lookup (root w) dir = Some (Dir r es) ->
  names_unique (Dir r es) = true ->
  PerformanceAnalyzer.findFiles w extensions dir =
  if walk_readable source_dir (Dir r es)
  then Ret (map fst (walk_listing source_dir (has_extension extensions) dir (Dir r es)))
  else Throw EACCES.
Proof.
  intros L U. unfold PerformanceAnalyzer.findFiles. rewrite findFiles_rec_walk.
  apply walk_rec_spec; auto.
  pose proof (lookup_depth dir (root w) (Dir r es) L). lia.
Qed.

End Walkers.

(** C6, as the code has it.  Neither walker skips a directory it cannot
    read.  On a directory of a tree with unique names, [findFiles] and
    [getAllFiles] return the full listing of what they walk when every
    directory they read is readable; as soon as one of them is not, the
    permission error of [readdirSync] leaves the walker and no file list is
    returned.  ([findFiles] never reads hidden directories or
    [node_modules], so these may be unreadable.) *)
Theorem C6_unreadable_directory_propagates :
  forall (w : World) (extensions : list string) (dir : path) (r : bool)
         (es : list (string * Fs.node)),
    Fs.lookup (root w) dir = Some (Fs.Dir r es) ->
    Fs.names_unique (Fs.Dir r es) = true ->
    (walk_readable source_dir (Fs.Dir r es) = true ->
     PerformanceAnalyzer.findFiles w extensions dir =
     Ret (map fst (walk_listing source_dir (has_extension extensions) dir (Fs.Dir r es))))
    /\ (walk_readable source_dir (Fs.Dir r es) = false ->
        PerformanceAnalyzer.findFiles w extensions dir = Throw EACCES)
    /\ (walk_readable everything (Fs.Dir r es) = true ->
        BundleAnalyzer.getAllFiles w dir =
        Ret (map fst (walk_listing everything everything dir (Fs.Dir r es))))
    /\ (walk_readable everything (Fs.Dir r es) = false ->
        BundleAnalyzer.getAllFiles w dir = Throw EACCES).
Proof.
  intros w extensions dir r es L U.
  rewrite (findFiles_spec w extensions dir r es L U).
  rewrite (getAllFiles_spec w dir r es L U).
  repeat split; intros H; rewrite H; reflexivity.
Qed.

(** The walk of a project whose directory [secret] is unreadable: both
    walkers throw, and the readable file [app.js] is not returned. *)
Lemma C6_witness :
  PerformanceAnalyzer.findFiles unreadable_subdir_world [".js"%string] [] = Throw EACCES
  /\ BundleAnalyzer.getAllFiles unreadable_subdir_world [] = Throw EACCES.
Proof.
  destruct (C6_unreadable_directory_propagates unreadable_subdir_world [".js"%string] []
              true
              [ ("app.js"%string, Fs.File 10 "let x = 1;");
                ("secret"%string, Fs.Dir false []) ]
              eq_refl eq_refl) as (_ & F & _ & G).
  split; [apply F | apply G]; reflexivity.
Defined.

(** C6 as stated fails: with an unreadable subdirectory next to a readable
    source file, the walk is aborted and returns no file at all. *)
Lemma C6_counterexample :
  ~ (exists files,
        PerformanceAnalyzer.findFiles unreadable_subdir_world
          PerformanceAnalyzer.code_extensions [] = Ret files
        /\ In ["app.js"%string] files)
  /\ ~ (exists files,
           BundleAnalyzer.getAllFiles unreadable_subdir_world [] = Ret files
           /\ In ["app.js"%string] files).
Proof.
  split; intros [files [H _]]; vm_compute in H; discriminate.
Qed.

(** ** The stable sort *)

Section SortFacts.

Variable A : Type.
Variable key : A -> Z.

Lemma insert_desc_perm (x : A) (l : list A) :
  Permutation (JS.insert_desc key x l) (x :: l).
Proof.
  induction l as [|y l IH]; cbn.
  - apply Permutation_refl.
  - destruct (key x <? key y)%Z.
    + apply Permutation_trans with (y :: x :: l).
      * apply perm_skip. exact IH.
      * apply perm_swap.
    + apply Permutation_refl.
Qed.

Lemma sort_desc_perm (l : list A) : Permutation (JS.sort_desc key l) l.
Proof.
  induction l as [|x l IH]; cbn.
  - apply perm_nil.
  - apply Permutation_trans with (x :: JS.sort_desc key l).
    + apply insert_desc_perm.
    + apply perm_skip. exact IH.
Qed.

Lemma sort_desc_length (l : list A) :
  List.length (JS.sort_desc key l) = List.length l.
Proof. apply Permutation_length, sort_desc_perm. Qed.

End SortFacts.

(** ** [analyzeBuildDirectory] *)

Section BuildDirectory.

Import BundleAnalyzer.
Open Scope Z_scope.

Variable w : World.

Lemma sum_app (l1 l2 : list Z) : sum (l1 ++ l2) = sum l1 + sum l2.
Proof.
  unfold sum. induction l1 as [|x l1 IH]; cbn.
  - reflexivity.
  - rewrite IH. lia.
Qed.

Lemma extend_nil (a : BuildAnalysis) : extend a [] = a.
Proof.
  destruct a. unfold extend. cbn. rewrite !app_nil_r. f_equal; lia.
Qed.

Lemma extend_app (a : BuildAnalysis) (l1 l2 : list FileInfo) :
  extend (extend a l1) l2 = extend a (l1 ++ l2).
Proof.
  unfold extend. cbn.
  rewrite !filter_app, !app_assoc, map_app, sum_app, length_app. f_equal; lia.
Qed.

(** One turn of the loop. *)
Lemma add_file_step (a : BuildAnalysis) (f : path) (sz : Z) :
  Fs.statSync (root w) f = Ret (Fs.mkStats sz) ->
  add_file w a f = Ret (extend a [file_info f sz]).
Proof.
  intros S. unfold add_file. rewrite S. cbn [bind Fs.size].
  set (j := JS.arr_includes js_extensions (JS.toLowerCase (Path.extname f))).
  set (c := JS.arr_includes css_extensions (JS.toLowerCase (Path.extname f))).
  fold (file_info f sz).
  unfold extend. cbn [filter map List.length].
  unfold is_css, is_asset, is_large.
  change (is_js (file_info f sz)) with j.
  change (JS.arr_includes css_extensions (lower_ext (file_info f sz))) with c.
  change (size (file_info f sz)) with sz.
  unfold sum. cbn [fold_right].
  destruct j, c, (sz >? 100000); cbn [negb andb]; rewrite ?app_nil_r;
    repeat f_equal; lia.
Qed.

Lemma add_file_inv (a a' : BuildAnalysis) (f : path) :
  add_file w a f = Ret a' ->
  exists sz, Fs.statSync (root w) f = Ret (Fs.mkStats sz) /\ a' = extend a [file_info f sz].
Proof.
  intros H. destruct (Fs.statSync (root w) f) as [[sz]|e] eqn:S.
  - exists sz. split; [reflexivity|].
    rewrite (add_file_step a f sz S) in H. congruence.
  - unfold add_file in H. rewrite S in H. discriminate.
Qed.

(** The loop succeeds on files that [statSync] can report on. *)
Lemma add_files_ok (L : list (path * Z)) :
  Forall (stat_is w) L ->
  forall a, for_of (map fst L) (add_file w) a = Ret (extend a (map info L)).
Proof.
  induction 1 as [|e L S _ IH]; intros a; cbn [map for_of].
  - rewrite extend_nil. reflexivity.
  - rewrite (add_file_step a (fst e) (snd e) S), IH, extend_app. reflexivity.
Qed.

(** Whenever the loop returns, every file was reported on and added. *)
Lemma add_files_inv (files : list path) :
  forall a a',
    for_of files (add_file w) a = Ret a' ->
    exists L, map fst L = files /\ Forall (stat_is w) L /\ a' = extend a (map info L).
Proof.
  induction files as [|f files IH]; intros a a' H; cbn [for_of] in H.
  - exists []. inversion H. rewrite extend_nil. auto.
  - destruct (add_file w a f) as [a1|e] eqn:E; [|discriminate].
    destruct (add_file_inv a a1 f E) as (sz & S & ->).
    destruct (IH _ _ H) as (L & <- & F & ->).
    exists ((f, sz) :: L). split; [reflexivity|]. split.
    + constructor; assumption.
    + rewrite extend_app. reflexivity.
Qed.

Lemma analyzeBuildDirectory_inv (dirPath : path) (a : BuildAnalysis) :
  analyzeBuildDirectory w dirPath = Ret a ->
  exists L,
    getAllFiles w dirPath = Ret (map fst L) /\ Forall (stat_is w) L /\
    a = sorted (extend empty_analysis (map info L)).
Proof.
  unfold analyzeBuildDirectory. intros H.
  destruct (getAllFiles w dirPath) as [files|e]; cbn [bind] in H; [|discriminate].
  fold empty_analysis in H.
  destruct (for_of files (add_file w) empty_analysis) as [a1|e] eqn:E;
    cbn [bind] in H; [|discriminate].
  destruct (add_files_inv files _ _ E) as (L & <- & F & ->).
  exists L. repeat split; auto. inversion H. reflexivity.
Qed.

Lemma analyzeBuildDirectory_ok (dirPath : path) (r : bool) (es : list (string * Fs.node)) :
  Fs.lookup (root w) dirPath = Some (Fs.Dir r es) ->
  Fs.names_unique (Fs.Dir r es) = true ->
  walk_readable everything (Fs.Dir r es) = true ->
  analyzeBuildDirectory w dirPath =
  Ret (sorted (extend empty_analysis
                 (map info (walk_listing everything everything dirPath (Fs.Dir r es))))).
Proof.
  intros L U R. unfold analyzeBuildDirectory.
  rewrite (getAllFiles_spec w dirPath r es L U), R. cbn [bind].
  fold empty_analysis. rewrite add_files_ok.
  - reflexivity.
  - apply (walk_listing_stat (root w) everything everything
             (Fs.depth (Fs.Dir r es)) dirPath (Fs.Dir r es)); auto.
Qed.

Lemma sum_sizes_info (L : list (path * Z)) : sum (map size (map info L)) = sum_sizes L.
Proof.
  induction L as [|e L IH]; cbn.
  - reflexivity.
  - unfold sum in IH. rewrite IH. reflexivity.
Qed.

Lemma totals_of_sorted (L : list (path * Z)) :
  totalSize (sorted (extend empty_analysis (map info L))) = sum_sizes L /\
  fileCount (sorted (extend empty_analysis (map info L))) = Z.of_nat (List.length L).
Proof.
  cbn. rewrite sum_sizes_info, length_map. auto.
Qed.

Lemma large_in_largestFiles (L : list (path * Z)) (f : path) (sz : Z) :
  In (f, sz) L -> sz > 100000 ->
  In (file_info f sz) (largestFiles (sorted (extend empty_analysis (map info L)))).
Proof.
  intros H G. cbn.
  apply (Permutation_in _ (Permutation_sym (sort_desc_perm _ size _))).
  apply filter_In. split.
  - change (file_info f sz) with (info (f, sz)). apply in_map. exact H.
  - unfold is_large. cbn. lia.
Qed.

End BuildDirectory.

(** ** No file is listed twice *)

Section Distinct.

Import Fs.

Variables enter keep : string -> bool.

Lemma NoDup_append {A : Type} (l1 l2 : list A) :
  NoDup l1 -> NoDup l2 -> (forall x, In x l1 -> ~ In x l2) -> NoDup (l1 ++ l2).
Proof.
  induction l1 as [|x l1 IH]; cbn [app]; intros N1 N2 D.
  - exact N2.
  - inversion N1 as [|? ? X1 X2]; subst. constructor.
    + rewrite in_app_iff. intros [H|H]; [contradiction|].
      apply (D x); [left; reflexivity|exact H].
    + apply IH; auto. intros y Hy. apply D. right. exact Hy.
Qed.

(** The paths listed for a subtree that sits at [dir] lie below [dir]. *)
Lemma listing_below (d : nat) :
  forall (dir : path) (n : node),
    (depth n <= d)%nat ->
    forall p, In p (map fst (walk_listing enter keep dir n)) ->
              exists nm rest, p = dir ++ nm :: rest /\
                              exists r es child, n = Dir r es /\ In (nm, child) es.
Proof.
  induction d as [|d IH]; intros dir n D p H.
  - destruct n; cbn [depth] in D; try lia; contradiction.
  - destruct n as [sz ct|r es|]; try contradiction.
    rewrite walk_listing_dir in H. apply in_map_iff in H.
    destruct H as (e & <- & H). apply in_flat_map in H.
    destruct H as ([nm child] & He & H). unfold entry_listing in H. cbn [fst snd] in H.
    destruct child as [sz ct|r' es'|]; try contradiction.
    + destruct (keep nm); [|contradiction]. destruct H as [<-|[]].
      exists nm, []. split; [reflexivity|]. exists r, es, (File sz ct). auto.
    + destruct (enter nm); [|contradiction].
      destruct (IH (dir ++ [nm]) (Dir r' es')) with (p := fst e)
        as (nm' & rest & E & _).
      * pose proof (depth_child r es nm (Dir r' es') He). lia.
      * apply in_map. exact H.
      * exists nm, (nm' :: rest). split.
        -- rewrite E, <- app_assoc. reflexivity.
        -- exists r, es, (Dir r' es'). auto.
Qed.

Lemma entry_listing_below (dir : path) (nm : string) (child : node) (p : path) :
  In p (map fst (entry_listing enter keep dir (nm, child))) ->
  exists rest, p = dir ++ nm :: rest.
Proof.
  unfold entry_listing. cbn [fst snd]. intros H.
  destruct child as [sz ct|r es|]; try contradiction.
  - destruct (keep nm); [|contradiction]. destruct H as [<-|[]]. exists []. reflexivity.
  - destruct (enter nm); [|contradiction].
    destruct (listing_below (depth (Dir r es)) (dir ++ [nm]) (Dir r es) (le_n _) p H)
      as (nm' & rest & E & _).
    exists (nm' :: rest). rewrite E, <- app_assoc. reflexivity.
Qed.

(** On a tree with unique names the listing has no path twice. *)
Lemma listing_distinct (d : nat) :
  forall (dir : path) (n : node),
    (depth n <= d)%nat ->
    names_unique n = true ->
    NoDup (map fst (walk_listing enter keep dir n)).
Proof.
  induction d as [|d IH]; intros dir n D U.
  - destruct n; cbn [depth] in D; try lia; constructor.
  - destruct n as [sz ct|r es|]; try constructor.
    rewrite walk_listing_dir.
    assert (Hc : forall nm child, In (nm, child) es ->
                   NoDup (map fst (entry_listing enter keep dir (nm, child)))).
    { intros nm child H. unfold entry_listing. cbn [fst snd].
      destruct child as [sz ct|r' es'|]; try constructor.
      - destruct (keep nm); repeat constructor. intros [].
      - destruct (enter nm); [|constructor]. apply IH.
        + pose proof (depth_child r es nm (Dir r' es') H). lia.
        + apply (names_unique_child r es nm (Dir r' es') U H). }
    cbn [names_unique] in U. apply andb_true_iff in U. destruct U as [U _].
    clear D. induction es as [|[nm child] es IHes]; cbn [flat_map map].
    + constructor.
    + cbn [map fst nodup_names] in U. apply andb_true_iff in U. destruct U as [U1 U2].
      rewrite map_app. apply NoDup_append.
      * apply Hc. left. reflexivity.
      * apply IHes; [exact U2|]. intros nm' child' H. apply Hc. right. exact H.
      * intros p H1 H2.
        destruct (entry_listing_below dir nm child p H1) as (rest & E).
        apply in_map_iff in H2. destruct H2 as (e & <- & H2).
        apply in_flat_map in H2. destruct H2 as ([nm' child'] & He & H2).
        destruct (entry_listing_below dir nm' child' (fst e) (in_map fst _ _ H2))
          as (rest' & E').
        rewrite E' in E. apply app_inv_head in E. inversion E; subst nm'.
        apply negb_true_iff in U1.
        assert (X : existsb (String.eqb nm) (map fst es) = true).
        { apply existsb_exists. exists nm. split.
          - change nm with (fst (nm, child')). apply in_map. exact He.
          - apply String.eqb_refl. }
        congruence.
Qed.

End Distinct.

Lemma extname_join (dir : path) (nm : string) :
  Path.extname (Path.join dir nm) = Path.extname_of_name nm.
Proof.
  unfold Path.extname, Path.basename, Path.join. rewrite last_last. reflexivity.
Qed.

(** C2.  For every build directory analyzed, [totalSize] is the sum of the
    sizes of the files [getAllFiles] discovered under it and [fileCount]
    is their number.  On a tree with unique names whose directories are
    readable the analysis returns, the discovered paths are those of the
    direct recursive listing of the directory, each once, and the two
    totals are those of that listing.
    For a directory that holds exactly one script file of 2 MB the
    analysis reports [totalSize = 2*1024*1024], [fileCount = 1] and the
    file in [largestFiles]. *)
Theorem C2_build_directory_totals :
  forall (w : World) (dirPath : path),
    (forall a,
        BundleAnalyzer.analyzeBuildDirectory w dirPath = Ret a ->
        exists L,
          BundleAnalyzer.getAllFiles w dirPath = Ret (map fst L) /\
          Forall (stat_is w) L /\
          BundleAnalyzer.totalSize a = sum_sizes L /\
          BundleAnalyzer.fileCount a = Z.of_nat (List.length L))
    /\ (forall r es,
           Fs.lookup (root w) dirPath = Some (Fs.Dir r es) ->
           Fs.names_unique (Fs.Dir r es) = true ->
           walk_readable everything (Fs.Dir r es) = true ->
           let listing := walk_listing everything everything dirPath (Fs.Dir r es) in
           exists a,
             BundleAnalyzer.analyzeBuildDirectory w dirPath = Ret a /\
             BundleAnalyzer.getAllFiles w dirPath = Ret (map fst listing) /\
             NoDup (map fst listing) /\
             BundleAnalyzer.totalSize a = sum_sizes listing /\
             BundleAnalyzer.fileCount a = Z.of_nat (List.length listing) /\
             (forall f sz, In (f, sz) listing -> (sz > 100000)%Z ->
                           In (file_info f sz) (BundleAnalyzer.largestFiles a)))
    /\ (forall nm ct,
           Fs.lookup (root w) dirPath
           = Some (Fs.Dir true [(nm, Fs.File (2 * 1024 * 1024) ct)]) ->
           JS.arr_includes BundleAnalyzer.js_extensions
             (JS.toLowerCase (Path.extname_of_name nm)) = true ->
           let fi := file_info (Path.join dirPath nm) (2 * 1024 * 1024) in
           BundleAnalyzer.analyzeBuildDirectory w dirPath =
           Ret (BundleAnalyzer.mkBuildAnalysis (2 * 1024 * 1024) 1 [fi] [] [] [fi])).
Proof.
  intros w dirPath. split; [|split].
  - intros a H.
    destruct (analyzeBuildDirectory_inv w dirPath a H) as (L & G & F & ->).
    exists L. destruct (totals_of_sorted L). auto.
  - intros r es L U R listing.
    exists (sorted (extend empty_analysis (map info listing))).
    destruct (totals_of_sorted listing) as [T C].
    split; [apply (analyzeBuildDirectory_ok w dirPath r es L U R)|].
    split; [rewrite (getAllFiles_spec w dirPath r es L U), R; reflexivity|].
    split; [apply (listing_distinct everything everything (Fs.depth (Fs.Dir r es)));
            auto|].
    split; [exact T|]. split; [exact C|].
    intros f sz. apply large_in_largestFiles.
  - intros nm ct L J fi.
    rewrite (analyzeBuildDirectory_ok w dirPath true _ L eq_refl eq_refl).
    cbn [walk_listing flat_map snd fst everything app map info].
    fold (Path.join dirPath nm). fold fi.
    assert (Ejs : is_js fi = true).
    { unfold is_js, lower_ext, fi. cbn [file_info BundleAnalyzer.path_].
      rewrite extname_join. exact J. }
    unfold sorted, extend, empty_analysis.
    cbn [filter BundleAnalyzer.totalSize BundleAnalyzer.fileCount BundleAnalyzer.jsFiles
         BundleAnalyzer.cssFiles BundleAnalyzer.assetFiles BundleAnalyzer.largestFiles].
    change (info (Path.join dirPath nm, (2 * 1024 * 1024)%Z)) with fi.
    unfold is_css, is_asset. rewrite Ejs.
    reflexivity.
Qed.

(** The build directory [dist] of [two_megabyte_world]. *)
Lemma C2_witness :
  BundleAnalyzer.analyzeBuildDirectory two_megabyte_world ["dist"%string] =
  Ret (BundleAnalyzer.mkBuildAnalysis (2 * 1024 * 1024) 1
         [file_info ["dist"%string; "main.js"%string] (2 * 1024 * 1024)] [] []
         [file_info ["dist"%string; "main.js"%string] (2 * 1024 * 1024)]).
Proof.
  apply (proj2 (proj2 (C2_build_directory_totals two_megabyte_world ["dist"%string]))
           "main.js"%string "bundle"%string); reflexivity.
Defined.

(** ** The three lists of a build analysis *)

Section Classification.

Import BundleAnalyzer.

(** A file goes to exactly one of the three lists. *)
Lemma partition_perm (l : list FileInfo) :
  Permutation (filter is_js l ++ filter is_css l ++ filter is_asset l) l.
Proof.
  induction l as [|x l IH]; cbn [filter].
  - apply perm_nil.
  - unfold is_css, is_asset.
    destruct (is_js x); cbn [negb andb app].
    + apply perm_skip. exact IH.
    + destruct (JS.arr_includes css_extensions (lower_ext x)); cbn [negb].
      * apply Permutation_sym, Permutation_cons_app, Permutation_sym. exact IH.
      * rewrite app_assoc.
        apply Permutation_sym, Permutation_cons_app, Permutation_sym.
        rewrite <- app_assoc. exact IH.
Qed.

Lemma sorted_lists_perm (infos : list FileInfo) :
  let a := sorted (extend empty_analysis infos) in
  Permutation (jsFiles a ++ cssFiles a ++ assetFiles a) infos.
Proof.
  cbn.
  apply Permutation_trans
    with (filter is_js infos ++ filter is_css infos ++ filter is_asset infos)%list.
  - apply Permutation_app; [apply sort_desc_perm|].
    apply Permutation_app; [apply sort_desc_perm|apply Permutation_refl].
  - apply partition_perm.
Qed.

Lemma sorted_lists_add_up (infos : list FileInfo) :
  lists_add_up (sorted (extend empty_analysis infos)).
Proof.
  unfold lists_add_up.
  pose proof (Permutation_length (sorted_lists_perm infos)) as H.
  cbv zeta in H. rewrite !length_app in H.
  change (fileCount (sorted (extend empty_analysis infos)))
    with (0 + Z.of_nat (List.length infos))%Z.
  lia.
Qed.

Lemma sorted_filter_all (p : FileInfo -> bool) (l : list FileInfo) :
  Forall (fun fi => p fi = true) (JS.sort_desc size (filter p l)).
Proof.
  apply Forall_forall. intros fi H.
  apply (Permutation_in _ (sort_desc_perm _ size _)) in H.
  apply filter_In in H. apply H.
Qed.

Lemma filter_all (p : FileInfo -> bool) (l : list FileInfo) :
  Forall (fun fi => p fi = true) (filter p l).
Proof.
  apply Forall_forall. intros fi H. apply filter_In in H. apply H.
Qed.

Lemma path_of_info (L : list (path * Z)) : map path_ (map info L) = map fst L.
Proof.
  induction L as [|e L IH]; cbn; [reflexivity|]. rewrite IH. reflexivity.
Qed.

Lemma set_values {A : Type} (P : A -> Prop) (k : string) (v : A) :
  forall d : dict A,
    Forall P (map snd d) -> P v -> Forall P (map snd (set d k v)).
Proof.
  induction d as [|[k' v'] d IH]; cbn; intros F Pv.
  - constructor; [exact Pv|constructor].
  - inversion F; subst.
    destruct (String.eqb k k'); cbn; constructor; auto.
Qed.

(** The loop of [analyzeBuildOutput] stores nothing but analyses that
    [analyzeBuildDirectory] returned. *)
Lemma analyze_builds_values (w : World) (P : BuildAnalysis -> Prop) :
  (forall dirPath a, analyzeBuildDirectory w dirPath = Ret a -> P a) ->
  forall (foundBuilds : list string) (r : Results),
    Forall P (map snd (buildSize r)) ->
    Forall P (map snd (buildSize (snd (analyze_builds w foundBuilds r)))).
Proof.
  intros HP. induction foundBuilds as [|d rest IH]; intros r F; cbn [analyze_builds].
  - exact F.
  - destruct (analyzeBuildDirectory w (Path.join [] d)) as [a|e] eqn:E.
    + apply IH. cbn [set_buildSize buildSize].
      apply set_values; [exact F|]. apply (HP _ _ E).
    + exact F.
Qed.

(** The other steps of [analyze] leave [buildSize] as it is. *)
Ltac keeps_buildSize H :=
  repeat match type of H with
         | (if ?x then _ else _) = _ => destruct x
         | match ?x with _ => _ end = _ => destruct x
         end;
  cbn [bind] in H; try discriminate; inversion H; reflexivity.

Lemma detectBundler_buildSize (w : World) (s s' : Results) :
  detectBundler w s = Ret s' -> buildSize s' = buildSize s.
Proof.
  unfold detectBundler. intros H.
  destruct (first_bundler w bundlers); [inversion H; reflexivity|].
  destruct (Fs.existsSync (root w) packageJsonPath); [|inversion H; reflexivity].
  destruct (Fs.readFileSync (root w) packageJsonPath) as [text|e]; cbn [bind] in H;
    [|discriminate].
  destruct (JSON_parse w text) as [[|pj|]|e]; cbn [bind prop] in H;
    try discriminate; keeps_buildSize H.
Qed.

Lemma analyzeChunking_buildSize (s s' : Results) :
  analyzeChunking s = Ret s' -> buildSize s' = buildSize s.
Proof.
  unfold analyzeChunking. intros H. inversion H. reflexivity.
Qed.

Lemma checkTreeShaking_buildSize (w : World) (s s' : Results) :
  checkTreeShaking w s = Ret s' -> buildSize s' = buildSize s.
Proof.
  unfold checkTreeShaking. intros H.
  destruct (Fs.existsSync (root w) packageJsonPath).
  - destruct (Fs.readFileSync (root w) packageJsonPath); cbn [bind] in H;
      [|discriminate].
    destruct (JSON_parse w a) as [[|pj|]|e]; cbn [bind] in H;
      try discriminate; inversion H; reflexivity.
  - inversion H. reflexivity.
Qed.

Lemma checkCompression_buildSize (w : World) (s s' : Results) :
  checkCompression w s = Ret s' -> buildSize s' = buildSize s.
Proof.
  unfold checkCompression. intros H. inversion H. reflexivity.
Qed.

Lemma generateOptimizations_buildSize (s s' : Results) :
  generateOptimizations s = Ret s' -> buildSize s' = buildSize s.
Proof.
  unfold generateOptimizations. intros H. inversion H. reflexivity.
Qed.

Lemma printReport_buildSize (w : World) (s s' : Results) :
  printReport w s = Ret s' -> buildSize s' = buildSize s.
Proof.
  unfold printReport, writeFileSync. intros H.
  destruct (chunkAnalysis s); [|discriminate].
  destruct (writable w); cbn [bind] in H; [|discriminate].
  inversion H. reflexivity.
Qed.

Lemma generateConfigs_buildSize (w : World) (s s' : Results) :
  generateConfigs w s = Ret s' -> buildSize s' = buildSize s.
Proof.
  unfold generateConfigs, writeFileSync. intros H.
  destruct (bundler s) as [b|]; [|inversion H; reflexivity].
  destruct (writable w); cbn [bind] in H; keeps_buildSize H.
Qed.

(** A property of the stored analyses that [analyzeBuildDirectory]
    establishes holds of everything [analyze] leaves in [buildSize]. *)
Lemma analyze_values (w : World) (P : BuildAnalysis -> Prop) :
  (forall dirPath a, analyzeBuildDirectory w dirPath = Ret a -> P a) ->
  forall r, Forall P (map snd (buildSize r)) ->
            Forall P (map snd (buildSize (snd (analyze w r)))).
Proof.
  intros HP. unfold analyze.
  set (Q := fun r : Results => Forall P (map snd (buildSize r))).
  apply (try_log_inv Q).
  repeat apply (and_then_inv Q);
    try (apply (step_inv Q); intros s s' E Ps); unfold Q in *;
    [ rewrite (detectBundler_buildSize w s s' E)
    | unfold analyzeBuildOutput; intros s Ps; apply analyze_builds_values
    | rewrite (analyzeChunking_buildSize s s' E)
    | rewrite (checkTreeShaking_buildSize w s s' E)
    | rewrite (checkCompression_buildSize w s s' E)
    | rewrite (generateOptimizations_buildSize s s' E)
    | rewrite (printReport_buildSize w s s' E)
    | rewrite (generateConfigs_buildSize w s s' E) ];
    assumption.
Qed.

End Classification.

(** C9.  Every analysis [analyzeBuildDirectory] returns puts each
    discovered file into exactly one of [jsFiles], [cssFiles] and
    [assetFiles] (by lower-cased extension, [assetFiles] taking the rest),
    so that the three lengths add up to [fileCount]; and every entry that
    [analyzeBuildOutput] stores in [buildSize], hence every entry the
    results of [analyze] hold, has this property. *)
Theorem C9_lists_partition_files :
  forall w : World,
    (forall dirPath a,
        BundleAnalyzer.analyzeBuildDirectory w dirPath = Ret a ->
        exists files,
          BundleAnalyzer.getAllFiles w dirPath = Ret files /\
          Permutation
            (map BundleAnalyzer.path_
                 (BundleAnalyzer.jsFiles a ++ BundleAnalyzer.cssFiles a
                  ++ BundleAnalyzer.assetFiles a))
            files /\
          BundleAnalyzer.fileCount a = Z.of_nat (List.length files) /\
          lists_add_up a /\
          Forall (fun fi => is_js fi = true) (BundleAnalyzer.jsFiles a) /\
          Forall (fun fi => is_css fi = true) (BundleAnalyzer.cssFiles a) /\
          Forall (fun fi => is_asset fi = true) (BundleAnalyzer.assetFiles a))
    /\ (forall r,
           Forall lists_add_up (map snd (BundleAnalyzer.buildSize r)) ->
           Forall lists_add_up
             (map snd (BundleAnalyzer.buildSize
                         (snd (BundleAnalyzer.analyzeBuildOutput w r)))))
    /\ Forall lists_add_up
         (map snd (BundleAnalyzer.buildSize
                     (snd (BundleAnalyzer.analyze w BundleAnalyzer.initial)))).
Proof.
  intros w.
  assert (H1 : forall dirPath a,
             BundleAnalyzer.analyzeBuildDirectory w dirPath = Ret a -> lists_add_up a).
  { intros dirPath a H.
    destruct (analyzeBuildDirectory_inv w dirPath a H) as (L & _ & _ & ->).
    apply sorted_lists_add_up. }
  split; [|split].
  - intros dirPath a H.
    destruct (analyzeBuildDirectory_inv w dirPath a H) as (L & G & F & E).
    exists (map fst L). split; [exact G|].
    subst a. split; [|split; [|split; [|split; [|split]]]].
    + rewrite <- path_of_info. apply Permutation_map. apply sorted_lists_perm.
    + rewrite length_map. apply (totals_of_sorted L).
    + apply sorted_lists_add_up.
    + apply sorted_filter_all.
    + apply sorted_filter_all.
    + apply filter_all.
  - intros r F. unfold BundleAnalyzer.analyzeBuildOutput.
    apply analyze_builds_values; assumption.
  - apply analyze_values; [exact H1|constructor].
Qed.

(** The build directory of [two_megabyte_world]: one file, in [jsFiles]. *)
Lemma C9_witness :
  exists a,
    BundleAnalyzer.analyzeBuildDirectory two_megabyte_world ["dist"%string] = Ret a /\
    lists_add_up a.
Proof.
  eexists. split; [reflexivity|].
  destruct (proj1 (C9_lists_partition_files two_megabyte_world) ["dist"%string] _ eq_refl)
    as (files & _ & _ & _ & H & _).
  exact H.
Defined.

(** ** Substrings and the hash pattern *)

Section FileNames.

Import BundleAnalyzer.
Open Scope string_scope.

Lemma prefix_spec (p : string) :
  forall s, String.prefix p s = true <-> exists b, s = p ++ b.
Proof.
  induction p as [|c p IH]; intros s.
  - destruct s; cbn; (split; [intros _; eexists; reflexivity|reflexivity]).
  - destruct s as [|c' s]; cbn [String.prefix].
    + split; [discriminate|]. intros [b H]. discriminate.
    + destruct (ascii_dec c c') as [->|N].
      * rewrite IH. split; intros [b H]; exists b.
        -- cbn. rewrite H. reflexivity.
        -- cbn in H. inversion H. reflexivity.
      * split; [discriminate|]. intros [b H]. cbn in H. congruence.
Qed.

Lemma includes_spec (sub : string) :
  forall s, JS.includes s sub = true <-> contains s sub.
Proof.
  unfold contains. induction s as [|c s IH].
  - cbn [JS.includes]. rewrite orb_false_r, prefix_spec. split.
    + intros [b H]. exists "", b. exact H.
    + intros (a & b & H). destruct a; [exists b; exact H|discriminate].
  - cbn [JS.includes]. rewrite orb_true_iff, prefix_spec, IH. split.
    + intros [[b H]|(a & b & H)].
      * exists "", b. exact H.
      * exists (String c a), b. cbn. rewrite H. reflexivity.
    + intros (a & b & H). destruct a as [|c' a].
      * left. exists b. exact H.
      * right. exists a, b. cbn in H. inversion H. reflexivity.
Qed.

Lemma span_hex_spec (s : string) :
  forall h r, span_hex s = (h, r) ->
    s = h ++ r /\ all_hex h = true /\
    match r with
    | EmptyString => True
    | String c _ => is_hex c = false
    end.
Proof.
  induction s as [|c s IH]; intros h r; cbn [span_hex].
  - intros H. inversion H. cbn. auto.
  - destruct (is_hex c) eqn:E.
    + destruct (span_hex s) as [h' r'] eqn:S. intros H. inversion H; subst.
      destruct (IH h' r eq_refl) as (-> & A & B).
      cbn. rewrite E, A. auto.
    + intros H. inversion H; subst. cbn. auto.
Qed.

Lemma span_hex_app (h r : string) :
  all_hex h = true ->
  match r with
  | EmptyString => True
  | String c _ => is_hex c = false
  end ->
  span_hex (h ++ r) = (h, r).
Proof.
  intros A B. induction h as [|c h IH]; cbn.
  - destruct r as [|c r]; cbn; [reflexivity|]. rewrite B. reflexivity.
  - cbn in A. apply andb_true_iff in A. destruct A as [A1 A2].
    rewrite A1, (IH A2). reflexivity.
Qed.

Lemma hex8_js_spec (s : string) :
  hex8_js s = true <->
  exists h, s = h ++ ".js" /\ (8 <= String.length h)%nat /\ all_hex h = true.
Proof.
  unfold hex8_js. destruct (span_hex s) as [h r] eqn:S. split.
  - intros H. apply andb_true_iff in H. destruct H as [H1 H2].
    apply Nat.leb_le in H1. apply String.eqb_eq in H2. subst r.
    destruct (span_hex_spec s h ".js" S) as (E & A & _).
    exists h. auto.
  - intros (h' & -> & L & A).
    rewrite (span_hex_app h' ".js" A) in S by reflexivity.
    inversion S; subst. apply andb_true_iff. split.
    + apply Nat.leb_le. exact L.
    + reflexivity.
Qed.

Lemma hash_js_test_spec :
  forall filename, hash_js_test filename = true <-> hash_before_js filename.
Proof.
  unfold hash_before_js. induction filename as [|c s IH]; cbn [hash_js_test].
  - split; [discriminate|]. intros (pre & h & H & _).
    destruct pre; discriminate.
  - rewrite orb_true_iff, andb_true_iff, hex8_js_spec, IH. split.
    + intros [[C (h & -> & L & A)]|(pre & h & -> & L & A)].
      * apply Ascii.eqb_eq in C. subst c. exists "", h. auto.
      * exists (String c pre), h. auto.
    + intros (pre & h & H & L & A). destruct pre as [|c' pre].
      * left. cbn in H. inversion H; subst. split; [reflexivity|].
        exists h. auto.
      * right. cbn in H. inversion H; subst. exists pre, h. auto.
Qed.

Lemma is_chunk_name_spec (filename : string) :
  is_chunk_name filename = true <->
  contains filename "chunk" \/ contains filename "vendor" \/
  contains filename "common" \/ hash_before_js filename.
Proof.
  unfold is_chunk_name.
  rewrite !orb_true_iff, !includes_spec, hash_js_test_spec. tauto.
Qed.

End FileNames.

(** ** [analyzeChunking] *)

Section Chunking.

Import BundleAnalyzer.
Open Scope list_scope.

Lemma fold_left_flat_map {A B S : Type} (f : S -> B -> S) (g : A -> list B) (l : list A) :
  forall s, fold_left (fun a b => fold_left f (g b) a) l s = fold_left f (flat_map g l) s.
Proof.
  induction l as [|x l IH]; intros s; cbn [fold_left flat_map].
  - reflexivity.
  - rewrite fold_left_app. apply IH.
Qed.

(** The first pass collects the chunks and leaves the recommendations. *)
Lemma chunk_pass_fold (l : list FileInfo) :
  forall a,
    chunkFiles (fold_left chunk_pass l a) = chunkFiles a ++ filter chunk_file l /\
    recommendations (fold_left chunk_pass l a) = recommendations a.
Proof.
  induction l as [|f l IH]; intros a; cbn [fold_left filter].
  - rewrite app_nil_r. auto.
  - destruct (IH (chunk_pass a f)) as [C R]. rewrite C, R.
    unfold chunk_pass, chunk_file.
    destruct (is_chunk_name (Path.basename (path_ f))); cbn [chunkFiles recommendations].
    + rewrite <- app_assoc. auto.
    + auto.
Qed.

(** The second pass leaves the chunks and adds one recommendation per
    large file whose path is not among them. *)
Lemma entry_pass_fold (l : list FileInfo) :
  forall a,
    chunkFiles (fold_left entry_pass l a) = chunkFiles a /\
    recommendations (fold_left entry_pass l a) =
    recommendations a ++
    map entry_recommendation
      (filter (fun f => (size f >? 500000)%Z &&
                        negb (existsb (fun c => path_eqb (path_ c) (path_ f)) (chunkFiles a)))
              l).
Proof.
  induction l as [|f l IH]; intros a; cbn [fold_left filter].
  - cbn. rewrite app_nil_r. auto.
  - destruct (IH (entry_pass a f)) as [C R]. rewrite C, R.
    unfold entry_pass.
    destruct ((size f >? 500000)%Z &&
              negb (existsb (fun c => path_eqb (path_ c) (path_ f)) (chunkFiles a)));
      cbn [chunkFiles recommendations map].
    + rewrite <- app_assoc. auto.
    + auto.
Qed.

Lemma path_eqb_eq (p q : path) : path_eqb p q = true <-> p = q.
Proof.
  unfold path_eqb. destruct (list_eq_dec string_dec p q); split; congruence.
Qed.

(** Looking a file's path up among the collected chunks decides whether
    the file itself is a chunk: the classification reads the path only. *)
Lemma in_chunks (l : list FileInfo) (f : FileInfo) :
  In f l ->
  existsb (fun c => path_eqb (path_ c) (path_ f)) (filter chunk_file l) = chunk_file f.
Proof.
  intros H. destruct (chunk_file f) eqn:E.
  - apply existsb_exists. exists f. split.
    + apply filter_In. auto.
    + apply path_eqb_eq. reflexivity.
  - apply not_true_is_false. intros X. apply existsb_exists in X.
    destruct X as (c & Hc & P). apply filter_In in Hc. destruct Hc as [_ Hc].
    apply path_eqb_eq in P. unfold chunk_file in *. rewrite P in Hc. congruence.
Qed.

Lemma analyzeChunking_spec (r : Results) :
  exists a,
    analyzeChunking r = Ret (set_chunkAnalysis r a) /\
    chunkFiles a = filter chunk_file (all_js r) /\
    recommendations a = map entry_recommendation (filter large_entry (all_js r)).
Proof.
  unfold analyzeChunking. rewrite !fold_left_flat_map. fold (all_js r).
  eexists. split; [reflexivity|].
  set (a0 := mkChunkAnalysis false [] [] [] []).
  destruct (chunk_pass_fold (all_js r) a0) as [C1 R1].
  destruct (entry_pass_fold (all_js r) (fold_left chunk_pass (all_js r) a0)) as [C2 R2].
  split.
  - rewrite C2, C1. reflexivity.
  - rewrite R2, R1, C1. subst a0. cbn [recommendations chunkFiles app]. f_equal.
    apply filter_ext_in. intros f H. unfold large_entry.
    rewrite (in_chunks (all_js r) f H). reflexivity.
Qed.

Lemma filter_filter {A : Type} (p q : A -> bool) (l : list A) :
  filter p (filter q l) = filter (fun x => q x && p x) l.
Proof.
  induction l as [|x l IH]; cbn [filter]; [reflexivity|].
  destruct (q x); cbn [filter andb]; rewrite IH; reflexivity.
Qed.

Lemma filter_none {A : Type} (p : A -> bool) (l : list A) :
  (forall x, In x l -> p x = false) -> filter p l = [].
Proof.
  induction l as [|x l IH]; cbn [filter]; intros H; [reflexivity|].
  rewrite (H x (or_introl eq_refl)). apply IH. intros y Hy. apply H. right. exact Hy.
Qed.

Lemma filter_map_length {A B : Type} (p : B -> bool) (g : A -> B) (l : list A) :
  List.length (filter p (map g l)) = List.length (filter (fun x => p (g x)) l).
Proof.
  induction l as [|x l IH]; cbn [map filter]; [reflexivity|].
  destruct (p (g x)); cbn [List.length]; rewrite IH; reflexivity.
Qed.

(** Among files of distinct paths, one file has the path of [f]. *)
Lemma one_of_path (l : list FileInfo) (f : FileInfo) (q : FileInfo -> bool) :
  NoDup (map path_ l) -> In f l -> q f = true ->
  List.length (filter (fun x => q x && path_eqb (path_ x) (path_ f)) l) = 1%nat.
Proof.
  induction l as [|x l IH]; cbn [map filter]; intros N H Q.
  - contradiction.
  - inversion N as [|? ? N1 N2]; subst. destruct H as [->|H].
    + rewrite Q. cbn [andb].
      replace (path_eqb (path_ f) (path_ f)) with true
        by (symmetry; apply path_eqb_eq; reflexivity).
      cbn [List.length]. f_equal. rewrite filter_none; [reflexivity|].
      intros y Hy. apply andb_false_iff. right.
      apply not_true_is_false. intros P. apply path_eqb_eq in P.
      apply N1. rewrite <- P. apply in_map. exact Hy.
    + replace (q x && path_eqb (path_ x) (path_ f)) with false.
      * apply IH; assumption.
      * symmetry. apply andb_false_iff. right.
        apply not_true_is_false. intros P. apply path_eqb_eq in P.
        apply N1. rewrite P. apply in_map. exact H.
Qed.

End Chunking.

(** C8, as the code has it.  [analyzeChunking] treats a file name as a
    chunk exactly when it contains ["chunk"], ["vendor"] or ["common"], or
    ends with a dot, at least eight characters of [[a-f0-9]] and the
    extension [.js]; the chunks it collects are the script files so named;
    and its recommendations are one per script file above 500000 bytes
    that is not a chunk, in the order of the build directories. *)
Theorem C8_chunk_names_and_large_entries :
  (forall filename,
      BundleAnalyzer.is_chunk_name filename = true <->
      contains filename "chunk" \/ contains filename "vendor" \/
      contains filename "common" \/ hash_before_js filename)
  /\ (forall r,
         exists a,
           BundleAnalyzer.analyzeChunking r = Ret (BundleAnalyzer.set_chunkAnalysis r a) /\
           BundleAnalyzer.chunkFiles a = filter chunk_file (all_js r) /\
           BundleAnalyzer.recommendations a =
           map entry_recommendation (filter large_entry (all_js r)) /\
           (forall f,
               NoDup (map BundleAnalyzer.path_ (all_js r)) ->
               In f (all_js r) -> large_entry f = true ->
               List.length
                 (filter (fun rc => BundleAnalyzer.path_eqb (BundleAnalyzer.rec_file rc)
                                                           (BundleAnalyzer.path_ f))
                         (BundleAnalyzer.recommendations a)) = 1%nat)).
Proof.
  split; [apply is_chunk_name_spec|].
  intros r. destruct (analyzeChunking_spec r) as (a & E & C & R).
  exists a. repeat split; try assumption.
  intros f N H L. rewrite R, filter_map_length, filter_filter.
  exact (one_of_path (all_js r) f large_entry N H L).
Qed.

(** A hashed file name is a chunk, and of two large scripts the one that
    is not a chunk gets the single recommendation. *)
Lemma C8_witness :
  BundleAnalyzer.is_chunk_name "app.0123abcd.js" = true
  /\ exists a,
       BundleAnalyzer.analyzeChunking two_scripts_results
       = Ret (BundleAnalyzer.set_chunkAnalysis two_scripts_results a) /\
       BundleAnalyzer.recommendations a =
       [entry_recommendation (file_info ["dist"%string; "main.js"%string] 600000)] /\
       List.length
         (filter (fun rc => BundleAnalyzer.path_eqb (BundleAnalyzer.rec_file rc)
                              ["dist"%string; "main.js"%string])
                 (BundleAnalyzer.recommendations a)) = 1%nat.
Proof.
  split.
  - apply (proj1 C8_chunk_names_and_large_entries).
    right. right. right. exists "app"%string, "0123abcd"%string.
    split; [reflexivity|]. split; [cbn; lia|reflexivity].
  - destruct (proj2 C8_chunk_names_and_large_entries two_scripts_results)
      as (a & E & C & R & O).
    exists a. split; [exact E|]. split; [exact R|].
    apply (O (file_info ["dist"%string; "main.js"%string] 600000)).
    + cbn. repeat constructor; cbn; intuition discriminate.
    + cbn. auto.
    + reflexivity.
Defined.

(** C8 as stated fails: [main.1a2b3c4d.mjs] is a script file whose name
    ends with a hexadecimal segment of eight characters before its
    extension, and [analyzeChunking] does not treat it as a chunk: its
    pattern asks for the extension [.js]. *)
Lemma C8_counterexample :
  JS.arr_includes BundleAnalyzer.js_extensions
    (JS.toLowerCase (Path.extname_of_name "main.1a2b3c4d.mjs")) = true
  /\ ~ (BundleAnalyzer.is_chunk_name "main.1a2b3c4d.mjs" = true <->
        chunk_by_specification "main.1a2b3c4d.mjs").
Proof.
  split; [reflexivity|]. intros [_ H].
  assert (S : chunk_by_specification "main.1a2b3c4d.mjs").
  { right. right. right. exists "main"%string, "1a2b3c4d"%string.
    split; [reflexivity|]. split; [cbn; lia|reflexivity]. }
  apply H in S. vm_compute in S. discriminate.
Qed.

(** ** [findDuplicateDependencies] *)

Section Duplicates.

Import PerformanceAnalyzer.
Open Scope list_scope.

Lemma fold_findings (dependencies : dict string) (groups : list (list string)) :
  forall duplicates,
    fold_left
      (fun duplicates group =>
         let found := filter (fun dep => JS.arr_includes group dep) (keys dependencies) in
         if (Z.of_nat (List.length found) >? 1)%Z then duplicates ++ [found] else duplicates)
      groups duplicates
    = duplicates ++ flat_map (group_finding dependencies) groups.
Proof.
  induction groups as [|g groups IH]; intros duplicates; cbn [fold_left flat_map].
  - rewrite app_nil_r. reflexivity.
  - rewrite IH. unfold group_finding, declared_of.
    destruct (Z.of_nat _ >? 1)%Z.
    + rewrite <- app_assoc. reflexivity.
    + reflexivity.
Qed.

(** One finding per group with two or more declared members, in the order
    of the groups. *)
Lemma findDuplicateDependencies_groups (dependencies : dict string) :
  findDuplicateDependencies dependencies
  = flat_map (group_finding dependencies) duplicateGroups.
Proof.
  unfold findDuplicateDependencies. cbv zeta. rewrite fold_findings. reflexivity.
Qed.

Lemma two_members {A : Type} (a b : A) (l : list A) :
  In a l -> In b l -> a <> b -> (2 <= List.length l)%nat.
Proof.
  intros Ha Hb N. destruct l as [|x [|y l]]; cbn in *.
  - contradiction.
  - destruct Ha as [->|[]], Hb as [->|[]]. contradiction.
  - lia.
Qed.

Lemma finding_members (dependencies : dict string) (group finding : list string) :
  In finding (group_finding dependencies group) ->
  forall name, In name finding ->
               In name (keys dependencies) /\ JS.arr_includes group name = true.
Proof.
  unfold group_finding. destruct (Z.of_nat _ >? 1)%Z; cbn [In]; [|contradiction].
  intros [<-|[]] name H. unfold declared_of in H. apply filter_In in H. exact H.
Qed.

(** A reported name is a declared dependency. *)
Lemma duplicates_declared (dependencies : dict string) (finding : list string) (name : string) :
  In finding (findDuplicateDependencies dependencies) ->
  In name finding -> In name (keys dependencies).
Proof.
  rewrite findDuplicateDependencies_groups. intros H N.
  apply in_flat_map in H. destruct H as (g & _ & H).
  apply (finding_members dependencies g finding H name N).
Qed.

End Duplicates.

(** C7, as the code has it.  For every manifest whose dependencies declare
    both [moment] and [date-fns], the first duplicate finding lists the
    declared date libraries and contains both names; no other finding
    contains either of them; and it is the only finding unless another
    group has two or more declared members too. *)
Theorem C7_moment_and_date_fns :
  forall dependencies : dict string,
    In "moment"%string (keys dependencies) ->
    In "date-fns"%string (keys dependencies) ->
    let found := declared_of date_group dependencies in
    In "moment"%string found /\ In "date-fns"%string found
    /\ PerformanceAnalyzer.findDuplicateDependencies dependencies
       = found :: flat_map (group_finding dependencies) other_groups
    /\ (forall finding,
           In finding (flat_map (group_finding dependencies) other_groups) ->
           ~ In "moment"%string finding /\ ~ In "date-fns"%string finding)
    /\ ((forall group, In group other_groups ->
                       (List.length (declared_of group dependencies) <= 1)%nat) ->
        PerformanceAnalyzer.findDuplicateDependencies dependencies = [found]).
Proof.
  intros dependencies Hm Hd found.
  assert (Fm : In "moment"%string found)
    by (apply filter_In; split; [exact Hm|reflexivity]).
  assert (Fd : In "date-fns"%string found)
    by (apply filter_In; split; [exact Hd|reflexivity]).
  assert (E : PerformanceAnalyzer.findDuplicateDependencies dependencies
              = found :: flat_map (group_finding dependencies) other_groups).
  { rewrite findDuplicateDependencies_groups.
    change PerformanceAnalyzer.duplicateGroups with (date_group :: other_groups).
    cbn [flat_map]. unfold group_finding at 1. fold found.
    assert (L : (2 <= List.length found)%nat)
      by (apply (two_members "moment"%string "date-fns"%string); auto; discriminate).
    destruct (Z.of_nat (List.length found) >? 1)%Z eqn:G; [reflexivity|].
    rewrite Z.gtb_ltb in G. apply Z.ltb_ge in G. lia. }
  split; [exact Fm|]. split; [exact Fd|]. split; [exact E|]. split.
  - intros finding H. apply in_flat_map in H. destruct H as (g & Hg & H).
    split; intros N;
      destruct (finding_members dependencies g finding H _ N) as [_ X];
      cbn in Hg; decompose [or] Hg; subst; try contradiction; vm_compute in X;
      discriminate.
  - intros H. rewrite E. f_equal.
    assert (X : forall groups, incl groups other_groups ->
                               flat_map (group_finding dependencies) groups = []).
    { induction groups as [|g groups IH]; intros I; cbn [flat_map]; [reflexivity|].
      rewrite IH by (intros x Hx; apply I; right; exact Hx).
      unfold group_finding.
      pose proof (H g (I g (or_introl eq_refl))) as Hg.
      destruct (Z.of_nat _ >? 1)%Z eqn:G; [|reflexivity].
      apply Z.gtb_lt in G. lia. }
    apply X. apply incl_refl.
Qed.

(** Dependencies that declare the two date libraries and nothing else of
    the groups: one finding, with both names. *)
Lemma C7_witness :
  PerformanceAnalyzer.findDuplicateDependencies
    [ ("react", "^18.2.0"); ("moment", "^2.29.4"); ("date-fns", "^2.30.0") ]%string
  = [ ["moment"; "date-fns"]%string ].
Proof.
  destruct (C7_moment_and_date_fns
              [ ("react", "^18.2.0"); ("moment", "^2.29.4"); ("date-fns", "^2.30.0") ]%string)
    as (_ & _ & _ & _ & H).
  - cbn. auto.
  - cbn. auto.
  - apply H. intros group Hg.
    cbn in Hg. decompose [or] Hg; subst; try contradiction; cbn; lia.
Defined.

(** C7 as stated fails: when the utility libraries are duplicated as well,
    two findings are reported, not exactly one. *)
Lemma C7_counterexample :
  In "moment"%string (keys two_groups_dependencies)
  /\ In "date-fns"%string (keys two_groups_dependencies)
  /\ PerformanceAnalyzer.findDuplicateDependencies two_groups_dependencies
     = [ ["moment"; "date-fns"]%string; ["lodash"; "underscore"]%string ]
  /\ ~ (exists finding,
           PerformanceAnalyzer.findDuplicateDependencies two_groups_dependencies
           = [finding]).
Proof.
  split; [cbn; auto|]. split; [cbn; auto|]. split; [reflexivity|].
  intros [finding H]. vm_compute in H. discriminate.
Qed.

(** ** [analyzeDependencies] *)

Section Dependencies.

Import PerformanceAnalyzer.

Variable w : World.

(** The analysis of a manifest that parses to an object. *)
Lemma analyzeDependencies_manifest (r : Results) (sz : Z) (text : string) (pj : PackageJson) :
  Fs.lookup (root w) packageJsonPath = Some (Fs.File sz text) ->
  JSON_parse w text = Ret (JObject pj) ->
  analyzeDependencies w r =
  Ret (set_dependencyAnalysis r
         (mkDependencyAnalysis
            (Z.of_nat (List.length (keys (or_empty (dependencies pj)))))
            (Z.of_nat (List.length (keys (or_empty (devDependencies pj)))))
            (filter is_heavy (keys (or_empty (dependencies pj))))
            (findDuplicateDependencies (or_empty (dependencies pj))))).
Proof.
  intros L P. unfold analyzeDependencies, Fs.existsSync, Fs.readFileSync.
  rewrite L. cbn [negb bind]. rewrite P. reflexivity.
Qed.

End Dependencies.

(** C10.  Heavy-dependency and duplicate detection read the manifest's
    [dependencies] only.  For every manifest that parses to an object, the
    heavy names and the duplicate findings are computed from the keys of
    [dependencies]; a package that is not declared there, even if it is
    declared under [devDependencies], is in neither; the
    [devDependencies] are counted in [totalDevDependencies]. *)
Theorem C10_dev_dependencies_not_reported :
  forall (w : World) (r : PerformanceAnalyzer.Results) (sz : Z) (text : string)
         (pj : PackageJson),
    Fs.lookup (root w) PerformanceAnalyzer.packageJsonPath = Some (Fs.File sz text) ->
    JSON_parse w text = Ret (JObject pj) ->
    exists d,
      PerformanceAnalyzer.analyzeDependencies w r
      = Ret (PerformanceAnalyzer.set_dependencyAnalysis r d) /\
      PerformanceAnalyzer.totalDevDependencies d
      = Z.of_nat (List.length (keys (or_empty (devDependencies pj)))) /\
      PerformanceAnalyzer.heavyDependencies d
      = filter is_heavy (keys (or_empty (dependencies pj))) /\
      PerformanceAnalyzer.duplicateDependencies d
      = PerformanceAnalyzer.findDuplicateDependencies (or_empty (dependencies pj)) /\
      (forall name,
          ~ In name (keys (or_empty (dependencies pj))) ->
          ~ In name (PerformanceAnalyzer.heavyDependencies d) /\
          (forall finding,
              In finding (PerformanceAnalyzer.duplicateDependencies d) ->
              ~ In name finding)).
Proof.
  intros w r sz text pj L P.
  eexists. split; [apply (analyzeDependencies_manifest w r sz text pj L P)|].
  cbn [PerformanceAnalyzer.totalDevDependencies PerformanceAnalyzer.heavyDependencies
       PerformanceAnalyzer.duplicateDependencies].
  split; [reflexivity|]. split; [reflexivity|]. split; [reflexivity|].
  intros name Hn. split.
  - intros H. apply filter_In in H. tauto.
  - intros finding F N. apply Hn.
    apply (duplicates_declared _ finding name F N).
Qed.

(** A manifest with [lodash], [moment] and [dayjs] under
    [devDependencies] only: three development dependencies are counted,
    nothing is reported as heavy or duplicated. *)
Lemma C10_witness :
  exists d,
    PerformanceAnalyzer.analyzeDependencies dev_only_world PerformanceAnalyzer.initial
    = Ret (PerformanceAnalyzer.set_dependencyAnalysis PerformanceAnalyzer.initial d) /\
    PerformanceAnalyzer.totalDevDependencies d = 3%Z /\
    PerformanceAnalyzer.heavyDependencies d = [] /\
    PerformanceAnalyzer.duplicateDependencies d = [].
Proof.
  destruct (C10_dev_dependencies_not_reported dev_only_world PerformanceAnalyzer.initial
              114 dev_only_text dev_only_manifest eq_refl eq_refl)
    as (d & E & T & H & D & _).
  exists d. rewrite T, H, D. split; [exact E|]. repeat split.
Defined.

(** ** [analyzeCodePatterns] *)

Section CodePatterns.

Import PerformanceAnalyzer.
Open Scope Z_scope.

(** The loop over the lines of one file. *)
Lemma forEach_scan (f : path) (lines : list string) :
  forall (index : Z) (patterns : Patterns),
    forEach_index lines (scan_line f) index patterns =
    mkPatterns
      (largeFiles patterns)
      (inefficientPatterns patterns
       ++ map (dom_issue f) (matching_lines has_dom_query lines index))
      (unusedImports patterns)
      (inlineStyles patterns + count_lines has_inline_style lines)
      (consoleStatements patterns + count_lines has_console lines).
Proof.
  unfold count_lines.
  induction lines as [|ln lines IH]; intros index patterns;
    cbn [forEach_index matching_lines filter].
  - cbn. rewrite app_nil_r, !Z.add_0_r. destruct patterns. reflexivity.
  - rewrite IH. unfold scan_line.
    fold (has_inline_style ln). fold (has_console ln). fold (has_dom_query ln).
    cbn [largeFiles inefficientPatterns unusedImports inlineStyles consoleStatements].
    destruct (has_inline_style ln), (has_console ln), (has_dom_query ln);
      cbn [List.length app map]; rewrite <- ?app_assoc; cbn [app];
      f_equal; try lia; reflexivity.
Qed.

(** A number is reported exactly for the lines that match, counted from
    1. *)
Lemma matching_lines_numbers (p : string -> bool) (lines : list string) :
  forall (index n : Z),
    In n (matching_lines p lines index) <->
    index < n /\
    exists ln, nth_error lines (Z.to_nat (n - index - 1)) = Some ln /\ p ln = true.
Proof.
  induction lines as [|l lines IH]; intros index n; cbn [matching_lines].
  - split; [contradiction|]. intros (_ & ln & H & _).
    destruct (Z.to_nat (n - index - 1)); discriminate.
  - rewrite in_app_iff, IH. split.
    + intros [H|(H & ln & Hn & Hp)].
      * destruct (p l) eqn:P; [|contradiction]. destruct H as [<-|[]].
        split; [lia|]. exists l.
        replace (index + 1 - index - 1) with 0 by lia. auto.
      * split; [lia|]. exists ln. split; [|exact Hp].
        replace (Z.to_nat (n - index - 1)) with (S (Z.to_nat (n - (index + 1) - 1)))
          by lia.
        exact Hn.
    + intros (H & ln & Hn & Hp).
      destruct (Z.eq_dec n (index + 1)) as [->|N].
      * left. replace (index + 1 - index - 1) with 0 in Hn by lia.
        cbn in Hn. inversion Hn; subst. rewrite Hp. left. reflexivity.
      * right. split; [lia|]. exists ln. split; [|exact Hp].
        replace (Z.to_nat (n - index - 1)) with (S (Z.to_nat (n - (index + 1) - 1)))
          in Hn by lia.
        exact Hn.
Qed.

Lemma scan_file_spec (w : World) (patterns : Patterns) (f : path) (sz : Z) (content : string) :
  Fs.lookup (root w) f = Some (Fs.File sz content) ->
  scan_file w patterns f =
  Ret (mkPatterns
         (largeFiles patterns
          ++ (if sz >? 100000 then [mkLargeFile f (JS.round_div sz 1024)] else []))
         (inefficientPatterns patterns
          ++ map (dom_issue f) (matching_lines has_dom_query (JS.split_lines content) 0))
         (unusedImports patterns)
         (inlineStyles patterns + count_lines has_inline_style (JS.split_lines content))
         (consoleStatements patterns + count_lines has_console (JS.split_lines content))).
Proof.
  intros L. unfold scan_file, Fs.readFileSync, Fs.statSync. rewrite L.
  cbn [bind Fs.size]. rewrite forEach_scan.
  destruct (sz >? 100000);
    cbn [largeFiles inefficientPatterns unusedImports inlineStyles consoleStatements].
  - reflexivity.
  - rewrite app_nil_r. reflexivity.
Qed.

End CodePatterns.

(** C5, as the code has it.  For every source file scanned, each line that
    contains ["console."] adds one to the counter [consoleStatements], each
    line with an inline-style marker adds one to [inlineStyles], and each
    line with a DOM query adds one entry with its 1-based line number to
    [inefficientPatterns]; lines are not deduplicated.  Debug-print
    statements are counted, not listed: a file with the line
    [console.log("x")] on two lines adds exactly 2 to [consoleStatements]
    and no entry. *)
Theorem C5_lines_counted_per_pattern :
  forall (w : World) (patterns : PerformanceAnalyzer.Patterns) (f : path) (sz : Z)
         (content : string),
    Fs.lookup (root w) f = Some (Fs.File sz content) ->
    let lines := JS.split_lines content in
    exists p',
      PerformanceAnalyzer.scan_file w patterns f = Ret p' /\
      PerformanceAnalyzer.consoleStatements p'
      = (PerformanceAnalyzer.consoleStatements patterns + count_lines has_console lines)%Z /\
      PerformanceAnalyzer.inlineStyles p'
      = (PerformanceAnalyzer.inlineStyles patterns + count_lines has_inline_style lines)%Z /\
      PerformanceAnalyzer.inefficientPatterns p'
      = PerformanceAnalyzer.inefficientPatterns patterns
        ++ map (dom_issue f) (matching_lines has_dom_query lines 0) /\
      (forall n,
          In n (matching_lines has_dom_query lines 0) <->
          (0 < n)%Z /\
          exists ln, nth_error lines (Z.to_nat (n - 1)) = Some ln /\
                     has_dom_query ln = true) /\
      (content = two_logs ->
       PerformanceAnalyzer.consoleStatements p'
       = (PerformanceAnalyzer.consoleStatements patterns + 2)%Z /\
       PerformanceAnalyzer.inefficientPatterns p'
       = PerformanceAnalyzer.inefficientPatterns patterns).
Proof.
  intros w patterns f sz content L lines.
  eexists. split; [apply (scan_file_spec w patterns f sz content L)|].
  cbn [PerformanceAnalyzer.consoleStatements PerformanceAnalyzer.inlineStyles
       PerformanceAnalyzer.inefficientPatterns].
  fold lines.
  split; [reflexivity|]. split; [reflexivity|]. split; [reflexivity|]. split.
  - intros n. rewrite matching_lines_numbers.
    replace (n - 0 - 1)%Z with (n - 1)%Z by lia. reflexivity.
  - intros ->. subst lines. split.
    + reflexivity.
    + change (matching_lines has_dom_query (JS.split_lines two_logs) 0) with (@nil Z).
      cbn [map]. apply app_nil_r.
Qed.

(** The source file of [two_logs_world]: the counter goes from 0 to 2 and
    nothing is listed. *)
Lemma C5_witness :
  exists p',
    PerformanceAnalyzer.scan_file two_logs_world
      (PerformanceAnalyzer.mkPatterns [] [] [] 0 0) ["app.js"%string] = Ret p' /\
    PerformanceAnalyzer.consoleStatements p' = 2%Z /\
    PerformanceAnalyzer.inefficientPatterns p' = [].
Proof.
  destruct (C5_lines_counted_per_pattern two_logs_world
              (PerformanceAnalyzer.mkPatterns [] [] [] 0 0) ["app.js"%string]
              33 two_logs eq_refl)
    as (p' & E & _ & _ & _ & _ & H).
  destruct (H eq_refl) as [C I].
  exists p'. split; [exact E|]. split; [exact C|exact I].
Defined.

(** C5 as stated fails: for a file with [console.log("x")] on its two
    lines the analysis lists no issue entry at all, instead of two on
    lines 1 and 2; the occurrences are only counted. *)
Lemma C5_counterexample :
  exists p,
    PerformanceAnalyzer.analyzeCodePatterns two_logs_world PerformanceAnalyzer.initial
    = Ret (PerformanceAnalyzer.set_codeAnalysis PerformanceAnalyzer.initial p) /\
    PerformanceAnalyzer.consoleStatements p = 2%Z /\
    PerformanceAnalyzer.inefficientPatterns p = [] /\
    ~ (exists e1 e2,
          In e1 (PerformanceAnalyzer.inefficientPatterns p) /\
          In e2 (PerformanceAnalyzer.inefficientPatterns p) /\
          PerformanceAnalyzer.line e1 = 1%Z /\ PerformanceAnalyzer.line e2 = 2%Z).
Proof.
  eexists. split; [vm_compute; reflexivity|].
  split; [reflexivity|]. split; [reflexivity|].
  intros (e1 & e2 & H & _). exact H.
Qed.

(** ** [PerformanceAnalyzer.analyze] and the manifest *)

Section Manifest.

Import PerformanceAnalyzer.

Variable w : World.

Lemma detectProjectType_absent (r : Results) :
  Fs.existsSync (root w) packageJsonPath = false ->
  detectProjectType w r = Ret (set_projectType r "unknown").
Proof.
  intros E. unfold detectProjectType. rewrite E. reflexivity.
Qed.

Lemma analyzeDependencies_absent (r : Results) :
  Fs.existsSync (root w) packageJsonPath = false ->
  analyzeDependencies w r = Ret r.
Proof.
  intros E. unfold analyzeDependencies. rewrite E. reflexivity.
Qed.

Lemma detectProjectType_malformed (r : Results) (sz : Z) (text : string) (e : exn) :
  Fs.lookup (root w) packageJsonPath = Some (Fs.File sz text) ->
  JSON_parse w text = Throw e ->
  detectProjectType w r = Throw e.
Proof.
  intros L P. unfold detectProjectType, Fs.existsSync, Fs.readFileSync.
  rewrite L. cbn [negb bind]. rewrite P. reflexivity.
Qed.

(** When the first step throws, [analyze] returns with [this.results] as
    it was: no later step runs. *)
Lemma analyze_first_step_throws (r : Results) (e : exn) :
  detectProjectType w r = Throw e ->
  analyze w r = (Ret tt, r).
Proof.
  intros H. unfold analyze, try_log, and_then, step. rewrite H. reflexivity.
Qed.

(** Without a manifest the first two steps return and the run goes on
    with the code-pattern analysis. *)
Lemma analyze_absent (r : Results) :
  Fs.existsSync (root w) packageJsonPath = false ->
  analyze w r =
  try_log (step (analyzeCodePatterns w) >>
           step (analyzeBundleSize w) >>
           step generateRecommendations >>
           step (printReport w))
          (set_projectType r "unknown").
Proof.
  intros E. unfold analyze, try_log.
  assert (H12 : (step (detectProjectType w) >> step (analyzeDependencies w)) r
                = (Ret tt, set_projectType r "unknown")).
  { unfold and_then, step.
    rewrite (detectProjectType_absent r E), (analyzeDependencies_absent _ E).
    reflexivity. }
  assert (H : (step (detectProjectType w) >> step (analyzeDependencies w) >>
               step (analyzeCodePatterns w) >> step (analyzeBundleSize w) >>
               step generateRecommendations >> step (printReport w)) r
              = (step (analyzeCodePatterns w) >> step (analyzeBundleSize w) >>
                 step generateRecommendations >> step (printReport w))
                  (set_projectType r "unknown")).
  { do 3 apply and_then_head. apply and_then_ret with (u := tt). exact H12. }
  rewrite H. reflexivity.
Qed.

Lemma analyzeCodePatterns_projectType (s s' : Results) :
  analyzeCodePatterns w s = Ret s' -> projectType s' = projectType s.
Proof.
  unfold analyzeCodePatterns. intros H.
  destruct (findFiles w code_extensions []); cbn [bind] in H; [|discriminate].
  destruct (for_of _ _ _); cbn [bind] in H; [|discriminate].
  inversion H. reflexivity.
Qed.

Lemma analyzeBundleSize_projectType (s s' : Results) :
  analyzeBundleSize w s = Ret s' -> projectType s' = projectType s.
Proof.
  unfold analyzeBundleSize. intros H.
  destruct (getBuildScripts w); cbn [bind] in H; [|discriminate].
  inversion H. reflexivity.
Qed.

Lemma generateRecommendations_projectType (s s' : Results) :
  generateRecommendations s = Ret s' -> projectType s' = projectType s.
Proof.
  unfold generateRecommendations. intros H. inversion H. reflexivity.
Qed.

Lemma printReport_projectType (s s' : Results) :
  printReport w s = Ret s' -> projectType s' = projectType s.
Proof.
  unfold printReport. intros H.
  destruct (writeFileSync w _); cbn [bind] in H; [|discriminate].
  inversion H. reflexivity.
Qed.

Lemma analyze_absent_projectType (r : Results) :
  Fs.existsSync (root w) packageJsonPath = false ->
  projectType (snd (analyze w r)) = Some "unknown"%string.
Proof.
  intros E. rewrite (analyze_absent r E).
  rewrite (try_log_keeps projectType); [reflexivity|].
  repeat apply and_then_keeps; apply step_keeps.
  - apply analyzeCodePatterns_projectType.
  - apply analyzeBundleSize_projectType.
  - apply generateRecommendations_projectType.
  - apply printReport_projectType.
Qed.

End Manifest.

(** C3, as the code has it.  When the manifest is absent,
    [detectProjectType] sets the project type to ["unknown"] and returns;
    the run goes on with the remaining analyses and ends with that
    project type.  When the manifest is there but is not JSON, the
    [SyntaxError] of [JSON.parse] leaves [detectProjectType]; [analyze]
    catches it, so it does not escape [analyze], but every remaining step
    is skipped and [this.results] stays as constructed (the project type
    stays unset). *)
Theorem C3_manifest_absent_or_malformed :
  forall (w : World) (r : PerformanceAnalyzer.Results),
    (Fs.existsSync (root w) PerformanceAnalyzer.packageJsonPath = false ->
     PerformanceAnalyzer.detectProjectType w r
     = Ret (PerformanceAnalyzer.set_projectType r "unknown")
     /\ PerformanceAnalyzer.analyze w r
        = try_log (step (PerformanceAnalyzer.analyzeCodePatterns w) >>
                   step (PerformanceAnalyzer.analyzeBundleSize w) >>
                   step PerformanceAnalyzer.generateRecommendations >>
                   step (PerformanceAnalyzer.printReport w))
                  (PerformanceAnalyzer.set_projectType r "unknown")
     /\ fst (PerformanceAnalyzer.analyze w r) = Ret tt
     /\ PerformanceAnalyzer.projectType (snd (PerformanceAnalyzer.analyze w r))
        = Some "unknown"%string)
    /\ (forall sz text,
           Fs.lookup (root w) PerformanceAnalyzer.packageJsonPath
           = Some (Fs.File sz text) ->
           JSON_parse w text = Throw SyntaxError ->
           PerformanceAnalyzer.detectProjectType w r = Throw SyntaxError
           /\ PerformanceAnalyzer.analyze w r = (Ret tt, r)).
Proof.
  intros w r. split.
  - intros E. split; [apply (detectProjectType_absent w r E)|].
    split; [apply (analyze_absent w r E)|].
    split; [apply try_log_returns|apply (analyze_absent_projectType w r E)].
  - intros sz text L P.
    pose proof (detectProjectType_malformed w r sz text SyntaxError L P) as D.
    split; [exact D|apply (analyze_first_step_throws w r SyntaxError D)].
Qed.

(** Without a manifest the project type is ["unknown"]; with the lone
    brace as manifest the run returns with the results as constructed. *)
Lemma C3_witness :
  PerformanceAnalyzer.projectType
    (snd (PerformanceAnalyzer.analyze no_manifest_world PerformanceAnalyzer.initial))
  = Some "unknown"%string
  /\ PerformanceAnalyzer.analyze malformed_manifest_world PerformanceAnalyzer.initial
     = (Ret tt, PerformanceAnalyzer.initial).
Proof.
  split.
  - apply (proj1 (C3_manifest_absent_or_malformed no_manifest_world
                    PerformanceAnalyzer.initial)).
    reflexivity.
  - apply (proj2 (C3_manifest_absent_or_malformed malformed_manifest_world
                    PerformanceAnalyzer.initial) 1%Z "{"%string); reflexivity.
Defined.

(** C3 as stated fails: with a manifest that is not JSON,
    [detectProjectType] throws instead of returning ["unknown"], the
    project type is never set, and the rest of the run (here the scan of
    [index.js]) does not take place. *)
Lemma C3_counterexample :
  PerformanceAnalyzer.detectProjectType malformed_manifest_world PerformanceAnalyzer.initial
  = Throw SyntaxError
  /\ PerformanceAnalyzer.projectType
       (snd (PerformanceAnalyzer.analyze malformed_manifest_world
               PerformanceAnalyzer.initial))
     <> Some "unknown"%string
  /\ PerformanceAnalyzer.codeAnalysis
       (snd (PerformanceAnalyzer.analyze malformed_manifest_world
               PerformanceAnalyzer.initial))
     = None.
Proof.
  split; [reflexivity|]. split; [|reflexivity].
  vm_compute. discriminate.
Qed.

(** ** The command-line entry *)

Section ExitStatus.

Import PerformanceAnalysisRunner.
Open Scope Z_scope.

Variable w : World.

(** A method guarded by [try]/[catch] never rejects. *)
Lemma run_on_try_log {S : Type} (a : M S unit) (s : S) :
  run_on (try_log a) s = Ret (snd (try_log a s)).
Proof.
  unfold run_on, try_log. destruct (a s) as [[u|e] s']; reflexivity.
Qed.

Lemma run_performance :
  run_on (PerformanceAnalyzer.analyze w) PerformanceAnalyzer.initial
  = Ret (snd (PerformanceAnalyzer.analyze w PerformanceAnalyzer.initial)).
Proof. unfold PerformanceAnalyzer.analyze. apply run_on_try_log. Qed.

Lemma run_bundle :
  run_on (BundleAnalyzer.analyze w) BundleAnalyzer.initial
  = Ret (snd (BundleAnalyzer.analyze w BundleAnalyzer.initial)).
Proof. unfold BundleAnalyzer.analyze. apply run_on_try_log. Qed.

(** The score bar is drawn for every score between 0 and 100. *)
Lemma printScoreBar_returns (s : Z) : 0 <= s <= 100 -> printScoreBar s = Ret tt.
Proof.
  intros H. unfold printScoreBar, JS.repeat, JS.round_div.
  assert (L : 0 <= (2 * (s * 40) + 100) / (2 * 100)) by (apply Z.div_pos; lia).
  assert (U : (2 * (s * 40) + 100) / (2 * 100) < 41)
    by (apply Z.div_lt_upper_bound; lia).
  set (q := (2 * (s * 40) + 100) / (2 * 100)) in *.
  replace (q <? 0) with false by (symmetry; apply Z.ltb_ge; lia). cbn [bind].
  replace (40 - q <? 0) with false by (symmetry; apply Z.ltb_ge; lia). reflexivity.
Qed.

Lemma outputConsole_returns (performance : option PerformanceAnalyzer.Results)
      (bundle : option BundleAnalyzer.Results) :
  exists results,
    outputConsole (mkRunResults performance bundle (generateSummary performance bundle))
    = Ret results.
Proof.
  unfold outputConsole. cbn [summary].
  rewrite (printScoreBar_returns _ (score_range performance bundle)).
  cbn [bind]. eexists. reflexivity.
Qed.

(** [runComplete] rejects exactly when the report file cannot be
    written. *)
Lemma runComplete_outcome (options : Options) :
  returns (runComplete w options) = negb (report_fails w options).
Proof.
  unfold runComplete, try_catch, report_fails.
  rewrite run_performance, run_bundle.
  destruct (runPerformanceAnalysis options), (runBundleAnalysis options);
    cbn [bind];
    (destruct (generateReport options); cbn [andb negb returns]; [|reflexivity]);
    unfold outputResults, outputJSON, outputHTML, writeFileSync;
    (destruct (String.eqb (outputFormat options) "json"); cbn [orb];
     [destruct (writable w); reflexivity|]);
    (destruct (String.eqb (outputFormat options) "html"); cbn [orb andb negb];
     [destruct (writable w); reflexivity|]);
    match goal with
    | |- context [outputConsole (mkRunResults ?p ?b _)] =>
        destruct (outputConsole_returns p b) as [res E]; rewrite E; reflexivity
    end.
Qed.

Lemma main_status (args : list string) :
  main w args = if report_fails w (constructor (parse_args args)) then 1 else 0.
Proof.
  unfold main.
  pose proof (runComplete_outcome (constructor (parse_args args))) as H.
  destruct (runComplete w (constructor (parse_args args)));
    destruct (report_fails w (constructor (parse_args args)));
    cbn in H; try discriminate; reflexivity.
Qed.

End ExitStatus.

(** C4, as the code has it.  The entry point exits with 0 when
    [runComplete] resolves and with 1 when it rejects.  Both analyzers
    catch their own exceptions, so [runComplete] rejects only when the
    JSON or HTML report cannot be written.  A manifest that cannot be
    parsed does not reach the entry point: the status is then 0 whenever
    the report is printed, not requested, or can be written. *)
Theorem C4_exit_status :
  forall (w : World) (args : list string),
    let options := PerformanceAnalysisRunner.constructor
                     (PerformanceAnalysisRunner.parse_args args) in
    (PerformanceAnalysisRunner.main w args = 0%Z <->
     exists results, PerformanceAnalysisRunner.runComplete w options = Ret results)
    /\ (PerformanceAnalysisRunner.main w args = 1%Z <->
        exists e, PerformanceAnalysisRunner.runComplete w options = Throw e)
    /\ PerformanceAnalysisRunner.main w args
       = (if report_fails w options then 1 else 0)%Z
    /\ (forall sz text,
           Fs.lookup (root w) PerformanceAnalyzer.packageJsonPath
           = Some (Fs.File sz text) ->
           JSON_parse w text = Throw SyntaxError ->
           report_fails w options = false ->
           PerformanceAnalyzer.detectProjectType w PerformanceAnalyzer.initial
           = Throw SyntaxError
           /\ PerformanceAnalysisRunner.main w args = 0%Z).
Proof.
  intros w args options.
  assert (S : PerformanceAnalysisRunner.main w args
              = (if report_fails w options then 1 else 0)%Z)
    by apply main_status.
  split; [|split; [|split]].
  - unfold PerformanceAnalysisRunner.main. fold options.
    destruct (PerformanceAnalysisRunner.runComplete w options) as [res|e].
    + split; [intros _; exists res; reflexivity|reflexivity].
    + split; [discriminate|]. intros [res H]. discriminate.
  - unfold PerformanceAnalysisRunner.main. fold options.
    destruct (PerformanceAnalysisRunner.runComplete w options) as [res|e].
    + split; [discriminate|]. intros [e H]. discriminate.
    + split; [intros _; exists e; reflexivity|reflexivity].
  - exact S.
  - intros sz text L P F. split.
    + apply (detectProjectType_malformed w _ sz text SyntaxError L P).
    + rewrite S, F. reflexivity.
Qed.

(** With the lone brace as manifest the status is 0; it is 1 on a
    read-only disk when the JSON report is asked for. *)
Lemma C4_witness :
  PerformanceAnalysisRunner.main malformed_manifest_world ["--json"%string] = 0%Z
  /\ PerformanceAnalysisRunner.main read_only_world ["--json"%string] = 1%Z.
Proof.
  split.
  - apply (proj2 (proj2 (proj2 (C4_exit_status malformed_manifest_world
                                  ["--json"%string])))
             1%Z "{"%string); reflexivity.
  - rewrite (proj1 (proj2 (proj2 (C4_exit_status read_only_world ["--json"%string])))).
    reflexivity.
Defined.

(** C4 as stated fails: with a manifest that cannot be parsed, the
    exception is caught inside the analyzers and the process exits with
    status 0, with or without flags. *)
Lemma C4_counterexample :
  PerformanceAnalyzer.detectProjectType malformed_manifest_world PerformanceAnalyzer.initial
  = Throw SyntaxError
  /\ ~ (PerformanceAnalysisRunner.main malformed_manifest_world [] <> 0%Z)
  /\ ~ (PerformanceAnalysisRunner.main malformed_manifest_world
          ["--performance-only"%string; "--json"%string] <> 0%Z).
Proof.
  split; [reflexivity|].
  split; intros H; apply H; vm_compute; reflexivity.
Qed.


(** * Further properties of the code *)

(** ** The stable sort, continued *)

Section SortOrder.

Variable A : Type.
Variable key : A -> Z.

Lemma insert_desc_all (P : A -> Prop) (x : A) (l : list A) :
  P x -> Forall P l -> Forall P (JS.insert_desc key x l).
Proof.
  intros Px F. induction F as [|y l Py F IH]; cbn [JS.insert_desc].
  - constructor; [exact Px|constructor].
  - destruct (key x <? key y)%Z; repeat constructor; assumption.
Qed.

Lemma insert_desc_descending (x : A) (l : list A) :
  descending key l -> descending key (JS.insert_desc key x l).
Proof.
  unfold descending. intros S. induction S as [|y l S IH F]; cbn [JS.insert_desc].
  - repeat constructor.
  - destruct (key x <? key y)%Z eqn:E.
    + constructor; [exact IH|]. apply insert_desc_all; [|exact F].
      apply Z.ltb_lt in E. lia.
    + apply Z.ltb_ge in E. constructor.
      * constructor; assumption.
      * constructor; [exact E|].
        apply Forall_forall. intros z Hz. rewrite Forall_forall in F.
        specialize (F z Hz). lia.
Qed.

Lemma sort_desc_descending (l : list A) : descending key (JS.sort_desc key l).
Proof.
  induction l as [|x l IH]; cbn [JS.sort_desc].
  - constructor.
  - apply insert_desc_descending. exact IH.
Qed.

Lemma insert_desc_with_key (k : Z) (x : A) (l : list A) :
  with_key key k (JS.insert_desc key x l) = with_key key k (x :: l).
Proof.
  unfold with_key. induction l as [|y l IH]; cbn [JS.insert_desc].
  - reflexivity.
  - destruct (key x <? key y)%Z eqn:E; [|reflexivity].
    apply Z.ltb_lt in E. cbn [filter] in *. rewrite IH.
    destruct (key x =? k)%Z eqn:Ex, (key y =? k)%Z eqn:Ey; try reflexivity.
    apply Z.eqb_eq in Ex, Ey. lia.
Qed.

(** Elements of equal key keep their order. *)
Lemma sort_desc_stable (k : Z) (l : list A) :
  with_key key k (JS.sort_desc key l) = with_key key k l.
Proof.
  induction l as [|x l IH]; cbn [JS.sort_desc].
  - reflexivity.
  - rewrite insert_desc_with_key. unfold with_key in *. cbn [filter].
    rewrite IH. reflexivity.
Qed.

End SortOrder.

(** ** The summary, continued *)

Section SummaryCounts.

Import PerformanceAnalysisRunner.
Open Scope Z_scope.

Lemma fold_tally_counts (source : string) (l : list Recommendation) :
  forall s : Summary,
    totalIssues (fold_left (tally source) l s)
    = totalIssues s + Z.of_nat (List.length l) /\
    criticalIssues (fold_left (tally source) l s)
    = criticalIssues s + with_priority "High" l /\
    recommendations (fold_left (tally source) l s)
    = (recommendations s ++ map (pair source) l)%list.
Proof.
  induction l as [|r l IH]; intros s.
  - cbn. rewrite app_nil_r. repeat split; lia.
  - cbn [fold_left]. destruct (IH (tally source s r)) as (T & C & R).
    rewrite T, C, R, (with_priority_cons "High" r l).
    unfold tally, with_priority. cbn [filter].
    destruct (String.eqb (priority r) "High");
      [|destruct (String.eqb (priority r) "Medium")];
      cbn [totalIssues criticalIssues recommendations List.length map];
      rewrite <- app_assoc; cbn [app]; repeat split; lia.
Qed.

Lemma priorities_partition (l : list Recommendation) :
  with_priority "High" l + with_priority "Medium" l + other_priority l
  = Z.of_nat (List.length l).
Proof.
  induction l as [|r l IH].
  - reflexivity.
  - rewrite (with_priority_cons "High"), (with_priority_cons "Medium"),
      other_priority_cons.
    cbn [List.length]. rewrite Nat2Z.inj_succ, <- IH.
    unfold with_priority, other_priority. cbn [filter].
    destruct (String.eqb (priority r) "High") eqn:H;
      destruct (String.eqb (priority r) "Medium") eqn:M;
      cbn [List.length negb andb]; try lia.
    apply String.eqb_eq in H, M. congruence.
Qed.

End SummaryCounts.

(** The three lists of [generateSummary], read off its two loops. *)
Lemma generateSummary_fields (performance : option PerformanceAnalyzer.Results)
      (bundle : option BundleAnalyzer.Results) :
  PerformanceAnalysisRunner.totalIssues
    (PerformanceAnalysisRunner.generateSummary performance bundle)
  = Z.of_nat (List.length (aggregated performance bundle))
  /\ PerformanceAnalysisRunner.criticalIssues
       (PerformanceAnalysisRunner.generateSummary performance bundle)
     = with_priority "High" (aggregated performance bundle)
  /\ PerformanceAnalysisRunner.recommendations
       (PerformanceAnalysisRunner.generateSummary performance bundle)
     = map (pair "Performance"%string)
           (match performance with
            | Some p => PerformanceAnalyzer.recommendations p
            | None => []
            end)
       ++ map (pair "Bundle"%string)
              (match bundle with
               | Some b => BundleAnalyzer.optimizations b
               | None => []
               end).
Proof.
  unfold PerformanceAnalysisRunner.generateSummary, aggregated.
  cbn [PerformanceAnalysisRunner.totalIssues PerformanceAnalysisRunner.criticalIssues
       PerformanceAnalysisRunner.recommendations].
  rewrite length_app, with_priority_app.
  destruct performance as [p|], bundle as [b|];
    repeat match goal with
           | |- context [fold_left (PerformanceAnalysisRunner.tally ?src) ?l ?s0] =>
               let T := fresh "T" in let C := fresh "C" in let R := fresh "R" in
               destruct (fold_tally_counts src l s0) as (T & C & R);
               rewrite T, C, R; clear T C R
           end;
    cbn [PerformanceAnalysisRunner.totalIssues PerformanceAnalysisRunner.criticalIssues
         PerformanceAnalysisRunner.recommendations List.length map app];
    change (with_priority "High" []) with 0%Z;
    rewrite ?app_nil_r; repeat split; lia.
Qed.

(** X1.  [generateSummary] counts every aggregated recommendation in
    [totalIssues] and the high-priority ones in [criticalIssues], and
    lists them tagged with their source: the recommendations of the
    performance analysis first, then the optimizations of the bundle
    analysis. *)
Theorem X1_summary_counts :
  forall (performance : option PerformanceAnalyzer.Results)
         (bundle : option BundleAnalyzer.Results),
    let s := PerformanceAnalysisRunner.generateSummary performance bundle in
    PerformanceAnalysisRunner.totalIssues s
    = Z.of_nat (List.length (aggregated performance bundle))
    /\ PerformanceAnalysisRunner.criticalIssues s
       = with_priority "High" (aggregated performance bundle)
    /\ (0 <= PerformanceAnalysisRunner.criticalIssues s
        <= PerformanceAnalysisRunner.totalIssues s)%Z
    /\ PerformanceAnalysisRunner.recommendations s
       = map (pair "Performance"%string)
             (match performance with
              | Some p => PerformanceAnalyzer.recommendations p
              | None => []
              end)
         ++ map (pair "Bundle"%string)
                (match bundle with
                 | Some b => BundleAnalyzer.optimizations b
                 | None => []
                 end).
Proof.
  intros performance bundle s. subst s.
  pose proof (generateSummary_fields performance bundle) as E.
  destruct E as (T & C & R).
  split; [exact T|]. split; [exact C|]. split; [|exact R].
  rewrite T, C.
  pose proof (priorities_partition (aggregated performance bundle)).
  pose proof (with_priority_nonneg "High" (aggregated performance bundle)).
  pose proof (with_priority_nonneg "Medium" (aggregated performance bundle)).
  pose proof (other_priority_nonneg (aggregated performance bundle)).
  lia.
Qed.

(** X2.  The score is a multiple of 5, and it is 100 exactly when there is
    no recommendation at all. *)
Theorem X2_score_steps :
  forall (performance : option PerformanceAnalyzer.Results)
         (bundle : option BundleAnalyzer.Results),
    let s := PerformanceAnalysisRunner.score
               (PerformanceAnalysisRunner.generateSummary performance bundle) in
    (5 | s)%Z /\ (s = 100%Z <-> aggregated performance bundle = []).
Proof.
  intros performance bundle s. subst s. rewrite score_formula.
  pose proof (priorities_partition (aggregated performance bundle)) as P.
  pose proof (with_priority_nonneg "High" (aggregated performance bundle)) as H.
  pose proof (with_priority_nonneg "Medium" (aggregated performance bundle)) as M.
  pose proof (other_priority_nonneg (aggregated performance bundle)) as O.
  set (h := with_priority "High" (aggregated performance bundle)) in *.
  set (m := with_priority "Medium" (aggregated performance bundle)) in *.
  set (o := other_priority (aggregated performance bundle)) in *.
  split.
  - destruct (Z.max_spec 0 (100 - 15 * h - 10 * m - 5 * o)) as [[_ ->]|[_ ->]].
    + exists (20 - 3 * h - 2 * m - o)%Z. lia.
    + exists 0%Z. reflexivity.
  - split.
    + intros E. destruct (aggregated performance bundle) as [|r l]; [reflexivity|].
      cbn [List.length] in P. lia.
    + intros E. subst h m o. rewrite E. reflexivity.
Qed.

(** X3.  [printScoreBar] draws the bar for the scores from -1 to 101 and
    throws a [RangeError] for every other score: a repeat count becomes
    negative. *)
Theorem X3_score_bar_range :
  forall s : Z,
    PerformanceAnalysisRunner.printScoreBar s
    = if ((-1 <=? s) && (s <=? 101))%Z then Ret tt else Throw RangeError.
Proof.
  intros s. unfold PerformanceAnalysisRunner.printScoreBar, JS.repeat, JS.round_div.
  set (q := ((2 * (s * 40) + 100) / (2 * 100))%Z).
  destruct (Z_lt_le_dec s (-1)) as [L|L].
  - assert (Q : (q < 0)%Z) by (apply Z.div_lt_upper_bound; lia).
    replace (q <? 0)%Z with true by (symmetry; apply Z.ltb_lt; exact Q).
    replace (-1 <=? s)%Z with false by (symmetry; apply Z.leb_gt; exact L).
    reflexivity.
  - assert (Q : (0 <= q)%Z) by (apply Z.div_pos; lia).
    replace (q <? 0)%Z with false by (symmetry; apply Z.ltb_ge; exact Q).
    replace (-1 <=? s)%Z with true by (symmetry; apply Z.leb_le; exact L).
    cbn [bind andb].
    destruct (Z_le_gt_dec s 101) as [U|U].
    + assert (Q' : (q < 41)%Z) by (apply Z.div_lt_upper_bound; lia).
      replace (40 - q <? 0)%Z with false by (symmetry; apply Z.ltb_ge; lia).
      replace (s <=? 101)%Z with true by (symmetry; apply Z.leb_le; exact U).
      reflexivity.
    + assert (Q' : (41 <= q)%Z) by (apply Z.div_le_lower_bound; lia).
      replace (40 - q <? 0)%Z with true by (symmetry; apply Z.ltb_lt; lia).
      replace (s <=? 101)%Z with false by (symmetry; apply Z.leb_gt; lia).
      reflexivity.
Qed.

(** X4.  On the results of a run whose recommendations carry the
    priorities High, Medium or Low, [outputConsole] does not throw and
    leaves the counts and the score as they are; it reorders
    [summary.recommendations] in place: the same entries, High before
    Medium before Low, entries of equal priority in their former order. *)
Theorem X4_console_output_orders_recommendations :
  forall (performance : option PerformanceAnalyzer.Results)
         (bundle : option BundleAnalyzer.Results),
    Forall known_priority (aggregated performance bundle) ->
    let s := PerformanceAnalysisRunner.generateSummary performance bundle in
    exists recs,
      PerformanceAnalysisRunner.outputConsole
        (PerformanceAnalysisRunner.mkRunResults performance bundle s)
      = Ret (PerformanceAnalysisRunner.mkRunResults performance bundle
               (PerformanceAnalysisRunner.mkSummary
                  (PerformanceAnalysisRunner.totalIssues s)
                  (PerformanceAnalysisRunner.criticalIssues s)
                  recs
                  (PerformanceAnalysisRunner.score s)))
      /\ Permutation recs (PerformanceAnalysisRunner.recommendations s)
      /\ descending PerformanceAnalysisRunner.priorityOrder recs
      /\ (forall k,
             with_key PerformanceAnalysisRunner.priorityOrder k recs
             = with_key PerformanceAnalysisRunner.priorityOrder k
                 (PerformanceAnalysisRunner.recommendations s)).
Proof.
  intros performance bundle _. cbv zeta.
  exists (JS.sort_desc PerformanceAnalysisRunner.priorityOrder
            (PerformanceAnalysisRunner.recommendations
               (PerformanceAnalysisRunner.generateSummary performance bundle))).
  split.
  - unfold PerformanceAnalysisRunner.outputConsole.
    cbn [PerformanceAnalysisRunner.summary].
    rewrite (printScoreBar_returns _ (score_range performance bundle)).
    reflexivity.
  - split; [apply sort_desc_perm|].
    split; [apply sort_desc_descending|].
    intros k. apply sort_desc_stable.
Qed.

(** One recommendation: it is printed, and the counts stay. *)
Lemma X4_witness :
  exists recs,
    PerformanceAnalysisRunner.outputConsole
      (PerformanceAnalysisRunner.mkRunResults (Some one_high_results) None
         (PerformanceAnalysisRunner.generateSummary (Some one_high_results) None))
    = Ret (PerformanceAnalysisRunner.mkRunResults (Some one_high_results) None
             (PerformanceAnalysisRunner.mkSummary 1 1 recs 85))
    /\ Permutation recs
         (PerformanceAnalysisRunner.recommendations
            (PerformanceAnalysisRunner.generateSummary (Some one_high_results) None)).
Proof.
  destruct (X4_console_output_orders_recommendations (Some one_high_results) None)
    as (recs & E & P & _).
  - repeat constructor.
  - exists recs. split; [exact E|exact P].
Defined.

(** X5.  In every analysis [analyzeBuildDirectory] returns, [jsFiles],
    [cssFiles] and [largestFiles] are in descending order of size, files
    of equal size in the order of their discovery, and [largestFiles]
    holds files above 100000 bytes only. *)
Theorem X5_build_lists_in_size_order :
  forall (w : World) (dirPath : path) (a : BundleAnalyzer.BuildAnalysis),
    BundleAnalyzer.analyzeBuildDirectory w dirPath = Ret a ->
    descending BundleAnalyzer.size (BundleAnalyzer.jsFiles a)
    /\ descending BundleAnalyzer.size (BundleAnalyzer.cssFiles a)
    /\ descending BundleAnalyzer.size (BundleAnalyzer.largestFiles a)
    /\ Forall (fun fi => (BundleAnalyzer.size fi > 100000)%Z) (BundleAnalyzer.largestFiles a)
    /\ exists L,
         BundleAnalyzer.getAllFiles w dirPath = Ret (map fst L) /\
         forall k,
           with_key BundleAnalyzer.size k (BundleAnalyzer.jsFiles a)
           = with_key BundleAnalyzer.size k (filter is_js (map info L)) /\
           with_key BundleAnalyzer.size k (BundleAnalyzer.largestFiles a)
           = with_key BundleAnalyzer.size k (filter is_large (map info L)).
Proof.
  intros w dirPath a H.
  destruct (analyzeBuildDirectory_inv w dirPath a H) as (L & G & _ & ->).
  cbn [sorted extend empty_analysis BundleAnalyzer.jsFiles BundleAnalyzer.cssFiles
       BundleAnalyzer.largestFiles app].
  split; [apply sort_desc_descending|].
  split; [apply sort_desc_descending|].
  split; [apply sort_desc_descending|].
  split.
  - pose proof (sorted_filter_all is_large (map info L)) as F.
    apply Forall_forall. intros fi Hfi. rewrite Forall_forall in F.
    specialize (F fi Hfi). unfold is_large in F. apply Z.gtb_lt in F. lia.
  - exists L. split; [exact G|]. intros k. split; apply sort_desc_stable.
Qed.

(** The scripts of [four_files_world], largest first, the two of equal
    size in directory order. *)
Lemma X5_witness :
  exists a,
    BundleAnalyzer.analyzeBuildDirectory four_files_world ["dist"%string] = Ret a /\
    map BundleAnalyzer.path_ (BundleAnalyzer.jsFiles a)
    = [ ["dist"; "b.js"]; ["dist"; "a.js"]; ["dist"; "c.js"] ]%string /\
    descending BundleAnalyzer.size (BundleAnalyzer.jsFiles a).
Proof.
  eassert (H : BundleAnalyzer.analyzeBuildDirectory four_files_world ["dist"%string]
               = Ret _) by (vm_compute; reflexivity).
  eexists. split; [exact H|]. split; [vm_compute; reflexivity|].
  apply (X5_build_lists_in_size_order four_files_world ["dist"%string] _ H).
Defined.

(** ** The command-line arguments *)

Section Arguments.

Import PerformanceAnalysisRunner.
Open Scope list_scope.

Lemma parse_arg_fields (o : RawOptions) (arg : string) :
  raw_runBundleAnalysis (parse_arg o arg)
  = (if String.eqb "--performance-only" arg then Some false else raw_runBundleAnalysis o)
  /\ raw_runPerformanceAnalysis (parse_arg o arg)
     = (if String.eqb "--bundle-only" arg then Some false
        else raw_runPerformanceAnalysis o)
  /\ raw_generateReport (parse_arg o arg)
     = (if String.eqb "--no-report" arg then Some false else raw_generateReport o)
  /\ raw_outputFormat (parse_arg o arg)
     = match format_of_flag arg with
       | Some f => Some f
       | None => raw_outputFormat o
       end.
Proof.
  unfold parse_arg, format_of_flag.
  rewrite (String.eqb_sym "--performance-only"), (String.eqb_sym "--bundle-only"),
    (String.eqb_sym "--no-report").
  destruct (String.eqb arg "--json") eqn:J.
  - apply String.eqb_eq in J. subst arg. cbn. auto.
  - destruct (String.eqb arg "--html") eqn:H.
    + apply String.eqb_eq in H. subst arg. cbn. auto.
    + destruct (String.eqb arg "--performance-only"), (String.eqb arg "--bundle-only"),
        (String.eqb arg "--no-report"); cbn; auto.
Qed.

Lemma parse_args_fields (args : list string) :
  forall o : RawOptions,
    raw_runBundleAnalysis (fold_left parse_arg args o)
    = (if has_flag "--performance-only" args then Some false else raw_runBundleAnalysis o)
    /\ raw_runPerformanceAnalysis (fold_left parse_arg args o)
       = (if has_flag "--bundle-only" args then Some false
          else raw_runPerformanceAnalysis o)
    /\ raw_generateReport (fold_left parse_arg args o)
       = (if has_flag "--no-report" args then Some false else raw_generateReport o).
Proof.
  unfold has_flag. induction args as [|arg args IH]; intros o; cbn [fold_left existsb].
  - auto.
  - destruct (IH (parse_arg o arg)) as (B & P & R). rewrite B, P, R.
    destruct (parse_arg_fields o arg) as (B' & P' & R' & _). rewrite B', P', R'.
    destruct (existsb (String.eqb "--performance-only") args),
      (existsb (String.eqb "--bundle-only") args),
      (existsb (String.eqb "--no-report") args);
      rewrite ?orb_true_r, ?orb_false_r;
      repeat split; try reflexivity;
      match goal with |- context [String.eqb ?a ?b] => destruct (String.eqb a b) end;
      reflexivity.
Qed.

Lemma last_format_flag (l : list string) :
  filter is_format_flag l <> [] ->
  format_of_flag (last (filter is_format_flag l) EmptyString) <> None.
Proof.
  intros N.
  assert (H : In (last (filter is_format_flag l) EmptyString) (filter is_format_flag l)).
  { destruct (exists_last N) as (l' & x & E). rewrite E, last_last.
    apply in_or_app. right. left. reflexivity. }
  apply filter_In in H. destruct H as [_ H].
  unfold is_format_flag in H. unfold format_of_flag.
  destruct (String.eqb _ "--json"); [discriminate|].
  destruct (String.eqb _ "--html"); [discriminate|discriminate].
Qed.

(** Of the format flags the last one decides. *)
Lemma parse_args_format (args : list string) :
  forall o : RawOptions,
    raw_outputFormat (fold_left parse_arg args o)
    = match format_of_flag (last (filter is_format_flag args) EmptyString) with
      | Some f => Some f
      | None => raw_outputFormat o
      end.
Proof.
  induction args as [|arg args IH]; intros o; cbn [fold_left filter].
  - reflexivity.
  - rewrite IH. destruct (parse_arg_fields o arg) as (_ & _ & _ & F). rewrite F.
    destruct (is_format_flag arg) eqn:A.
    + destruct (filter is_format_flag args) as [|x fl] eqn:E.
      * cbn [last]. change (format_of_flag "") with (@None string). cbv iota.
        reflexivity.
      * change (last (arg :: x :: fl) EmptyString) with (last (x :: fl) EmptyString).
        pose proof (last_format_flag args) as N. rewrite E in N.
        destruct (format_of_flag (last (x :: fl) EmptyString));
          [reflexivity|]. exfalso. apply N; [discriminate|reflexivity].
    + assert (X : format_of_flag arg = None).
      { unfold is_format_flag in A. unfold format_of_flag.
        apply orb_false_iff in A. destruct A as [-> ->]. reflexivity. }
      rewrite X. reflexivity.
Qed.

End Arguments.

(** X6.  The options of a run are read off the arguments as follows: the
    performance analysis runs unless [--bundle-only] occurs, the bundle
    analysis runs unless [--performance-only] occurs, a report is
    generated unless [--no-report] occurs, and the format is that of the
    last [--json] or [--html], the console when there is none.  Any other
    argument, the order of the arguments and repetitions make no
    difference beyond that. *)
Theorem X6_options_of_arguments :
  forall args : list string,
    PerformanceAnalysisRunner.constructor (PerformanceAnalysisRunner.parse_args args)
    = PerformanceAnalysisRunner.mkOptions
        (negb (has_flag "--bundle-only" args))
        (negb (has_flag "--performance-only" args))
        (negb (has_flag "--no-report" args))
        (match format_of_flag (last (filter is_format_flag args) EmptyString) with
         | Some f => f
         | None => "console"%string
         end).
Proof.
  intros args.
  unfold PerformanceAnalysisRunner.constructor, PerformanceAnalysisRunner.parse_args.
  destruct (parse_args_fields args
              (PerformanceAnalysisRunner.mkRawOptions None None None None))
    as (B & P & R).
  rewrite B, P, R, parse_args_format.
  cbn [PerformanceAnalysisRunner.raw_outputFormat
       PerformanceAnalysisRunner.raw_runBundleAnalysis
       PerformanceAnalysisRunner.raw_runPerformanceAnalysis
       PerformanceAnalysisRunner.raw_generateReport].
  destruct (has_flag "--bundle-only" args), (has_flag "--performance-only" args),
    (has_flag "--no-report" args),
    (format_of_flag (last (filter is_format_flag args) EmptyString));
    reflexivity.
Qed.

(** ** The build directories *)

(** X7.  What [getAllFiles] and [analyzeBuildDirectory] do with the path
    they are given: a missing path, a path that is not a directory and an
    unreadable directory make both throw the error of [readdirSync]
    ([ENOENT], [ENOTDIR], [EACCES]); an empty directory gives no file and
    the analysis with zero totals and empty lists. *)
Theorem X7_build_directory_edge_cases :
  forall (w : World) (dirPath : path),
    match Fs.lookup (root w) dirPath with
    | None =>
        BundleAnalyzer.getAllFiles w dirPath = Throw ENOENT /\
        BundleAnalyzer.analyzeBuildDirectory w dirPath = Throw ENOENT
    | Some (Fs.File _ _) | Some Fs.Other =>
        BundleAnalyzer.getAllFiles w dirPath = Throw ENOTDIR /\
        BundleAnalyzer.analyzeBuildDirectory w dirPath = Throw ENOTDIR
    | Some (Fs.Dir false _) =>
        BundleAnalyzer.getAllFiles w dirPath = Throw EACCES /\
        BundleAnalyzer.analyzeBuildDirectory w dirPath = Throw EACCES
    | Some (Fs.Dir true []) =>
        BundleAnalyzer.getAllFiles w dirPath = Ret [] /\
        BundleAnalyzer.analyzeBuildDirectory w dirPath
        = Ret (BundleAnalyzer.mkBuildAnalysis 0 0 [] [] [] [])
    | Some (Fs.Dir true (_ :: _)) => True
    end.
Proof.
  intros w dirPath.
  unfold BundleAnalyzer.analyzeBuildDirectory, BundleAnalyzer.getAllFiles.
  cbn [BundleAnalyzer.getAllFiles_rec]. unfold Fs.readdirSync.
  destruct (Fs.lookup (root w) dirPath) as [[sz ct|[|] [|e es]|]|];
    cbn; auto.
Qed.

Section BuildOutput.

Import BundleAnalyzer.
Open Scope list_scope.

Variable w : World.

Lemma set_fresh {A : Type} (k : string) (v : A) :
  forall d : dict A, ~ In k (keys d) -> set d k v = (d ++ [(k, v)])%list.
Proof.
  induction d as [|[k' v'] d IH]; cbn; intros N.
  - reflexivity.
  - destruct (String.eqb k k') eqn:E.
    + apply String.eqb_eq in E. subst. exfalso. apply N. left. reflexivity.
    + rewrite IH; [reflexivity|]. intros H. apply N. right. exact H.
Qed.

(** The loop stores the analyses of the directories it got through, in
    order, after what was stored before. *)
Lemma analyze_builds_spec (foundBuilds : list string) :
  forall r,
    NoDup foundBuilds ->
    (forall d, In d foundBuilds -> ~ In d (keys (buildSize r))) ->
    exists added rest,
      foundBuilds = keys added ++ rest /\
      buildSize (snd (analyze_builds w foundBuilds r)) = buildSize r ++ added /\
      (fst (analyze_builds w foundBuilds r) = Ret tt -> rest = []) /\
      (forall e, fst (analyze_builds w foundBuilds r) = Throw e ->
                 exists d rest', rest = d :: rest' /\
                                 analyzeBuildDirectory w (Path.join [] d) = Throw e) /\
      Forall (fun da => analyzeBuildDirectory w (Path.join [] (fst da)) = Ret (snd da))
             added.
Proof.
  induction foundBuilds as [|d l IH]; intros r N F; cbn [analyze_builds].
  - exists [], []. cbn. rewrite app_nil_r. repeat split; auto. discriminate.
  - inversion N as [|? ? N1 N2]; subst.
    destruct (analyzeBuildDirectory w (Path.join [] d)) as [a|e] eqn:E.
    + assert (Fr : ~ In d (keys (buildSize r))) by (apply F; left; reflexivity).
      rewrite (set_fresh d a _ Fr).
      destruct (IH (set_buildSize r (buildSize r ++ [(d, a)])) N2)
        as (added & rest & E1 & E2 & E3 & E4 & E5).
      { intros d' Hd'. cbn [set_buildSize buildSize].
        unfold keys. rewrite map_app, in_app_iff.
        intros [H|[H|[]]].
        - apply (F d'); [right; exact Hd'|exact H].
        - cbn in H. subst d'. contradiction. }
      exists ((d, a) :: added), rest.
      cbn [set_buildSize buildSize] in E2.
      split; [cbn; rewrite E1; reflexivity|].
      split; [rewrite E2, <- app_assoc; reflexivity|].
      split; [exact E3|]. split; [exact E4|].
      constructor; [exact E|exact E5].
    + exists [], (d :: l). cbn [keys map app fst snd]. rewrite app_nil_r.
      split; [reflexivity|]. split; [reflexivity|].
      split; [discriminate|]. split; [|constructor].
      intros e' H. inversion H; subst. exists d, l. auto.
Qed.

End BuildOutput.

(** X8.  [analyzeBuildOutput] analyses the conventional build directories
    that exist ([dist], [build], [public], [out], [.next], in this order)
    and stores each analysis under its directory name.  When none exists
    it returns with the results untouched.  When it returns, [buildSize]
    has exactly the existing directories as keys; when a directory makes
    [analyzeBuildDirectory] throw, the analyses of the directories before
    it stay stored and the later ones are not looked at. *)
Theorem X8_build_output_keys :
  forall (w : World) (r : BundleAnalyzer.Results),
    BundleAnalyzer.buildSize r = [] ->
    let found := filter (fun dir => Fs.existsSync (root w) (Path.join [] dir))
                        BundleAnalyzer.buildDirs in
    let out := BundleAnalyzer.analyzeBuildOutput w r in
    (found = [] -> out = (Ret tt, r))
    /\ exists rest,
         found = keys (BundleAnalyzer.buildSize (snd out)) ++ rest /\
         (fst out = Ret tt -> rest = []) /\
         (forall e, fst out = Throw e ->
                    exists d rest',
                      rest = d :: rest' /\
                      BundleAnalyzer.analyzeBuildDirectory w (Path.join [] d) = Throw e) /\
         Forall (fun da =>
                   BundleAnalyzer.analyzeBuildDirectory w (Path.join [] (fst da))
                   = Ret (snd da))
                (BundleAnalyzer.buildSize (snd out)).
Proof.
  intros w r E found out. split.
  - intros F. subst out. unfold BundleAnalyzer.analyzeBuildOutput. fold found.
    rewrite F. reflexivity.
  - subst out. unfold BundleAnalyzer.analyzeBuildOutput. fold found.
    destruct (analyze_builds_spec w found r) as (added & rest & E1 & E2 & E3 & E4 & E5).
    + subst found. apply NoDup_filter.
      repeat constructor; cbn; intuition discriminate.
    + intros d _. rewrite E. intros [].
    + rewrite E in E2. cbn [app] in E2. rewrite E2.
      exists rest. auto.
Qed.

(** In [four_files_world] only [dist] exists. *)
Lemma X8_witness :
  keys (BundleAnalyzer.buildSize
          (snd (BundleAnalyzer.analyzeBuildOutput four_files_world BundleAnalyzer.initial)))
  = ["dist"%string].
Proof.
  destruct (X8_build_output_keys four_files_world BundleAnalyzer.initial eq_refl)
    as (_ & rest & E & R & _).
  assert (F : fst (BundleAnalyzer.analyzeBuildOutput four_files_world
                     BundleAnalyzer.initial) = Ret tt)
    by (vm_compute; reflexivity).
  rewrite (R F), app_nil_r in E.
  assert (K : forall l : list string,
             filter (fun dir => Fs.existsSync (root four_files_world) (Path.join [] dir))
                    BundleAnalyzer.buildDirs = l -> ["dist"%string] = l)
    by (intros l <-; vm_compute; reflexivity).
  symmetry. apply K. exact E.
Defined.

(** ** [analyzeChunking], continued *)

Section ChunkLists.

Import BundleAnalyzer.
Open Scope list_scope.

Lemma chunk_pass_lists (l : list FileInfo) :
  forall a,
    hasCodeSplitting (fold_left chunk_pass l a)
    = hasCodeSplitting a || existsb chunk_file l /\
    vendorChunks (fold_left chunk_pass l a)
    = vendorChunks a ++ filter vendor_named (filter chunk_file l) /\
    entryChunks (fold_left chunk_pass l a) = entryChunks a.
Proof.
  induction l as [|f l IH]; intros a; cbn [fold_left filter existsb].
  - rewrite app_nil_r, orb_false_r. auto.
  - destruct (IH (chunk_pass a f)) as (H & V & N). rewrite H, V, N.
    unfold chunk_pass, chunk_file, vendor_named.
    destruct (is_chunk_name (Path.basename (path_ f)));
      cbn [hasCodeSplitting vendorChunks entryChunks filter orb].
    + fold (vendor_named f). unfold vendor_named.
      destruct (JS.includes (Path.basename (path_ f)) "vendor" ||
                JS.includes (Path.basename (path_ f)) "node_modules");
        rewrite ?orb_true_r, <- ?app_assoc; auto.
    + auto.
Qed.

Lemma entry_pass_lists (l : list FileInfo) :
  forall a,
    hasCodeSplitting (fold_left entry_pass l a) = hasCodeSplitting a /\
    vendorChunks (fold_left entry_pass l a) = vendorChunks a /\
    entryChunks (fold_left entry_pass l a) = entryChunks a.
Proof.
  induction l as [|f l IH]; intros a; cbn [fold_left].
  - auto.
  - destruct (IH (entry_pass a f)) as (H & V & N). rewrite H, V, N.
    unfold entry_pass. destruct (_ && _); auto.
Qed.

Lemma existsb_filter_nonempty {A : Type} (p : A -> bool) (l : list A) :
  existsb p l = true <-> filter p l <> [].
Proof.
  induction l as [|x l IH]; cbn [existsb filter].
  - split; [discriminate|]. intros H. contradiction.
  - destruct (p x); cbn [orb].
    + split; [discriminate|reflexivity].
    + exact IH.
Qed.

End ChunkLists.

(** X9.  The lists of the chunk analysis fit together: code splitting is
    reported exactly when some script is a chunk; the vendor chunks are
    the chunks whose name contains ["vendor"] or ["node_modules"], so a
    vendor chunk is always a chunk; [entryChunks] stays empty; and every
    recommendation is for a script above 500000 bytes whose path is not
    among the chunks. *)
Theorem X9_chunk_lists_fit :
  forall r : BundleAnalyzer.Results,
    exists a,
      BundleAnalyzer.analyzeChunking r = Ret (BundleAnalyzer.set_chunkAnalysis r a)
      /\ (BundleAnalyzer.hasCodeSplitting a = true <-> BundleAnalyzer.chunkFiles a <> [])
      /\ BundleAnalyzer.vendorChunks a = filter vendor_named (BundleAnalyzer.chunkFiles a)
      /\ BundleAnalyzer.entryChunks a = []
      /\ (forall rc,
             In rc (BundleAnalyzer.recommendations a) ->
             ~ In (BundleAnalyzer.rec_file rc)
                  (map BundleAnalyzer.path_ (BundleAnalyzer.chunkFiles a))
             /\ exists f, In f (all_js r) /\ rc = entry_recommendation f /\
                          (BundleAnalyzer.size f > 500000)%Z).
Proof.
  intros r. destruct (analyzeChunking_spec r) as (a & E & C & R).
  exists a. split; [exact E|].
  assert (X : BundleAnalyzer.hasCodeSplitting a = existsb chunk_file (all_js r)
              /\ BundleAnalyzer.vendorChunks a
                 = filter vendor_named (filter chunk_file (all_js r))
              /\ BundleAnalyzer.entryChunks a = []).
  { unfold BundleAnalyzer.analyzeChunking in E. rewrite !fold_left_flat_map in E.
    fold (all_js r) in E. inversion E as [Ea]. clear E C R Ea.
    set (a0 := BundleAnalyzer.mkChunkAnalysis false [] [] [] []).
    destruct (entry_pass_lists (all_js r)
                (fold_left BundleAnalyzer.chunk_pass (all_js r) a0)) as (H2 & V2 & N2).
    destruct (chunk_pass_lists (all_js r) a0) as (H1 & V1 & N1).
    rewrite H2, V2, N2, H1, V1, N1. subst a0. cbn. auto. }
  destruct X as (H & V & N). rewrite C.
  split; [rewrite H; apply existsb_filter_nonempty|].
  split; [exact V|]. split; [exact N|].
  intros rc Hrc. rewrite R in Hrc. apply in_map_iff in Hrc.
  destruct Hrc as (f & <- & Hf). apply filter_In in Hf. destruct Hf as [Hf L].
  unfold large_entry in L. apply andb_true_iff in L. destruct L as [L1 L2].
  split.
  - cbn [entry_recommendation BundleAnalyzer.rec_file]. intros I.
    apply in_map_iff in I. destruct I as (c & P & Hc).
    apply filter_In in Hc. destruct Hc as [_ Hc].
    unfold chunk_file in *. rewrite P in Hc. rewrite Hc in L2. discriminate.
  - exists f. split; [exact Hf|]. split; [reflexivity|].
    apply Z.gtb_lt in L1. lia.
Qed.

(** ** [detectBundler] *)

Section Bundler.

Import BundleAnalyzer.
Open Scope list_scope.

Variable w : World.

Lemma first_bundler_found (l : list (string * (string * string))) (b : Bundler) :
  first_bundler w l = Some b ->
  hasConfig b = true /\
  exists n config alt,
    In (n, (config, alt)) l /\ bundler_name b = n /\
    ((configFile b = Some config /\ Fs.existsSync (root w) (Path.join [] config) = true) \/
     (configFile b = Some alt /\ Fs.existsSync (root w) (Path.join [] config) = false /\
      Fs.existsSync (root w) (Path.join [] alt) = true)).
Proof.
  induction l as [|[n [config alt]] l IH]; cbn [first_bundler]; intros H.
  - discriminate.
  - destruct (Fs.existsSync (root w) (Path.join [] config)) eqn:C; cbn [orb] in H.
    + inversion H; subst. cbn [hasConfig bundler_name configFile].
      split; [reflexivity|].
      exists n, config, alt. split; [left; reflexivity|]. split; [reflexivity|].
      left. split; [reflexivity|exact C].
    + destruct (Fs.existsSync (root w) (Path.join [] alt)) eqn:A.
      * inversion H; subst. cbn [hasConfig bundler_name configFile].
        split; [reflexivity|].
        exists n, config, alt. split; [left; reflexivity|]. split; [reflexivity|].
        right. split; [reflexivity|]. split; [exact C|exact A].
      * destruct (IH H) as (Hc & n' & c' & a' & I & R).
        split; [exact Hc|]. exists n', c', a'. split; [right; exact I|exact R].
Qed.

Lemma first_bundler_none (l : list (string * (string * string))) :
  first_bundler w l = None ->
  forall n config alt,
    In (n, (config, alt)) l ->
    Fs.existsSync (root w) (Path.join [] config) = false /\
    Fs.existsSync (root w) (Path.join [] alt) = false.
Proof.
  induction l as [|[n [config alt]] l IH]; cbn [first_bundler]; intros H n' c' a' I.
  - contradiction.
  - destruct (Fs.existsSync (root w) (Path.join [] config)) eqn:C; cbn [orb] in H;
      [discriminate|].
    destruct (Fs.existsSync (root w) (Path.join [] alt)) eqn:A; [discriminate|].
    destruct I as [I|I]; [inversion I; subst; auto|apply (IH H n' c' a' I)].
Qed.

(** Without a config file the bundler is inferred from the manifest and
    carries no config file. *)
Lemma detectBundler_inferred (r r' : Results) (b : Bundler) :
  first_bundler w bundlers = None ->
  bundler r = None ->
  detectBundler w r = Ret r' ->
  bundler r' = Some b ->
  hasConfig b = false /\ configFile b = None.
Proof.
  unfold detectBundler. intros F N H B. rewrite F in H.
  destruct (Fs.existsSync (root w) packageJsonPath);
    [|inversion H; subst; congruence].
  destruct (Fs.readFileSync (root w) packageJsonPath) as [text|e]; cbn [bind] in H;
    [|discriminate].
  destruct (JSON_parse w text) as [[|pj|]|e]; cbn [bind prop] in H; try discriminate;
    repeat match type of H with
           | (if ?x then _ else _) = _ => destruct x
           end;
    inversion H; subst; cbn [set_bundler bundler] in B; inversion B; subst; auto.
Qed.

End Bundler.

(** X10.  [detectBundler] looks for config files first, in the fixed order
    webpack, vite, rollup, parcel, esbuild, snowpack.  When one exists it
    reports that bundler with a config file that is really there, without
    reading the manifest, so it cannot throw; otherwise the bundler it
    reports, if any, comes from the manifest and has no config file; and
    with neither config file nor manifest the bundler stays unset. *)
Theorem X10_bundler_config_first :
  forall (w : World) (r : BundleAnalyzer.Results),
    BundleAnalyzer.bundler r = None ->
    (forall b,
        BundleAnalyzer.first_bundler w BundleAnalyzer.bundlers = Some b ->
        BundleAnalyzer.detectBundler w r = Ret (BundleAnalyzer.set_bundler r b) /\
        BundleAnalyzer.hasConfig b = true /\
        In (BundleAnalyzer.bundler_name b) bundler_names /\
        exists f, BundleAnalyzer.configFile b = Some f /\
                  Fs.existsSync (root w) (Path.join [] f) = true)
    /\ (Fs.existsSync (root w) (Path.join [] "webpack.config.js") = true ->
        BundleAnalyzer.detectBundler w r
        = Ret (BundleAnalyzer.set_bundler r
                 (BundleAnalyzer.mkBundler "webpack" (Some "webpack.config.js"%string) true)))
    /\ (forall r' b,
           BundleAnalyzer.detectBundler w r = Ret r' ->
           BundleAnalyzer.bundler r' = Some b ->
           BundleAnalyzer.hasConfig b = true ->
           exists f, BundleAnalyzer.configFile b = Some f /\
                     Fs.existsSync (root w) (Path.join [] f) = true)
    /\ (BundleAnalyzer.first_bundler w BundleAnalyzer.bundlers = None ->
        Fs.existsSync (root w) BundleAnalyzer.packageJsonPath = false ->
        BundleAnalyzer.detectBundler w r = Ret r).
Proof.
  intros w r N.
  assert (A : forall b,
             BundleAnalyzer.first_bundler w BundleAnalyzer.bundlers = Some b ->
             BundleAnalyzer.detectBundler w r = Ret (BundleAnalyzer.set_bundler r b) /\
             BundleAnalyzer.hasConfig b = true /\
             In (BundleAnalyzer.bundler_name b) bundler_names /\
             exists f, BundleAnalyzer.configFile b = Some f /\
                       Fs.existsSync (root w) (Path.join [] f) = true).
  { intros b F. split; [unfold BundleAnalyzer.detectBundler; rewrite F; reflexivity|].
    destruct (first_bundler_found w _ b F) as (H & n & c & a & I & Nm & Cf).
    split; [exact H|]. split.
    - rewrite Nm. cbn in I. unfold bundler_names.
      decompose [or] I; try contradiction;
        match goal with E : (_, _) = (_, _) |- _ => inversion E; subst end;
        cbn; auto 10.
    - destruct Cf as [[Cf E]|[Cf [_ E]]]; eauto. }
  split; [exact A|]. split; [|split].
  - intros E. unfold BundleAnalyzer.detectBundler, BundleAnalyzer.bundlers.
    cbn [BundleAnalyzer.first_bundler]. rewrite E. reflexivity.
  - intros r' b H B Hc.
    destruct (BundleAnalyzer.first_bundler w BundleAnalyzer.bundlers) as [b0|] eqn:F.
    + destruct (A b0 eq_refl) as (D & _ & _ & X). rewrite D in H. inversion H; subst.
      cbn in B. inversion B; subst. exact X.
    + destruct (detectBundler_inferred w r r' b F N H B) as [X _]. congruence.
  - intros F E. unfold BundleAnalyzer.detectBundler. rewrite F, E. reflexivity.
Qed.

(** A project with a vite config file and a manifest that is not JSON:
    vite is detected and nothing is thrown. *)
Lemma X10_witness :
  BundleAnalyzer.detectBundler
    (mkWorld
       (Fs.Dir true [ ("package.json"%string, Fs.File 1 "{");
                      ("vite.config.ts"%string, Fs.File 20 "export default {}") ])
       example_parse true)
    BundleAnalyzer.initial
  = Ret (BundleAnalyzer.set_bundler BundleAnalyzer.initial
           (BundleAnalyzer.mkBundler "vite" (Some "vite.config.ts"%string) true)).
Proof.
  apply (proj1 (X10_bundler_config_first _ BundleAnalyzer.initial eq_refl)).
  reflexivity.
Defined.

(** ** What a run returns *)

Section RunResults.

Import PerformanceAnalysisRunner.
Open Scope list_scope.

Variable w : World.

Lemma and_then_throw {S : Type} (a b : M S unit) (s s' : S) (e : exn) :
  a s = (Throw e, s') -> (a >> b) s = (Throw e, s').
Proof.
  intros H. unfold and_then. rewrite H. reflexivity.
Qed.

Lemma and_then_step_throws {S : Type} (a : M S unit) (f : S -> result S) (e : exn) :
  (forall s, f s = Throw e) ->
  forall s, exists e' s', (a >> step f) s = (Throw e', s') /\ s' = snd (a s).
Proof.
  intros H s. unfold and_then, step. destruct (a s) as [[u|e0] s1]; cbn [snd].
  - rewrite H. eauto.
  - eauto.
Qed.

Lemma snd_try_log {S : Type} (a : M S unit) (s : S) : snd (try_log a s) = snd (a s).
Proof.
  unfold try_log. destruct (a s) as [[u|e] s']; reflexivity.
Qed.

(** A run that returns hands back the results of the analyses that were
    asked for, with the summary of these results; the console output may
    have reordered the recommendations of the summary. *)
Lemma runComplete_summary (options : Options) (res : RunResults) :
  runComplete w options = Ret res ->
  let s := generateSummary (analysed_performance w options) (analysed_bundle w options) in
  performance res = analysed_performance w options /\
  bundle res = analysed_bundle w options /\
  totalIssues (summary res) = totalIssues s /\
  criticalIssues (summary res) = criticalIssues s /\
  score (summary res) = score s /\
  Permutation (recommendations (summary res)) (recommendations s).
Proof.
  unfold runComplete, try_catch, analysed_performance, analysed_bundle.
  rewrite run_performance, run_bundle.
  set (p := if runPerformanceAnalysis options
            then Some (snd (PerformanceAnalyzer.analyze w PerformanceAnalyzer.initial))
            else None).
  set (b := if runBundleAnalysis options
            then Some (snd (BundleAnalyzer.analyze w BundleAnalyzer.initial))
            else None).
  assert (E : forall k : option PerformanceAnalyzer.Results ->
                         option BundleAnalyzer.Results -> result RunResults,
             (x <- (if runPerformanceAnalysis options
                    then r <- Ret (snd (PerformanceAnalyzer.analyze w
                                          PerformanceAnalyzer.initial)) ;;
                         Ret (Some r)
                    else Ret None) ;;
              y <- (if runBundleAnalysis options
                    then r <- Ret (snd (BundleAnalyzer.analyze w BundleAnalyzer.initial)) ;;
                         Ret (Some r)
                    else Ret None) ;;
              k x y) = k p b).
  { intros k. subst p b.
    destruct (runPerformanceAnalysis options), (runBundleAnalysis options); reflexivity. }
  match goal with
  | |- (match ?m with Ret a => _ | Throw e => _ end) = _ -> _ =>
      replace m with
        (if generateReport options
         then outputResults w options (mkRunResults p b (generateSummary p b))
         else Ret (mkRunResults p b (generateSummary p b)))
        by (symmetry; apply (E (fun x y =>
                                  if generateReport options
                                  then outputResults w options
                                         (mkRunResults x y (generateSummary x y))
                                  else Ret (mkRunResults x y (generateSummary x y)))))
  end.
  clear E. cbv zeta.
  assert (Same : forall res',
             Ret (mkRunResults p b (generateSummary p b)) = Ret res' ->
             performance res' = p /\ bundle res' = b /\
             totalIssues (summary res') = totalIssues (generateSummary p b) /\
             criticalIssues (summary res') = criticalIssues (generateSummary p b) /\
             score (summary res') = score (generateSummary p b) /\
             Permutation (recommendations (summary res'))
                         (recommendations (generateSummary p b))).
  { intros res' H. inversion H. cbn. repeat split; apply Permutation_refl. }
  destruct (generateReport options).
  - unfold outputResults, outputJSON, outputHTML, writeFileSync.
    destruct (String.eqb (outputFormat options) "json").
    + destruct (writable w); cbn [bind]; intros H; [apply Same; exact H|discriminate].
    + destruct (String.eqb (outputFormat options) "html").
      * destruct (writable w); cbn [bind]; intros H; [apply Same; exact H|discriminate].
      * unfold outputConsole. cbn [summary].
        rewrite (printScoreBar_returns _ (score_range p b)). cbn [bind].
        intros H. destruct res as [rp rb rs]. injection H as <- <- <-. cbn.
        repeat split. apply sort_desc_perm.
  - intros H. destruct (generateReport options); apply Same; exact H.
Qed.

End RunResults.

(** ** A manifest that cannot be parsed *)

Section BrokenManifest.

Import BundleAnalyzer.
Open Scope list_scope.

Variable w : World.

Lemma checkTreeShaking_malformed (s : Results) (sz : Z) (text : string) (e : exn) :
  Fs.lookup (root w) packageJsonPath = Some (Fs.File sz text) ->
  JSON_parse w text = Throw e ->
  checkTreeShaking w s = Throw e.
Proof.
  intros L P.
  assert (R : Fs.readFileSync (root w) packageJsonPath = Ret text)
    by (unfold Fs.readFileSync; rewrite L; reflexivity).
  unfold checkTreeShaking, Fs.existsSync.
  rewrite L, R. cbn [bind]. rewrite P. reflexivity.
Qed.

Lemma detectBundler_optimizations (s s' : Results) :
  detectBundler w s = Ret s' -> optimizations s' = optimizations s.
Proof.
  unfold detectBundler. intros H.
  destruct (first_bundler w bundlers); [inversion H; reflexivity|].
  destruct (Fs.existsSync (root w) packageJsonPath); [|inversion H; reflexivity].
  destruct (Fs.readFileSync (root w) packageJsonPath) as [text|e]; cbn [bind] in H;
    [|discriminate].
  destruct (JSON_parse w text) as [[|pj|]|e]; cbn [bind prop] in H;
    try discriminate;
    repeat match type of H with
           | (if ?x then _ else _) = _ => destruct x
           end;
    inversion H; reflexivity.
Qed.

Lemma analyze_builds_optimizations (l : list string) :
  forall s, optimizations (snd (analyze_builds w l s)) = optimizations s.
Proof.
  induction l as [|d l IH]; intros s; cbn [analyze_builds].
  - reflexivity.
  - destruct (analyzeBuildDirectory w (Path.join [] d)); [|reflexivity].
    rewrite IH. reflexivity.
Qed.

Lemma analyzeChunking_optimizations (s s' : Results) :
  analyzeChunking s = Ret s' -> optimizations s' = optimizations s.
Proof.
  unfold analyzeChunking. intros H. inversion H. reflexivity.
Qed.

(** With a manifest that [JSON.parse] rejects, [analyze] is stopped by
    [checkTreeShaking] at the latest: no optimization is ever generated. *)
Lemma analyze_malformed_optimizations (sz : Z) (text : string) (e : exn) :
  Fs.lookup (root w) packageJsonPath = Some (Fs.File sz text) ->
  JSON_parse w text = Throw e ->
  optimizations (snd (analyze w initial)) = [].
Proof.
  intros L P. unfold analyze. rewrite snd_try_log.
  destruct (and_then_step_throws
              (step (detectBundler w) >> analyzeBuildOutput w >> step analyzeChunking)
              (checkTreeShaking w) e
              (fun s => checkTreeShaking_malformed s sz text e L P) initial)
    as (e' & s' & T & S).
  rewrite (and_then_throw _ _ initial s' e');
    [|do 3 (apply and_then_throw); exact T].
  cbn [snd]. rewrite S.
  rewrite (and_then_keeps optimizations); [reflexivity| |].
  - apply and_then_keeps.
    + apply step_keeps. apply detectBundler_optimizations.
    + intros s. unfold analyzeBuildOutput. apply analyze_builds_optimizations.
  - apply step_keeps. apply analyzeChunking_optimizations.
Qed.

End BrokenManifest.

(** X11.  When the manifest is there but [JSON.parse] rejects it, every
    run that returns reports the perfect score: no issue, no
    recommendation, score 100, whatever the flags and whatever else the
    project holds.  Both analyses stop before they generate a
    recommendation. *)
Theorem X11_broken_manifest_scores_100 :
  forall (w : World) (sz : Z) (text : string) (e : exn)
         (options : PerformanceAnalysisRunner.Options)
         (res : PerformanceAnalysisRunner.RunResults),
    Fs.lookup (root w) PerformanceAnalyzer.packageJsonPath = Some (Fs.File sz text) ->
    JSON_parse w text = Throw e ->
    PerformanceAnalysisRunner.runComplete w options = Ret res ->
    PerformanceAnalysisRunner.score (PerformanceAnalysisRunner.summary res) = 100%Z
    /\ PerformanceAnalysisRunner.totalIssues (PerformanceAnalysisRunner.summary res) = 0%Z
    /\ PerformanceAnalysisRunner.recommendations (PerformanceAnalysisRunner.summary res)
       = [].
Proof.
  intros w sz text e options res L P H.
  destruct (runComplete_summary w options res H) as (_ & _ & T & _ & S & R).
  assert (A : aggregated (analysed_performance w options) (analysed_bundle w options) = []).
  { unfold aggregated, analysed_performance, analysed_bundle.
    destruct (PerformanceAnalysisRunner.runPerformanceAnalysis options),
      (PerformanceAnalysisRunner.runBundleAnalysis options);
      rewrite ?(analyze_first_step_throws w _ e
                  (detectProjectType_malformed w _ sz text e L P));
      rewrite ?(analyze_malformed_optimizations w sz text e L P);
      reflexivity. }
  destruct (generateSummary_fields (analysed_performance w options)
              (analysed_bundle w options)) as (T' & _ & R').
  split; [rewrite S, score_formula, A; reflexivity|].
  split; [rewrite T, T', A; reflexivity|].
  apply Permutation_nil, Permutation_sym.
  rewrite R' in R. unfold aggregated in A. apply app_eq_nil in A.
  destruct A as [A1 A2]. rewrite A1, A2 in R. exact R.
Qed.

(** The project of [malformed_manifest_world], run with [--json]: the
    report is written and shows the score 100. *)
Lemma X11_witness :
  exists res,
    PerformanceAnalysisRunner.runComplete malformed_manifest_world
      (PerformanceAnalysisRunner.constructor
         (PerformanceAnalysisRunner.parse_args ["--json"%string]))
    = Ret res
    /\ PerformanceAnalysisRunner.score (PerformanceAnalysisRunner.summary res) = 100%Z.
Proof.
  eassert (H : PerformanceAnalysisRunner.runComplete malformed_manifest_world
                 (PerformanceAnalysisRunner.constructor
                    (PerformanceAnalysisRunner.parse_args ["--json"%string]))
               = Ret _) by (vm_compute; reflexivity).
  eassert (P : JSON_parse malformed_manifest_world "{" = Throw _)
    by (vm_compute; reflexivity).
  assert (L : Fs.lookup (root malformed_manifest_world) PerformanceAnalyzer.packageJsonPath
              = Some (Fs.File 1 "{")) by (vm_compute; reflexivity).
  eexists. split; [exact H|].
  apply (X11_broken_manifest_scores_100 malformed_manifest_world 1 "{" _ _ _ L P H).
Defined.
